(** * RadarQT: the reliable-UDP telemetry layer

    A shallow embedding of [src/TelemetryReceiver/reliableudp.h] and
    [src/TelemetryReceiver/reliableudp.cpp]: the packet records and their
    JSON codec, the receiver ([ReliableUdpReceiver]) and the sender
    ([ReliableUdpSender]), followed by the properties of the specification
    that concern them.

    Conventions of the embedding.
    - [quint32] and [int] are [Z] with the wrap-around written out
      ([wrap_u32], [wrap_i32]); [double] is the kernel's binary64 [float].
    - [QDateTime] is the number of milliseconds since the epoch, a [Z].
    - A [QHash] is a [gmap]; Qt leaves its iteration order unspecified, the
      model iterates in [map_to_list] order.
    - A slot runs in the monad [Slot]: state passing over the object's
      fields, with the two ways a slot can fail to return, [Deadlock]
      (a non-recursive [QMutex] locked again by its holder) and [Fault]
      (an index outside a [QList]).
    - What the object does to the outside (signals emitted, datagrams
      written to the socket) is appended to the field [emitted].
    - What the outside does to the object (the clock, whether the socket
      accepts a datagram) is the [Env] a slot is run in. *)

From Stdlib Require Import ZArith Lia Bool String.
From Stdlib Require Import Floats.PrimFloat Floats.FloatOps Floats.SpecFloat.
From Stdlib Require Import Floats.FloatAxioms.
From Stdlib Require Import Numbers.Cyclic.Int63.Uint63.
From stdpp Require Import base option list gmap fin_maps sorting strings.

Local Open Scope Z_scope.

(** ** Fixed-width arithmetic *)

Module Machine.

Definition UINT32_MOD : Z := 2 ^ 32.
Definition INT_MAX : Z := 2 ^ 31 - 1.
Definition INT_MIN : Z := - 2 ^ 31.

(** [quint32] arithmetic: the result modulo 2^32. *)
Definition wrap_u32 (z : Z) : Z := z mod UINT32_MOD.

(** [int] arithmetic as the two's complement machines the program runs
    on compute it (and as [std::atomic<int>] defines it). *)
Definition wrap_i32 (z : Z) : Z := (z + 2 ^ 31) mod UINT32_MOD - 2 ^ 31.

Definition is_u32 (z : Z) : Prop := 0 <= z < UINT32_MOD.
Definition is_i32 (z : Z) : Prop := INT_MIN <= z <= INT_MAX.

(** [double(n)] for an integer [n]: exact below 2^53. *)
Definition double_of_Z (z : Z) : float :=
  if z <? 0 then PrimFloat.opp (PrimFloat.of_uint63 (Uint63.of_Z (- z)))
  else PrimFloat.of_uint63 (Uint63.of_Z z).

End Machine.
Import Machine.

(** ** The slot monad *)

Inductive Outcome (A : Type) : Type :=
| Done (a : A)
| Deadlock
| Fault.
Arguments Done {A} a.
Arguments Deadlock {A}.
Arguments Fault {A}.

Definition Slot (S A : Type) : Type := S -> Outcome (A * S).

Definition ret {S A} (a : A) : Slot S A := fun s => Done (a, s).

Definition bind {S A B} (c : Slot S A) (k : A -> Slot S B) : Slot S B :=
  fun s => match c s with
           | Done (a, s') => k a s'
           | Deadlock => Deadlock
           | Fault => Fault
           end.

Definition get {S} : Slot S S := fun s => Done (s, s).
Definition gets {S A} (f : S -> A) : Slot S A := fun s => Done (f s, s).
Definition modify {S} (f : S -> S) : Slot S unit := fun s => Done (tt, f s).
Definition fault {S A} : Slot S A := fun _ => Fault.

Declare Scope slot_scope.
Delimit Scope slot_scope with slot.
Notation "'do' x <- c ';' k" := (bind c (fun x => k))
  (at level 10, x name, c at level 100, k at level 200) : slot_scope.
Notation "c ';;;' k" := (bind c (fun _ => k))
  (at level 100, k at level 200, right associativity) : slot_scope.

(** The state a slot leaves behind, when it returns. *)
Definition exec {S A} (c : Slot S A) (s : S) : Outcome S :=
  match c s with
  | Done (_, s') => Done s'
  | Deadlock => Deadlock
  | Fault => Fault
  end.

(** A mutex is a flag in the object's state, reached through a getter and
    a setter. [QMutex] is not recursive: [lock] by the thread that holds
    it never returns. *)
Section Locks.
Context {S : Type} (held : S -> bool) (set_held : bool -> S -> S).

Definition lock : Slot S unit :=
  fun s => if held s then Deadlock else Done (tt, set_held true s).

Definition unlock : Slot S unit :=
  fun s => Done (tt, set_held false s).

(** [QMutexLocker], [QWriteLocker]: the lock is taken where the locker is
    declared and released where its scope ends, however it is left. *)
Definition locked {A} (body : Slot S A) : Slot S A :=
  (lock ;;; do r <- body ; unlock ;;; ret r)%slot.
End Locks.

(** [for (x : xs) body]. *)
Fixpoint for_each {S A} (xs : list A) (body : A -> Slot S unit) : Slot S unit :=
  match xs with
  | [] => ret tt
  | x :: rest => (body x ;;; for_each rest body)%slot
  end.

(** ** Wire documents

    [QJsonDocument::fromJson] and [QJsonDocument::toJson] belong to Qt, not
    to this repository: a datagram is represented by the object Qt's parser
    returns on its payload (or by the parse error), and a datagram written
    by the object it was built from. *)

Inductive QJsonValue : Type :=
| JUndefined
| JNull
| JBool (b : bool)
| JInteger (n : Z)
| JDouble (d : float)
| JString (s : string)
| JNested.

Abbreviation QJsonObject := (gmap string QJsonValue).

(** [obj[key]]: the value, [Undefined] for an absent key. *)
Definition jget (obj : QJsonObject) (key : string) : QJsonValue :=
  default JUndefined (obj !! key).

Definition jcontains (obj : QJsonObject) (key : string) : bool :=
  bool_decide (is_Some (obj !! key)).

(** The whole number a finite double is, if it is one. *)
Definition whole_of_double (d : float) : option Z :=
  match Prim2SF d with
  | S754_zero _ => Some 0
  | S754_finite sgn m e =>
      let mag :=
        if 0 <=? e then Some (Z.pos m * 2 ^ e)
        else if Z.pos m mod 2 ^ (- e) =? 0 then Some (Z.pos m / 2 ^ (- e))
        else None in
      (fun v : Z => if sgn then - v else v) <$> mag
  | _ => None
  end.

(** [QJsonValue::toInt()]: the value when it is a whole number that an
    [int] holds, 0 otherwise. *)
Definition toInt (v : QJsonValue) : Z :=
  match v with
  | JInteger n => if (INT_MIN <=? n) && (n <=? INT_MAX) then n else 0
  | JDouble d =>
      match whole_of_double d with
      | Some n => if (INT_MIN <=? n) && (n <=? INT_MAX) then n else 0
      | None => 0
      end
  | _ => 0
  end.

(** [toVariant().toLongLong()], for the whole numbers [toJson] writes (a
    number with a fractional part, which Qt rounds, is read as 0 here: no
    slot of the receiver or the sender looks at a decoded timestamp). *)
Definition toLongLong (v : QJsonValue) : Z :=
  match v with
  | JInteger n => n
  | JDouble d => default 0 (whole_of_double d)
  | JBool b => if b then 1 else 0
  | _ => 0
  end.

Definition toDouble (v : QJsonValue) : float :=
  match v with
  | JInteger n => double_of_Z n
  | JDouble d => d
  | _ => 0%float
  end.

Definition toString (v : QJsonValue) : string :=
  match v with
  | JString s => s
  | _ => ""%string
  end.

Definition toBool (v : QJsonValue) : bool :=
  match v with
  | JBool b => b
  | _ => false
  end.

(** ** Packets ([reliableudp.h]) *)

Record TelemetryPacket : Type := mkTelemetryPacket {
  sequenceNumber : Z;          (* quint32 *)
  timestamp : Z;               (* QDateTime *)
  latitude : float;
  longitude : float;
  speed : float;
  status : string;
  needsAck : bool
}.

(** The default constructor; a null [QDateTime] is read as the epoch. *)
Definition TelemetryPacket_default : TelemetryPacket :=
  {| sequenceNumber := 0; timestamp := 0;
     latitude := 0%float; longitude := 0%float; speed := 0%float;
     status := ""; needsAck := false |}.

Definition TelemetryPacket_toJson (p : TelemetryPacket) : QJsonObject :=
  <["seq"%string := JInteger (sequenceNumber p)]>
  (<["timestamp"%string := JInteger (timestamp p)]>
  (<["latitude"%string := JDouble (latitude p)]>
  (<["longitude"%string := JDouble (longitude p)]>
  (<["speed"%string := JDouble (speed p)]>
  (<["status"%string := JString (status p)]>
  (<["needsAck"%string := JBool (needsAck p)]> ∅)))))).

Definition TelemetryPacket_fromJson (obj : QJsonObject) : TelemetryPacket :=
  {| sequenceNumber := wrap_u32 (toInt (jget obj "seq"));
     timestamp := toLongLong (jget obj "timestamp");
     latitude := toDouble (jget obj "latitude");
     longitude := toDouble (jget obj "longitude");
     speed := toDouble (jget obj "speed");
     status := toString (jget obj "status");
     needsAck := toBool (jget obj "needsAck") |}.

Record AckPacket : Type := mkAckPacket {
  ack_sequenceNumber : Z;      (* quint32 *)
  ack_timestamp : Z
}.

Definition AckPacket_toJson (a : AckPacket) : QJsonObject :=
  <["type"%string := JString "ACK"]>
  (<["seq"%string := JInteger (ack_sequenceNumber a)]>
  (<["timestamp"%string := JInteger (ack_timestamp a)]> ∅)).

Definition AckPacket_fromJson (obj : QJsonObject) : AckPacket :=
  {| ack_sequenceNumber := wrap_u32 (toInt (jget obj "seq"));
     ack_timestamp := toLongLong (jget obj "timestamp") |}.

(** [obj.contains("type") && obj["type"].toString() == "ACK"]. *)
Definition is_ack_document (obj : QJsonObject) : bool :=
  jcontains obj "type" && bool_decide (toString (jget obj "type") = "ACK"%string).

(** ** The wire

    Between the object a sender writes and the object a receiver reads lie
    [QJsonDocument::toJson] and [QJsonDocument::fromJson]. JSON text has no
    NaN and no infinity: Qt writes [null] for a double that is not finite,
    and [null] is read back as 0 by [toDouble()]. A zero is written without
    its sign. Every other double is written with the digits that read back
    to it, and whole numbers, strings and booleans come back as they
    went. *)
Definition wire_value (v : QJsonValue) : QJsonValue :=
  match v with
  | JDouble d =>
      if PrimFloat.is_nan d || PrimFloat.is_infinity d then JNull
      else if PrimFloat.is_zero d then JDouble 0%float
      else JDouble d
  | _ => v
  end.

Definition on_the_wire (obj : QJsonObject) : QJsonObject := wire_value <$> obj.

(** What [toDouble()] reads on the far side of the wire for a double
    written on this side. *)
Definition wire_double (d : float) : float := toDouble (wire_value (JDouble d)).

(** ** The outside of an object *)

(** A [QNetworkDatagram] as the receive loops read it. [dg_document] is
    what [QJsonDocument::fromJson(datagram.data(), &parseError)] followed by
    [doc.object()] gives: [None] for a parse error. *)
Record Datagram : Type := mkDatagram {
  dg_isValid : bool;
  dg_document : option QJsonObject;
  dg_senderAddress : string;
  dg_senderPort : Z
}.

(** What a slot does that its callers and peers can observe. *)
Inductive Event : Type :=
| telemetryDataReceived (p : TelemetryPacket)
| statisticsUpdated
| ackReceived (seq : Z)
| packetTimeout (seq : Z)
| writeDatagram (payload : QJsonObject) (address : string) (port : Z) (sent_ok : bool).

(** What a slot reads from outside: [QDateTime::currentDateTime()], taken as
    one instant for the run of a slot, and whether
    [QUdpSocket::writeDatagram] accepts a payload (returns something other
    than -1). *)
Record Env : Type := mkEnv {
  currentDateTime : Z;
  socket_accepts : QJsonObject -> bool
}.

(** ** The receiver ([ReliableUdpReceiver]) *)

Module Receiver.

(** The fields of the class that its slots read or write; the socket and
    the timers are the [Env] and the caller. [m_processingQueue] is
    declared and never used. *)
Record ReliableUdpReceiver : Type := mkReceiver {
  m_socketLock : bool;
  m_dataLock : bool;
  m_receivedPackets : gmap Z TelemetryPacket;
  m_expectedSequenceNumber : Z;
  m_lastValidSequenceNumber : Z;
  m_lastValidPacket : TelemetryPacket;
  m_interpolationEnabled : bool;
  m_maxBufferSize : Z;
  m_packetTimeoutMs : Z;
  m_packetsReceived : Z;
  m_packetsLost : Z;
  m_packetsInterpolated : Z;
  m_acksSent : Z;
  emitted : list Event
}.

Definition set_socketLock (v : bool) (r : ReliableUdpReceiver) : ReliableUdpReceiver :=
  {| m_socketLock := v;
     m_dataLock := m_dataLock r;
     m_receivedPackets := m_receivedPackets r;
     m_expectedSequenceNumber := m_expectedSequenceNumber r;
     m_lastValidSequenceNumber := m_lastValidSequenceNumber r;
     m_lastValidPacket := m_lastValidPacket r;
     m_interpolationEnabled := m_interpolationEnabled r;
     m_maxBufferSize := m_maxBufferSize r;
     m_packetTimeoutMs := m_packetTimeoutMs r;
     m_packetsReceived := m_packetsReceived r;
     m_packetsLost := m_packetsLost r;
     m_packetsInterpolated := m_packetsInterpolated r;
     m_acksSent := m_acksSent r;
     emitted := emitted r |}.

Definition set_dataLock (v : bool) (r : ReliableUdpReceiver) : ReliableUdpReceiver :=
  {| m_socketLock := m_socketLock r;
     m_dataLock := v;
     m_receivedPackets := m_receivedPackets r;
     m_expectedSequenceNumber := m_expectedSequenceNumber r;
     m_lastValidSequenceNumber := m_lastValidSequenceNumber r;
     m_lastValidPacket := m_lastValidPacket r;
     m_interpolationEnabled := m_interpolationEnabled r;
     m_maxBufferSize := m_maxBufferSize r;
     m_packetTimeoutMs := m_packetTimeoutMs r;
     m_packetsReceived := m_packetsReceived r;
     m_packetsLost := m_packetsLost r;
     m_packetsInterpolated := m_packetsInterpolated r;
     m_acksSent := m_acksSent r;
     emitted := emitted r |}.

Definition set_receivedPackets (v : gmap Z TelemetryPacket) (r : ReliableUdpReceiver) : ReliableUdpReceiver :=
  {| m_socketLock := m_socketLock r;
     m_dataLock := m_dataLock r;
     m_receivedPackets := v;
     m_expectedSequenceNumber := m_expectedSequenceNumber r;
     m_lastValidSequenceNumber := m_lastValidSequenceNumber r;
     m_lastValidPacket := m_lastValidPacket r;
     m_interpolationEnabled := m_interpolationEnabled r;
     m_maxBufferSize := m_maxBufferSize r;
     m_packetTimeoutMs := m_packetTimeoutMs r;
     m_packetsReceived := m_packetsReceived r;
     m_packetsLost := m_packetsLost r;
     m_packetsInterpolated := m_packetsInterpolated r;
     m_acksSent := m_acksSent r;
     emitted := emitted r |}.

Definition set_expectedSequenceNumber (v : Z) (r : ReliableUdpReceiver) : ReliableUdpReceiver :=
  {| m_socketLock := m_socketLock r;
     m_dataLock := m_dataLock r;
     m_receivedPackets := m_receivedPackets r;
     m_expectedSequenceNumber := v;
     m_lastValidSequenceNumber := m_lastValidSequenceNumber r;
     m_lastValidPacket := m_lastValidPacket r;
     m_interpolationEnabled := m_interpolationEnabled r;
     m_maxBufferSize := m_maxBufferSize r;
     m_packetTimeoutMs := m_packetTimeoutMs r;
     m_packetsReceived := m_packetsReceived r;
     m_packetsLost := m_packetsLost r;
     m_packetsInterpolated := m_packetsInterpolated r;
     m_acksSent := m_acksSent r;
     emitted := emitted r |}.

Definition set_lastValidSequenceNumber (v : Z) (r : ReliableUdpReceiver) : ReliableUdpReceiver :=
  {| m_socketLock := m_socketLock r;
     m_dataLock := m_dataLock r;
     m_receivedPackets := m_receivedPackets r;
     m_expectedSequenceNumber := m_expectedSequenceNumber r;
     m_lastValidSequenceNumber := v;
     m_lastValidPacket := m_lastValidPacket r;
     m_interpolationEnabled := m_interpolationEnabled r;
     m_maxBufferSize := m_maxBufferSize r;
     m_packetTimeoutMs := m_packetTimeoutMs r;
     m_packetsReceived := m_packetsReceived r;
     m_packetsLost := m_packetsLost r;
     m_packetsInterpolated := m_packetsInterpolated r;
     m_acksSent := m_acksSent r;
     emitted := emitted r |}.

Definition set_lastValidPacket (v : TelemetryPacket) (r : ReliableUdpReceiver) : ReliableUdpReceiver :=
  {| m_socketLock := m_socketLock r;
     m_dataLock := m_dataLock r;
     m_receivedPackets := m_receivedPackets r;
     m_expectedSequenceNumber := m_expectedSequenceNumber r;
     m_lastValidSequenceNumber := m_lastValidSequenceNumber r;
     m_lastValidPacket := v;
     m_interpolationEnabled := m_interpolationEnabled r;
     m_maxBufferSize := m_maxBufferSize r;
     m_packetTimeoutMs := m_packetTimeoutMs r;
     m_packetsReceived := m_packetsReceived r;
     m_packetsLost := m_packetsLost r;
     m_packetsInterpolated := m_packetsInterpolated r;
     m_acksSent := m_acksSent r;
     emitted := emitted r |}.

Definition set_interpolationEnabled (v : bool) (r : ReliableUdpReceiver) : ReliableUdpReceiver :=
  {| m_socketLock := m_socketLock r;
     m_dataLock := m_dataLock r;
     m_receivedPackets := m_receivedPackets r;
     m_expectedSequenceNumber := m_expectedSequenceNumber r;
     m_lastValidSequenceNumber := m_lastValidSequenceNumber r;
     m_lastValidPacket := m_lastValidPacket r;
     m_interpolationEnabled := v;
     m_maxBufferSize := m_maxBufferSize r;
     m_packetTimeoutMs := m_packetTimeoutMs r;
     m_packetsReceived := m_packetsReceived r;
     m_packetsLost := m_packetsLost r;
     m_packetsInterpolated := m_packetsInterpolated r;
     m_acksSent := m_acksSent r;
     emitted := emitted r |}.

Definition set_maxBufferSize (v : Z) (r : ReliableUdpReceiver) : ReliableUdpReceiver :=
  {| m_socketLock := m_socketLock r;
     m_dataLock := m_dataLock r;
     m_receivedPackets := m_receivedPackets r;
     m_expectedSequenceNumber := m_expectedSequenceNumber r;
     m_lastValidSequenceNumber := m_lastValidSequenceNumber r;
     m_lastValidPacket := m_lastValidPacket r;
     m_interpolationEnabled := m_interpolationEnabled r;
     m_maxBufferSize := v;
     m_packetTimeoutMs := m_packetTimeoutMs r;
     m_packetsReceived := m_packetsReceived r;
     m_packetsLost := m_packetsLost r;
     m_packetsInterpolated := m_packetsInterpolated r;
     m_acksSent := m_acksSent r;
     emitted := emitted r |}.

Definition set_packetTimeoutMs (v : Z) (r : ReliableUdpReceiver) : ReliableUdpReceiver :=
  {| m_socketLock := m_socketLock r;
     m_dataLock := m_dataLock r;
     m_receivedPackets := m_receivedPackets r;
     m_expectedSequenceNumber := m_expectedSequenceNumber r;
     m_lastValidSequenceNumber := m_lastValidSequenceNumber r;
     m_lastValidPacket := m_lastValidPacket r;
     m_interpolationEnabled := m_interpolationEnabled r;
     m_maxBufferSize := m_maxBufferSize r;
     m_packetTimeoutMs := v;
     m_packetsReceived := m_packetsReceived r;
     m_packetsLost := m_packetsLost r;
     m_packetsInterpolated := m_packetsInterpolated r;
     m_acksSent := m_acksSent r;
     emitted := emitted r |}.

Definition set_packetsReceived (v : Z) (r : ReliableUdpReceiver) : ReliableUdpReceiver :=
  {| m_socketLock := m_socketLock r;
     m_dataLock := m_dataLock r;
     m_receivedPackets := m_receivedPackets r;
     m_expectedSequenceNumber := m_expectedSequenceNumber r;
     m_lastValidSequenceNumber := m_lastValidSequenceNumber r;
     m_lastValidPacket := m_lastValidPacket r;
     m_interpolationEnabled := m_interpolationEnabled r;
     m_maxBufferSize := m_maxBufferSize r;
     m_packetTimeoutMs := m_packetTimeoutMs r;
     m_packetsReceived := v;
     m_packetsLost := m_packetsLost r;
     m_packetsInterpolated := m_packetsInterpolated r;
     m_acksSent := m_acksSent r;
     emitted := emitted r |}.

Definition set_packetsLost (v : Z) (r : ReliableUdpReceiver) : ReliableUdpReceiver :=
  {| m_socketLock := m_socketLock r;
     m_dataLock := m_dataLock r;
     m_receivedPackets := m_receivedPackets r;
     m_expectedSequenceNumber := m_expectedSequenceNumber r;
     m_lastValidSequenceNumber := m_lastValidSequenceNumber r;
     m_lastValidPacket := m_lastValidPacket r;
     m_interpolationEnabled := m_interpolationEnabled r;
     m_maxBufferSize := m_maxBufferSize r;
     m_packetTimeoutMs := m_packetTimeoutMs r;
     m_packetsReceived := m_packetsReceived r;
     m_packetsLost := v;
     m_packetsInterpolated := m_packetsInterpolated r;
     m_acksSent := m_acksSent r;
     emitted := emitted r |}.

Definition set_packetsInterpolated (v : Z) (r : ReliableUdpReceiver) : ReliableUdpReceiver :=
  {| m_socketLock := m_socketLock r;
     m_dataLock := m_dataLock r;
     m_receivedPackets := m_receivedPackets r;
     m_expectedSequenceNumber := m_expectedSequenceNumber r;
     m_lastValidSequenceNumber := m_lastValidSequenceNumber r;
     m_lastValidPacket := m_lastValidPacket r;
     m_interpolationEnabled := m_interpolationEnabled r;
     m_maxBufferSize := m_maxBufferSize r;
     m_packetTimeoutMs := m_packetTimeoutMs r;
     m_packetsReceived := m_packetsReceived r;
     m_packetsLost := m_packetsLost r;
     m_packetsInterpolated := v;
     m_acksSent := m_acksSent r;
     emitted := emitted r |}.

Definition set_acksSent (v : Z) (r : ReliableUdpReceiver) : ReliableUdpReceiver :=
  {| m_socketLock := m_socketLock r;
     m_dataLock := m_dataLock r;
     m_receivedPackets := m_receivedPackets r;
     m_expectedSequenceNumber := m_expectedSequenceNumber r;
     m_lastValidSequenceNumber := m_lastValidSequenceNumber r;
     m_lastValidPacket := m_lastValidPacket r;
     m_interpolationEnabled := m_interpolationEnabled r;
     m_maxBufferSize := m_maxBufferSize r;
     m_packetTimeoutMs := m_packetTimeoutMs r;
     m_packetsReceived := m_packetsReceived r;
     m_packetsLost := m_packetsLost r;
     m_packetsInterpolated := m_packetsInterpolated r;
     m_acksSent := v;
     emitted := emitted r |}.

Definition set_emitted (v : list Event) (r : ReliableUdpReceiver) : ReliableUdpReceiver :=
  {| m_socketLock := m_socketLock r;
     m_dataLock := m_dataLock r;
     m_receivedPackets := m_receivedPackets r;
     m_expectedSequenceNumber := m_expectedSequenceNumber r;
     m_lastValidSequenceNumber := m_lastValidSequenceNumber r;
     m_lastValidPacket := m_lastValidPacket r;
     m_interpolationEnabled := m_interpolationEnabled r;
     m_maxBufferSize := m_maxBufferSize r;
     m_packetTimeoutMs := m_packetTimeoutMs r;
     m_packetsReceived := m_packetsReceived r;
     m_packetsLost := m_packetsLost r;
     m_packetsInterpolated := m_packetsInterpolated r;
     m_acksSent := m_acksSent r;
     emitted := v |}.

Abbreviation R := ReliableUdpReceiver.

(** The constructor's initialiser list. *)
Definition init : R :=
  {| m_socketLock := false; m_dataLock := false;
     m_receivedPackets := ∅;
     m_expectedSequenceNumber := 1;
     m_lastValidSequenceNumber := 0;
     m_lastValidPacket := TelemetryPacket_default;
     m_interpolationEnabled := true;
     m_maxBufferSize := 1000;
     m_packetTimeoutMs := 5000;
     m_packetsReceived := 0; m_packetsLost := 0;
     m_packetsInterpolated := 0; m_acksSent := 0;
     emitted := [] |}.

Definition emit (e : Event) : Slot R unit :=
  modify (fun r => set_emitted (emitted r ++ [e]) r).

Definition updateStatistics : Slot R unit := emit statisticsUpdated.

Definition sendAck (env : Env) (seqNum : Z) (sender : string) (senderPort : Z)
  : Slot R unit :=
  let ack := {| ack_sequenceNumber := seqNum;
                ack_timestamp := currentDateTime env |} in
  let data := AckPacket_toJson ack in
  locked m_socketLock set_socketLock
    (let sent := socket_accepts env data in
     emit (writeDatagram data sender senderPort sent) ;;;
     if sent
     then modify (fun r => set_acksSent (wrap_i32 (m_acksSent r + 1)) r)
     else ret tt)%slot.

Definition processReceivedPacket (packet : TelemetryPacket) : Slot R unit :=
  locked m_dataLock set_dataLock
    (modify (fun r => set_packetsReceived (wrap_i32 (m_packetsReceived r + 1)) r) ;;;
     do r <- get ;
     (if m_lastValidSequenceNumber r <=? sequenceNumber packet
      then modify (fun r => set_lastValidPacket packet
                              (set_lastValidSequenceNumber (sequenceNumber packet) r))
      else ret tt) ;;;
     emit (telemetryDataReceived packet) ;;;
     do r <- get ;
     (if m_expectedSequenceNumber r <=? sequenceNumber packet
      then modify (set_expectedSequenceNumber (wrap_u32 (sequenceNumber packet + 1)))
      else ret tt) ;;;
     updateStatistics)%slot.

(** The body of the [while (m_socket->hasPendingDatagrams())] loop, for
    one datagram; [continue] is [ret tt]. *)
Definition processDatagram (env : Env) (datagram : Datagram) : Slot R unit :=
  if dg_isValid datagram then
    match dg_document datagram with
    | None => ret tt
    | Some obj =>
        if is_ack_document obj then ret tt
        else
          let packet := TelemetryPacket_fromJson obj in
          ((if needsAck packet
            then sendAck env (sequenceNumber packet)
                   (dg_senderAddress datagram) (dg_senderPort datagram)
            else ret tt) ;;;
           processReceivedPacket packet)%slot
    end
  else ret tt.

(** [pending] is what the socket hands out while the loop runs. *)
Definition processPendingDatagrams (env : Env) (pending : list Datagram) : Slot R unit :=
  locked m_socketLock set_socketLock (for_each pending (processDatagram env)).

(** The two searches of [interpolatePacket]. Each is a [for] loop over a
    [quint32] index; [fuel] bounds the number of iterations the model
    runs, and [scan_fuel] is more than either loop can take
    ([find_before_fuel], [find_after_fuel]). *)
Fixpoint find_before (fuel : nat) (buf : gmap Z TelemetryPacket)
    (seqNum i : Z) : option TelemetryPacket :=
  match fuel with
  | O => None
  | S fuel' =>
      if (0 <? i) && (wrap_u32 (seqNum - 10) <? i) then
        match buf !! i with
        | Some p => Some p
        | None => find_before fuel' buf seqNum (wrap_u32 (i - 1))
        end
      else None
  end.

Fixpoint find_after (fuel : nat) (buf : gmap Z TelemetryPacket)
    (seqNum i : Z) : option TelemetryPacket :=
  match fuel with
  | O => None
  | S fuel' =>
      if i <? wrap_u32 (seqNum + 10) then
        match buf !! i with
        | Some p => Some p
        | None => find_after fuel' buf seqNum (wrap_u32 (i + 1))
        end
      else None
  end.

Definition scan_fuel : nat := 10.

(** [double(a - b)] for two [quint32]. *)
Definition double_of_diff (a b : Z) : float := double_of_Z (wrap_u32 (a - b)).

Definition lerp (factor before after : float) : float :=
  (before + factor * (after - before))%float.

Definition interpolatePacket (env : Env) (r : R) (seqNum : Z) : TelemetryPacket :=
  let before := find_before scan_fuel (m_receivedPackets r) seqNum
                  (wrap_u32 (seqNum - 1)) in
  let after := find_after scan_fuel (m_receivedPackets r) seqNum
                  (wrap_u32 (seqNum + 1)) in
  let interpolated (lat lon spd : float) :=
    {| sequenceNumber := seqNum;
       timestamp := currentDateTime env;
       latitude := lat; longitude := lon; speed := spd;
       status := "INTERPOLATED";
       needsAck := false |} in
  match before, after with
  | Some beforePacket, Some afterPacket =>
      let factor :=
        (double_of_diff seqNum (sequenceNumber beforePacket)
         / double_of_diff (sequenceNumber afterPacket) (sequenceNumber beforePacket))%float in
      interpolated (lerp factor (latitude beforePacket) (latitude afterPacket))
                   (lerp factor (longitude beforePacket) (longitude afterPacket))
                   (lerp factor (speed beforePacket) (speed afterPacket))
  | Some beforePacket, None =>
      interpolated (latitude beforePacket) (longitude beforePacket) (speed beforePacket)
  | None, Some afterPacket =>
      interpolated (latitude afterPacket) (longitude afterPacket) (speed afterPacket)
  | None, None =>
      interpolated (latitude (m_lastValidPacket r)) (longitude (m_lastValidPacket r))
                   (speed (m_lastValidPacket r))
  end.

(** The body of the loop of [checkForMissingPackets], for one [seq]. *)
Definition checkSequence (env : Env) (seq : Z) : Slot R unit :=
  (do r <- get ;
   if bool_decide (is_Some (m_receivedPackets r !! seq)) then ret tt
   else
     modify (fun r => set_packetsLost (wrap_i32 (m_packetsLost r + 1)) r) ;;;
     (if m_interpolationEnabled r then
        do interpolated <- gets (fun r => interpolatePacket env r seq) ;
        emit (telemetryDataReceived interpolated) ;;;
        modify (fun r => set_packetsInterpolated (wrap_i32 (m_packetsInterpolated r + 1)) r)
      else
        let lastPacket :=
          {| sequenceNumber := seq;
             timestamp := currentDateTime env;
             latitude := latitude (m_lastValidPacket r);
             longitude := longitude (m_lastValidPacket r);
             speed := speed (m_lastValidPacket r);
             status := status (m_lastValidPacket r);
             needsAck := needsAck (m_lastValidPacket r) |} in
        emit (telemetryDataReceived lastPacket)) ;;;
     modify (set_expectedSequenceNumber (wrap_u32 (seq + 1))))%slot.

(** [for (quint32 seq = m_expectedSequenceNumber;
          seq < m_lastValidSequenceNumber; ++seq)]: the loop variable is
    a local, and the bound is not written in the loop. *)
Definition checkForMissingPackets (env : Env) : Slot R unit :=
  locked m_dataLock set_dataLock
    (do r <- get ;
     for_each (seqZ (m_expectedSequenceNumber r)
                    (m_lastValidSequenceNumber r - m_expectedSequenceNumber r))
              (checkSequence env) ;;;
     updateStatistics)%slot.

(** [keys] sorted as [std::sort] leaves them. *)
Definition sorted_keys (buf : gmap Z TelemetryPacket) : list Z :=
  merge_sort Z.le (map_to_list buf).*1.

(** [m_receivedPackets.remove(keys[i])]; an index outside [keys] is a
    [Fault]. *)
Definition removeAt (keys : list Z) (i : Z) : Slot R unit :=
  match keys !! Z.to_nat i with
  | Some k => modify (fun r => set_receivedPackets (delete k (m_receivedPackets r)) r)
  | None => fault
  end.

Definition cleanupOldPackets : Slot R unit :=
  locked m_dataLock set_dataLock
    (do r <- get ;
     let size := Z.of_nat (size (m_receivedPackets r)) in
     if m_maxBufferSize r <? size then
       let keys := sorted_keys (m_receivedPackets r) in
       let toRemove := wrap_i32 (size - m_maxBufferSize r) in
       for_each (seqZ 0 toRemove) (removeAt keys)
     else ret tt)%slot.

Definition getPacketLossRate (r : R) : float :=
  let total := wrap_i32 (m_packetsReceived r + m_packetsLost r) in
  if 0 <? total
  then (double_of_Z (m_packetsLost r) / double_of_Z total * 100)%float
  else 0%float.

End Receiver.

(** ** The sender ([ReliableUdpSender]) *)

Module Sender.

Record PendingPacket : Type := mkPendingPacket {
  packet : TelemetryPacket;
  sentTime : Z;                (* QDateTime *)
  retransmissionCount : Z      (* int *)
}.

(** What [QHash::operator[]] inserts for an absent key. *)
Definition PendingPacket_default : PendingPacket :=
  {| packet := TelemetryPacket_default; sentTime := 0; retransmissionCount := 0 |}.

Record ReliableUdpSender : Type := mkSender {
  m_pendingLock : bool;
  m_socketLock : bool;
  m_targetAddress : string;
  m_targetPort : Z;
  m_pendingAcks : gmap Z PendingPacket;
  m_nextSequenceNumber : Z;
  m_ackTimeoutMs : Z;
  m_maxRetransmissions : Z;
  m_reliabilityEnabled : bool;
  m_packetsSent : Z;
  m_acksReceived : Z;
  m_retransmissions : Z;
  emitted : list Event
}.

Definition set_pendingLock (v : bool) (r : ReliableUdpSender) : ReliableUdpSender :=
  {| m_pendingLock := v;
     m_socketLock := m_socketLock r;
     m_targetAddress := m_targetAddress r;
     m_targetPort := m_targetPort r;
     m_pendingAcks := m_pendingAcks r;
     m_nextSequenceNumber := m_nextSequenceNumber r;
     m_ackTimeoutMs := m_ackTimeoutMs r;
     m_maxRetransmissions := m_maxRetransmissions r;
     m_reliabilityEnabled := m_reliabilityEnabled r;
     m_packetsSent := m_packetsSent r;
     m_acksReceived := m_acksReceived r;
     m_retransmissions := m_retransmissions r;
     emitted := emitted r |}.

Definition set_socketLock (v : bool) (r : ReliableUdpSender) : ReliableUdpSender :=
  {| m_pendingLock := m_pendingLock r;
     m_socketLock := v;
     m_targetAddress := m_targetAddress r;
     m_targetPort := m_targetPort r;
     m_pendingAcks := m_pendingAcks r;
     m_nextSequenceNumber := m_nextSequenceNumber r;
     m_ackTimeoutMs := m_ackTimeoutMs r;
     m_maxRetransmissions := m_maxRetransmissions r;
     m_reliabilityEnabled := m_reliabilityEnabled r;
     m_packetsSent := m_packetsSent r;
     m_acksReceived := m_acksReceived r;
     m_retransmissions := m_retransmissions r;
     emitted := emitted r |}.

Definition set_targetAddress (v : string) (r : ReliableUdpSender) : ReliableUdpSender :=
  {| m_pendingLock := m_pendingLock r;
     m_socketLock := m_socketLock r;
     m_targetAddress := v;
     m_targetPort := m_targetPort r;
     m_pendingAcks := m_pendingAcks r;
     m_nextSequenceNumber := m_nextSequenceNumber r;
     m_ackTimeoutMs := m_ackTimeoutMs r;
     m_maxRetransmissions := m_maxRetransmissions r;
     m_reliabilityEnabled := m_reliabilityEnabled r;
     m_packetsSent := m_packetsSent r;
     m_acksReceived := m_acksReceived r;
     m_retransmissions := m_retransmissions r;
     emitted := emitted r |}.

Definition set_targetPort (v : Z) (r : ReliableUdpSender) : ReliableUdpSender :=
  {| m_pendingLock := m_pendingLock r;
     m_socketLock := m_socketLock r;
     m_targetAddress := m_targetAddress r;
     m_targetPort := v;
     m_pendingAcks := m_pendingAcks r;
     m_nextSequenceNumber := m_nextSequenceNumber r;
     m_ackTimeoutMs := m_ackTimeoutMs r;
     m_maxRetransmissions := m_maxRetransmissions r;
     m_reliabilityEnabled := m_reliabilityEnabled r;
     m_packetsSent := m_packetsSent r;
     m_acksReceived := m_acksReceived r;
     m_retransmissions := m_retransmissions r;
     emitted := emitted r |}.

Definition set_pendingAcks (v : gmap Z PendingPacket) (r : ReliableUdpSender) : ReliableUdpSender :=
  {| m_pendingLock := m_pendingLock r;
     m_socketLock := m_socketLock r;
     m_targetAddress := m_targetAddress r;
     m_targetPort := m_targetPort r;
     m_pendingAcks := v;
     m_nextSequenceNumber := m_nextSequenceNumber r;
     m_ackTimeoutMs := m_ackTimeoutMs r;
     m_maxRetransmissions := m_maxRetransmissions r;
     m_reliabilityEnabled := m_reliabilityEnabled r;
     m_packetsSent := m_packetsSent r;
     m_acksReceived := m_acksReceived r;
     m_retransmissions := m_retransmissions r;
     emitted := emitted r |}.

Definition set_nextSequenceNumber (v : Z) (r : ReliableUdpSender) : ReliableUdpSender :=
  {| m_pendingLock := m_pendingLock r;
     m_socketLock := m_socketLock r;
     m_targetAddress := m_targetAddress r;
     m_targetPort := m_targetPort r;
     m_pendingAcks := m_pendingAcks r;
     m_nextSequenceNumber := v;
     m_ackTimeoutMs := m_ackTimeoutMs r;
     m_maxRetransmissions := m_maxRetransmissions r;
     m_reliabilityEnabled := m_reliabilityEnabled r;
     m_packetsSent := m_packetsSent r;
     m_acksReceived := m_acksReceived r;
     m_retransmissions := m_retransmissions r;
     emitted := emitted r |}.

Definition set_ackTimeoutMs (v : Z) (r : ReliableUdpSender) : ReliableUdpSender :=
  {| m_pendingLock := m_pendingLock r;
     m_socketLock := m_socketLock r;
     m_targetAddress := m_targetAddress r;
     m_targetPort := m_targetPort r;
     m_pendingAcks := m_pendingAcks r;
     m_nextSequenceNumber := m_nextSequenceNumber r;
     m_ackTimeoutMs := v;
     m_maxRetransmissions := m_maxRetransmissions r;
     m_reliabilityEnabled := m_reliabilityEnabled r;
     m_packetsSent := m_packetsSent r;
     m_acksReceived := m_acksReceived r;
     m_retransmissions := m_retransmissions r;
     emitted := emitted r |}.

Definition set_maxRetransmissions (v : Z) (r : ReliableUdpSender) : ReliableUdpSender :=
  {| m_pendingLock := m_pendingLock r;
     m_socketLock := m_socketLock r;
     m_targetAddress := m_targetAddress r;
     m_targetPort := m_targetPort r;
     m_pendingAcks := m_pendingAcks r;
     m_nextSequenceNumber := m_nextSequenceNumber r;
     m_ackTimeoutMs := m_ackTimeoutMs r;
     m_maxRetransmissions := v;
     m_reliabilityEnabled := m_reliabilityEnabled r;
     m_packetsSent := m_packetsSent r;
     m_acksReceived := m_acksReceived r;
     m_retransmissions := m_retransmissions r;
     emitted := emitted r |}.

Definition set_reliabilityEnabled (v : bool) (r : ReliableUdpSender) : ReliableUdpSender :=
  {| m_pendingLock := m_pendingLock r;
     m_socketLock := m_socketLock r;
     m_targetAddress := m_targetAddress r;
     m_targetPort := m_targetPort r;
     m_pendingAcks := m_pendingAcks r;
     m_nextSequenceNumber := m_nextSequenceNumber r;
     m_ackTimeoutMs := m_ackTimeoutMs r;
     m_maxRetransmissions := m_maxRetransmissions r;
     m_reliabilityEnabled := v;
     m_packetsSent := m_packetsSent r;
     m_acksReceived := m_acksReceived r;
     m_retransmissions := m_retransmissions r;
     emitted := emitted r |}.

Definition set_packetsSent (v : Z) (r : ReliableUdpSender) : ReliableUdpSender :=
  {| m_pendingLock := m_pendingLock r;
     m_socketLock := m_socketLock r;
     m_targetAddress := m_targetAddress r;
     m_targetPort := m_targetPort r;
     m_pendingAcks := m_pendingAcks r;
     m_nextSequenceNumber := m_nextSequenceNumber r;
     m_ackTimeoutMs := m_ackTimeoutMs r;
     m_maxRetransmissions := m_maxRetransmissions r;
     m_reliabilityEnabled := m_reliabilityEnabled r;
     m_packetsSent := v;
     m_acksReceived := m_acksReceived r;
     m_retransmissions := m_retransmissions r;
     emitted := emitted r |}.

Definition set_acksReceived (v : Z) (r : ReliableUdpSender) : ReliableUdpSender :=
  {| m_pendingLock := m_pendingLock r;
     m_socketLock := m_socketLock r;
     m_targetAddress := m_targetAddress r;
     m_targetPort := m_targetPort r;
     m_pendingAcks := m_pendingAcks r;
     m_nextSequenceNumber := m_nextSequenceNumber r;
     m_ackTimeoutMs := m_ackTimeoutMs r;
     m_maxRetransmissions := m_maxRetransmissions r;
     m_reliabilityEnabled := m_reliabilityEnabled r;
     m_packetsSent := m_packetsSent r;
     m_acksReceived := v;
     m_retransmissions := m_retransmissions r;
     emitted := emitted r |}.

Definition set_retransmissions (v : Z) (r : ReliableUdpSender) : ReliableUdpSender :=
  {| m_pendingLock := m_pendingLock r;
     m_socketLock := m_socketLock r;
     m_targetAddress := m_targetAddress r;
     m_targetPort := m_targetPort r;
     m_pendingAcks := m_pendingAcks r;
     m_nextSequenceNumber := m_nextSequenceNumber r;
     m_ackTimeoutMs := m_ackTimeoutMs r;
     m_maxRetransmissions := m_maxRetransmissions r;
     m_reliabilityEnabled := m_reliabilityEnabled r;
     m_packetsSent := m_packetsSent r;
     m_acksReceived := m_acksReceived r;
     m_retransmissions := v;
     emitted := emitted r |}.

Definition set_emitted (v : list Event) (r : ReliableUdpSender) : ReliableUdpSender :=
  {| m_pendingLock := m_pendingLock r;
     m_socketLock := m_socketLock r;
     m_targetAddress := m_targetAddress r;
     m_targetPort := m_targetPort r;
     m_pendingAcks := m_pendingAcks r;
     m_nextSequenceNumber := m_nextSequenceNumber r;
     m_ackTimeoutMs := m_ackTimeoutMs r;
     m_maxRetransmissions := m_maxRetransmissions r;
     m_reliabilityEnabled := m_reliabilityEnabled r;
     m_packetsSent := m_packetsSent r;
     m_acksReceived := m_acksReceived r;
     m_retransmissions := m_retransmissions r;
     emitted := v |}.

Abbreviation T := ReliableUdpSender.

(** The constructor's initialiser list; the target address is set by
    [setTarget]. *)
Definition init : T :=
  {| m_pendingLock := false; m_socketLock := false;
     m_targetAddress := ""; m_targetPort := 12345;
     m_pendingAcks := ∅;
     m_nextSequenceNumber := 1;
     m_ackTimeoutMs := 3000;
     m_maxRetransmissions := 3;
     m_reliabilityEnabled := true;
     m_packetsSent := 0; m_acksReceived := 0; m_retransmissions := 0;
     emitted := [] |}.

Definition emit (e : Event) : Slot T unit :=
  modify (fun r => set_emitted (emitted r ++ [e]) r).

(** [m_socket->writeDatagram(data, m_targetAddress, m_targetPort)] under
    the socket lock; the result says whether it returned other than -1. *)
Definition transmit (env : Env) (data : QJsonObject) : Slot T bool :=
  (do r <- get ;
   let sent := socket_accepts env data in
   emit (writeDatagram data (m_targetAddress r) (m_targetPort r) sent) ;;;
   ret sent)%slot.

Definition sendTelemetryData (env : Env) (pkt : TelemetryPacket) : Slot T unit :=
  locked m_pendingLock set_pendingLock
    (do r <- get ;
     let sendPacket :=
       {| sequenceNumber := m_nextSequenceNumber r;
          timestamp := currentDateTime env;
          latitude := latitude pkt; longitude := longitude pkt; speed := speed pkt;
          status := status pkt;
          needsAck := m_reliabilityEnabled r |} in
     modify (set_nextSequenceNumber (wrap_u32 (m_nextSequenceNumber r + 1))) ;;;
     let data := TelemetryPacket_toJson sendPacket in
     do sent <- locked m_socketLock set_socketLock
                  (do sent <- transmit env data ;
                   (if sent
                    then modify (fun r => set_packetsSent (wrap_i32 (m_packetsSent r + 1)) r)
                    else ret tt) ;;;
                   ret sent) ;
     if sent then
       (if m_reliabilityEnabled r then
          let pending := {| packet := sendPacket;
                            sentTime := currentDateTime env;
                            retransmissionCount := 0 |} in
          modify (fun r => set_pendingAcks
                             (<[sequenceNumber sendPacket := pending]> (m_pendingAcks r)) r)
        else ret tt) ;;;
       emit statisticsUpdated
     else ret tt)%slot.

(** The body of the receive loop of [processIncomingAcks]. *)
Definition processAckDatagram (datagram : Datagram) : Slot T unit :=
  if dg_isValid datagram then
    match dg_document datagram with
    | None => ret tt
    | Some obj =>
        if is_ack_document obj then
          let ack := AckPacket_fromJson obj in
          locked m_pendingLock set_pendingLock
            (do r <- get ;
             if bool_decide (is_Some (m_pendingAcks r !! ack_sequenceNumber ack)) then
               modify (fun r => set_pendingAcks
                                  (delete (ack_sequenceNumber ack) (m_pendingAcks r)) r) ;;;
               modify (fun r => set_acksReceived (wrap_i32 (m_acksReceived r + 1)) r) ;;;
               emit (ackReceived (ack_sequenceNumber ack))
             else ret tt)%slot
        else ret tt
    end
  else ret tt.

Definition processIncomingAcks (pending : list Datagram) : Slot T unit :=
  (locked m_socketLock set_socketLock (for_each pending processAckDatagram) ;;;
   emit statisticsUpdated)%slot.

Definition retransmitPacket (env : Env) (seqNum : Z) : Slot T unit :=
  (do r <- get ;
   match m_pendingAcks r !! seqNum with
   | None => ret tt
   | Some pending =>
       let pending' :=
         {| packet := packet pending;
            sentTime := currentDateTime env;
            retransmissionCount := wrap_i32 (retransmissionCount pending + 1) |} in
       modify (fun r => set_pendingAcks (<[seqNum := pending']> (m_pendingAcks r)) r) ;;;
       let data := TelemetryPacket_toJson (packet pending') in
       locked m_socketLock set_socketLock
         (do sent <- transmit env data ;
          (if sent
           then modify (fun r => set_retransmissions (wrap_i32 (m_retransmissions r + 1)) r)
           else ret tt) ;;;
          emit statisticsUpdated)
   end)%slot.

(** [PendingPacket &pending = m_pendingAcks[seq]]: the entry, inserted
    with its default value when the key is absent. *)
Definition pendingAt (seq : Z) : Slot T PendingPacket :=
  (do r <- get ;
   match m_pendingAcks r !! seq with
   | Some pending => ret pending
   | None =>
       modify (fun r => set_pendingAcks (<[seq := PendingPacket_default]> (m_pendingAcks r)) r) ;;;
       ret PendingPacket_default
   end)%slot.

(** The body of the second loop of [checkForTimeouts]. *)
Definition checkTimedOut (env : Env) (seq : Z) : Slot T unit :=
  (do pending <- pendingAt seq ;
   do r <- get ;
   if retransmissionCount pending <? m_maxRetransmissions r
   then retransmitPacket env seq
   else
     modify (fun r => set_pendingAcks (delete seq (m_pendingAcks r)) r) ;;;
     emit (packetTimeout seq))%slot.

(** [cutoffTime]: [currentDateTime().addMSecs(-m_ackTimeoutMs)]. *)
Definition cutoffTime (env : Env) (r : T) : Z :=
  currentDateTime env + wrap_i32 (- m_ackTimeoutMs r).

(** The keys the first loop of [checkForTimeouts] collects. *)
Definition timedOutPackets (env : Env) (r : T) : list Z :=
  (filter (fun kv => sentTime kv.2 < cutoffTime env r) (map_to_list (m_pendingAcks r))).*1.

Definition checkForTimeouts (env : Env) : Slot T unit :=
  locked m_pendingLock set_pendingLock
    (do r <- get ;
     for_each (timedOutPackets env r) (checkTimedOut env))%slot.

End Sender.

(** ** The plain socket ([TelemetryReceiverSocket]) *)

Module PlainSocket.

Record TelemetryData : Type := mkTelemetryData {
  latitude : float;
  longitude : float;
  speed : float;
  status : string
}.

(** The default constructor. *)
Definition TelemetryData_default : TelemetryData :=
  {| latitude := 0%float; longitude := 0%float; speed := 0%float; status := "OK" |}.

(** A datagram's bytes, by what [QJsonDocument::fromJson] makes of them: a
    parse error with its [errorString()], a document that is no object, or
    an object. *)
Inductive QByteArray : Type :=
| Malformed (errorString : string)
| NotAnObject
| Document (obj : QJsonObject).

(** What [readDatagram] returns for a pending datagram: -1 with the
    socket's [errorString()], or the bytes. *)
Inductive Pending : Type :=
| ReadFailed (errorString : string)
| Received (datagram : QByteArray).

Inductive Signal : Type :=
| telemetryDataReceived (data : TelemetryData)
| errorOccurred (error : string)
| recordingStatusChanged (recording : bool)
| playbackStatusChanged (playing : bool).

(** The fields of the class that recording and playback use;
    [m_playbackTimer] by whether it is active and its interval. *)
Record TelemetryReceiverSocket : Type := mkSocket {
  m_isRecording : bool;
  m_recordedPackets : list QByteArray;
  m_playbackTimer_isActive : bool;
  m_playbackTimer_interval : Z;
  m_playbackIndex : Z;         (* int *)
  emitted : list Signal
}.

Definition set_isRecording (v : bool) (s : TelemetryReceiverSocket) : TelemetryReceiverSocket :=
  {| m_isRecording := v;
     m_recordedPackets := m_recordedPackets s;
     m_playbackTimer_isActive := m_playbackTimer_isActive s;
     m_playbackTimer_interval := m_playbackTimer_interval s;
     m_playbackIndex := m_playbackIndex s;
     emitted := emitted s |}.

Definition set_recordedPackets (v : list QByteArray) (s : TelemetryReceiverSocket)
  : TelemetryReceiverSocket :=
  {| m_isRecording := m_isRecording s;
     m_recordedPackets := v;
     m_playbackTimer_isActive := m_playbackTimer_isActive s;
     m_playbackTimer_interval := m_playbackTimer_interval s;
     m_playbackIndex := m_playbackIndex s;
     emitted := emitted s |}.

Definition set_playbackTimer_isActive (v : bool) (s : TelemetryReceiverSocket)
  : TelemetryReceiverSocket :=
  {| m_isRecording := m_isRecording s;
     m_recordedPackets := m_recordedPackets s;
     m_playbackTimer_isActive := v;
     m_playbackTimer_interval := m_playbackTimer_interval s;
     m_playbackIndex := m_playbackIndex s;
     emitted := emitted s |}.

Definition set_playbackTimer_interval (v : Z) (s : TelemetryReceiverSocket)
  : TelemetryReceiverSocket :=
  {| m_isRecording := m_isRecording s;
     m_recordedPackets := m_recordedPackets s;
     m_playbackTimer_isActive := m_playbackTimer_isActive s;
     m_playbackTimer_interval := v;
     m_playbackIndex := m_playbackIndex s;
     emitted := emitted s |}.

Definition set_playbackIndex (v : Z) (s : TelemetryReceiverSocket) : TelemetryReceiverSocket :=
  {| m_isRecording := m_isRecording s;
     m_recordedPackets := m_recordedPackets s;
     m_playbackTimer_isActive := m_playbackTimer_isActive s;
     m_playbackTimer_interval := m_playbackTimer_interval s;
     m_playbackIndex := v;
     emitted := emitted s |}.

Definition set_emitted (v : list Signal) (s : TelemetryReceiverSocket) : TelemetryReceiverSocket :=
  {| m_isRecording := m_isRecording s;
     m_recordedPackets := m_recordedPackets s;
     m_playbackTimer_isActive := m_playbackTimer_isActive s;
     m_playbackTimer_interval := m_playbackTimer_interval s;
     m_playbackIndex := m_playbackIndex s;
     emitted := v |}.

Abbreviation P := TelemetryReceiverSocket.

(** The constructor; a [QTimer] is created inactive, with interval 0. *)
Definition init : P :=
  {| m_isRecording := false;
     m_recordedPackets := [];
     m_playbackTimer_isActive := false;
     m_playbackTimer_interval := 0;
     m_playbackIndex := 0;
     emitted := [] |}.

Definition emit (e : Signal) : Slot P unit :=
  modify (fun s => set_emitted (emitted s ++ [e]) s).

Definition startRecording : Slot P unit :=
  (modify (set_isRecording true) ;;;
   modify (set_recordedPackets []) ;;;
   emit (recordingStatusChanged true))%slot.

Definition stopRecording : Slot P unit :=
  (modify (set_isRecording false) ;;;
   emit (recordingStatusChanged false))%slot.

Definition clearRecording : Slot P unit :=
  modify (set_recordedPackets []).

Definition startPlayback (intervalMs : Z) : Slot P unit :=
  (do s <- get ;
   match m_recordedPackets s with
   | [] => emit (errorOccurred "No recorded data available for playback")
   | _ :: _ =>
       modify (set_playbackIndex 0) ;;;
       modify (set_playbackTimer_interval intervalMs) ;;;
       modify (set_playbackTimer_isActive true) ;;;
       emit (playbackStatusChanged true)
   end)%slot.

Definition stopPlayback : Slot P unit :=
  (modify (set_playbackTimer_isActive false) ;;;
   emit (playbackStatusChanged false))%slot.

Definition parseTelemetryData (data : QByteArray) : Slot P TelemetryData :=
  match data with
  | Malformed errorString =>
      (emit (errorOccurred ("JSON parse error: " ++ errorString)) ;;;
       ret TelemetryData_default)%slot
  | NotAnObject =>
      (emit (errorOccurred "Received JSON is not an object") ;;;
       ret TelemetryData_default)%slot
  | Document obj =>
      ret {| latitude := toDouble (jget obj "latitude");
             longitude := toDouble (jget obj "longitude");
             speed := toDouble (jget obj "speed");
             status := toString (jget obj "status") |}
  end.

Definition emitTelemetryData (data : TelemetryData) : Slot P unit :=
  emit (telemetryDataReceived data).

(** The body of the receive loop of [processPendingDatagrams]. *)
Definition processDatagram (pending : Pending) : Slot P unit :=
  match pending with
  | ReadFailed errorString =>
      emit (errorOccurred ("Failed to read UDP datagram: " ++ errorString))
  | Received datagram =>
      (do s <- get ;
       (if m_isRecording s
        then modify (fun s => set_recordedPackets (m_recordedPackets s ++ [datagram]) s)
        else ret tt) ;;;
       do data <- parseTelemetryData datagram ;
       emitTelemetryData data)%slot
  end.

Definition processPendingDatagrams (pending : list Pending) : Slot P unit :=
  for_each pending processDatagram.

(** [m_recordedPackets[m_playbackIndex]] below 0 is a [Fault]. *)
Definition playbackNextPacket : Slot P unit :=
  (do s <- get ;
   if Z.of_nat (length (m_recordedPackets s)) <=? m_playbackIndex s then stopPlayback
   else
     if m_playbackIndex s <? 0 then fault
     else
       match m_recordedPackets s !! Z.to_nat (m_playbackIndex s) with
       | None => fault
       | Some recorded =>
           do data <- parseTelemetryData recorded ;
           emitTelemetryData data ;;;
           modify (fun s => set_playbackIndex (wrap_i32 (m_playbackIndex s + 1)) s)
       end)%slot.

(** One period of [m_playbackTimer]: its [timeout] signal calls
    [playbackNextPacket] while the timer is active, and nothing happens
    when it is not. *)
Definition timeout : Slot P unit :=
  (do s <- get ;
   if m_playbackTimer_isActive s then playbackNextPacket else ret tt)%slot.

End PlainSocket.

(** ** The radar display ([RadarWidget]) *)

Module Radar.

(** [qMin] and [qMax] of Qt: [(a < b) ? a : b] and [(a < b) ? b : a]. *)
Definition qMin (a b : float) : float := if (a <? b)%float then a else b.
Definition qMax (a b : float) : float := if (a <? b)%float then b else a.

Inductive Signal : Type :=
| rangeChanged (nauticalMiles : float).

(** The fields of the widget that [setRange], [setSweepSpeed] and
    [wheelEvent] read or write. *)
Record RadarWidget : Type := mkRadar {
  m_rangeNM : float;
  m_sweepRPM : float;
  m_numRangeRings : Z;
  emitted : list Signal
}.

(** The constructor's initialiser list. *)
Definition init : RadarWidget :=
  {| m_rangeNM := 500%float; m_sweepRPM := 12%float; m_numRangeRings := 4;
     emitted := [] |}.

Definition setRange (nauticalMiles : float) (w : RadarWidget) : RadarWidget :=
  let range := qMax 0.5 (qMin 100 nauticalMiles) in
  {| m_rangeNM := range;
     m_sweepRPM := m_sweepRPM w;
     m_numRangeRings :=
       if (range <=? 2)%float then 4 else if (range <=? 10)%float then 5 else 6;
     emitted := emitted w ++ [rangeChanged range] |}.

Definition setSweepSpeed (rpm : float) (w : RadarWidget) : RadarWidget :=
  {| m_rangeNM := m_rangeNM w;
     m_sweepRPM := qMax 1 (qMin 60 rpm);
     m_numRangeRings := m_numRangeRings w;
     emitted := emitted w |}.

(** [event->angleDelta().y()] is [angleDeltaY]. *)
Definition wheelEvent (angleDeltaY : Z) (w : RadarWidget) : RadarWidget :=
  if 0 <? angleDeltaY
  then setRange (m_rangeNM w * 0x1.999999999999ap-1)%float w   (* 0.8 *)
  else setRange (m_rangeNM w * 1.25)%float w.

End Radar.

(** ** The sender's window ([MainWindow] of TelemetrySender) *)

Module SenderWindow.

(** The fields [sendTelemetryData] and [updateMovementSettings] read or
    write; of the labels, the numbers their texts are formatted from. *)
Record MainWindow : Type := mkWindow {
  m_reliableSender : Sender.T;
  m_currentLat : float;
  m_currentLon : float;
  m_currentSpeed : float;
  m_latIncrement : float;
  m_lonIncrement : float;
  m_packetCount : Z;                        (* int *)
  m_packetCountLabel : Z;                   (* "Packets sent: %1" *)
  m_lastDataLabel : option TelemetryPacket  (* the packet the text shows *)
}.

Definition set_reliableSender (v : Sender.T) (w : MainWindow) : MainWindow :=
  {| m_reliableSender := v;
     m_currentLat := m_currentLat w;
     m_currentLon := m_currentLon w;
     m_currentSpeed := m_currentSpeed w;
     m_latIncrement := m_latIncrement w;
     m_lonIncrement := m_lonIncrement w;
     m_packetCount := m_packetCount w;
     m_packetCountLabel := m_packetCountLabel w;
     m_lastDataLabel := m_lastDataLabel w |}.

Definition set_packetCount (v : Z) (w : MainWindow) : MainWindow :=
  {| m_reliableSender := m_reliableSender w;
     m_currentLat := m_currentLat w;
     m_currentLon := m_currentLon w;
     m_currentSpeed := m_currentSpeed w;
     m_latIncrement := m_latIncrement w;
     m_lonIncrement := m_lonIncrement w;
     m_packetCount := v;
     m_packetCountLabel := m_packetCountLabel w;
     m_lastDataLabel := m_lastDataLabel w |}.

Definition set_packetCountLabel (v : Z) (w : MainWindow) : MainWindow :=
  {| m_reliableSender := m_reliableSender w;
     m_currentLat := m_currentLat w;
     m_currentLon := m_currentLon w;
     m_currentSpeed := m_currentSpeed w;
     m_latIncrement := m_latIncrement w;
     m_lonIncrement := m_lonIncrement w;
     m_packetCount := m_packetCount w;
     m_packetCountLabel := v;
     m_lastDataLabel := m_lastDataLabel w |}.

Definition set_lastDataLabel (v : option TelemetryPacket) (w : MainWindow) : MainWindow :=
  {| m_reliableSender := m_reliableSender w;
     m_currentLat := m_currentLat w;
     m_currentLon := m_currentLon w;
     m_currentSpeed := m_currentSpeed w;
     m_latIncrement := m_latIncrement w;
     m_lonIncrement := m_lonIncrement w;
     m_packetCount := m_packetCount w;
     m_packetCountLabel := m_packetCountLabel w;
     m_lastDataLabel := v |}.

(** A call into [m_reliableSender]. *)
Definition on_sender {A} (c : Slot Sender.T A) : Slot MainWindow A :=
  fun w =>
    match c (m_reliableSender w) with
    | Done (a, st) => Done (a, set_reliableSender st w)
    | Deadlock => Deadlock
    | Fault => Fault
    end.

(** [packet] is the window's own object: [sendTelemetryData] of the sender
    takes it by reference to const and stamps a copy. *)
Definition sendTelemetryData (env : Env) : Slot MainWindow unit :=
  (do w <- get ;
   let packet :=
     {| sequenceNumber := 0;
        timestamp := currentDateTime env;
        latitude := m_currentLat w;
        longitude := m_currentLon w;
        speed := m_currentSpeed w;
        status := "OK";
        needsAck := true |} in
   on_sender (Sender.sendTelemetryData env packet) ;;;
   modify (fun w => set_packetCount (wrap_i32 (m_packetCount w + 1)) w) ;;;
   modify (fun w => set_packetCountLabel (m_packetCount w) w) ;;;
   modify (set_lastDataLabel (Some packet)))%slot.

End SenderWindow.

(** * Properties *)

(** ** Fixed-width arithmetic *)

Module MachineFacts.

Lemma wrap_u32_id z : is_u32 z -> wrap_u32 z = z.
Proof. unfold is_u32, wrap_u32. intros H. now apply Z.mod_small. Qed.

Lemma wrap_u32_range z : is_u32 (wrap_u32 z).
Proof. unfold is_u32, wrap_u32, UINT32_MOD. apply Z.mod_pos_bound. lia. Qed.

Lemma wrap_i32_id z : is_i32 z -> wrap_i32 z = z.
Proof.
  unfold is_i32, wrap_i32, INT_MIN, INT_MAX, UINT32_MOD. intros H.
  rewrite Z.mod_small; lia.
Qed.

Lemma wrap_i32_range z : is_i32 (wrap_i32 z).
Proof.
  unfold is_i32, wrap_i32, INT_MIN, INT_MAX, UINT32_MOD.
  pose proof (Z.mod_pos_bound (z + 2 ^ 31) (2 ^ 32) ltac:(lia)). lia.
Qed.

Lemma wrap_u32_succ z : is_u32 z -> z < UINT32_MOD - 1 -> wrap_u32 (z + 1) = z + 1.
Proof. unfold is_u32. intros H1 H2. apply wrap_u32_id. unfold is_u32. lia. Qed.

Lemma wrap_u32_succ_max : wrap_u32 (UINT32_MOD - 1 + 1) = 0.
Proof. reflexivity. Qed.

Lemma wrap_i32_succ z : 0 <= z < INT_MAX -> wrap_i32 (z + 1) = z + 1.
Proof. intros H. apply wrap_i32_id. unfold is_i32, INT_MIN, INT_MAX in *. lia. Qed.

End MachineFacts.
Import MachineFacts.

(** ** Running slots *)

Section SlotFacts.
Context {S : Type}.

Lemma locked_run {A} (held : S -> bool) (set_held : bool -> S -> S)
    (body : Slot S A) (s : S) :
  held s = false ->
  locked held set_held body s =
    match body (set_held true s) with
    | Done (a, s') => Done (a, set_held false s')
    | Deadlock => Deadlock
    | Fault => Fault
    end.
Proof.
  intros H. unfold locked, lock, unlock, bind, ret. rewrite H.
  destruct (body (set_held true s)) as [[a s']| |]; reflexivity.
Qed.

Lemma locked_held {A} (held : S -> bool) (set_held : bool -> S -> S)
    (body : Slot S A) (s : S) :
  held s = true -> locked held set_held body s = Deadlock.
Proof. intros H. unfold locked, lock, bind. now rewrite H. Qed.

Lemma bind_done {A B} (c : Slot S A) (k : A -> Slot S B) s a s' :
  c s = Done (a, s') -> bind c k s = k a s'.
Proof. intros H. unfold bind. now rewrite H. Qed.

Lemma for_each_cons {A} (x : A) xs (body : A -> Slot S unit) s :
  for_each (x :: xs) body s =
    match body x s with
    | Done (_, s') => for_each xs body s'
    | Deadlock => Deadlock
    | Fault => Fault
    end.
Proof. cbn. unfold bind. destruct (body x s) as [[[] s']| |]; reflexivity. Qed.

Lemma for_each_app {A} (xs ys : list A) (body : A -> Slot S unit) s :
  for_each (xs ++ ys) body s =
    match for_each xs body s with
    | Done (_, s') => for_each ys body s'
    | Deadlock => Deadlock
    | Fault => Fault
    end.
Proof.
  revert s. induction xs as [|x xs IH]; intros s.
  - reflexivity.
  - cbn [app]. rewrite !for_each_cons.
    destruct (body x s) as [[[] s']| |]; [apply IH | reflexivity | reflexivity].
Qed.

Lemma exec_done_unit (c : Slot S unit) s s' :
  exec c s = Done s' -> c s = Done (tt, s').
Proof.
  unfold exec. destruct (c s) as [[[] s'']| |]; [|discriminate|discriminate].
  now intros [= ->].
Qed.

(** A loop whose body leaves the state alone on every element. *)
Lemma for_each_skip {A} (xs : list A) (body : A -> Slot S unit) s :
  (forall x, x ∈ xs -> body x s = Done (tt, s)) ->
  for_each xs body s = Done (tt, s).
Proof.
  induction xs as [|x xs IH]; intros H.
  - reflexivity.
  - rewrite for_each_cons, H by apply list_elem_of_here.
    apply IH. intros y Hy. apply H. now apply list_elem_of_further.
Qed.
End SlotFacts.

Ltac slot_steps :=
  cbv [bind ret get gets modify fault exec Receiver.emit Receiver.updateStatistics
       Sender.emit Sender.transmit].

(** ** The receiver *)

Module ReceiverProps.
Import Receiver.

(** What one call of [processReceivedPacket] leaves, field by field. *)
Lemma processReceivedPacket_run (packet : TelemetryPacket) (r : R) :
  m_dataLock r = false ->
  exists r',
    processReceivedPacket packet r = Done (tt, r')
    /\ m_receivedPackets r' = m_receivedPackets r
    /\ m_packetsReceived r' = wrap_i32 (m_packetsReceived r + 1)
    /\ m_lastValidSequenceNumber r' =
         (if m_lastValidSequenceNumber r <=? sequenceNumber packet
          then sequenceNumber packet else m_lastValidSequenceNumber r)
    /\ m_lastValidPacket r' =
         (if m_lastValidSequenceNumber r <=? sequenceNumber packet
          then packet else m_lastValidPacket r)
    /\ m_expectedSequenceNumber r' =
         (if m_expectedSequenceNumber r <=? sequenceNumber packet
          then wrap_u32 (sequenceNumber packet + 1) else m_expectedSequenceNumber r)
    /\ emitted r' = emitted r ++ [telemetryDataReceived packet; statisticsUpdated]
    /\ m_dataLock r' = false
    /\ m_socketLock r' = m_socketLock r
    /\ m_packetsLost r' = m_packetsLost r
    /\ m_packetsInterpolated r' = m_packetsInterpolated r
    /\ m_acksSent r' = m_acksSent r
    /\ m_interpolationEnabled r' = m_interpolationEnabled r
    /\ m_maxBufferSize r' = m_maxBufferSize r.
Proof.
  intros H. unfold processReceivedPacket. rewrite locked_run by assumption.
  slot_steps. cbn.
  destruct (m_lastValidSequenceNumber r <=? sequenceNumber packet); cbn;
    destruct (m_expectedSequenceNumber r <=? sequenceNumber packet); cbn;
    eexists; (split; [reflexivity|]); cbn; rewrite <- ?app_assoc; cbn;
    repeat split; reflexivity.
Qed.

(** *** Buffering of received packets *)

(** C1. The specification has every packet accepted by
    [processReceivedPacket] stored in the receive buffer under its sequence
    number, so that a later gap check or interpolation lookup finds it.
    The slot does not do so: it returns, and leaves [m_receivedPackets] as
    it found it, so that a sequence number absent from the buffer before
    the packet arrived is still absent afterwards. *)
Theorem processReceivedPacket_leaves_buffer (packet : TelemetryPacket) (r : R) :
  m_dataLock r = false ->
  exists r',
    exec (processReceivedPacket packet) r = Done r'
    /\ m_receivedPackets r' = m_receivedPackets r
    /\ (m_receivedPackets r !! sequenceNumber packet = None ->
        m_receivedPackets r' !! sequenceNumber packet = None).
Proof.
  intros H.
  destruct (processReceivedPacket_run packet r H) as (r' & Hrun & Hbuf & _).
  exists r'. unfold exec. rewrite Hrun. repeat split; [assumption|].
  now rewrite Hbuf.
Qed.

(** A first packet, as a sender with reliability switched off writes it. *)
Definition first_packet : TelemetryPacket :=
  {| sequenceNumber := 1; timestamp := 1000;
     latitude := 41%float; longitude := 29%float; speed := 60%float;
     status := "OK"; needsAck := false |}.

Lemma processReceivedPacket_leaves_buffer_first :
  exists r',
    exec (processReceivedPacket first_packet) init = Done r'
    /\ m_receivedPackets r' = m_receivedPackets init
    /\ (m_receivedPackets init !! sequenceNumber first_packet = None ->
        m_receivedPackets r' !! sequenceNumber first_packet = None).
Proof. apply (processReceivedPacket_leaves_buffer first_packet init). reflexivity. Defined.

(** *** The watermarks *)

(** [m_lastValidSequenceNumber] never goes down. *)
Lemma processReceivedPacket_lastValid_mono (packet : TelemetryPacket) (r : R) :
  m_dataLock r = false ->
  exists r',
    exec (processReceivedPacket packet) r = Done r'
    /\ m_lastValidSequenceNumber r <= m_lastValidSequenceNumber r'.
Proof.
  intros H.
  destruct (processReceivedPacket_run packet r H) as (r' & Hrun & _ & _ & Hlast & _).
  exists r'. unfold exec. rewrite Hrun. split; [reflexivity|].
  rewrite Hlast. destruct (Z.leb_spec (m_lastValidSequenceNumber r) (sequenceNumber packet)); lia.
Qed.

(** [m_expectedSequenceNumber] does not go down on a packet whose sequence
    number is not the largest [quint32]. *)
Lemma processReceivedPacket_expected_mono (packet : TelemetryPacket) (r : R) :
  m_dataLock r = false ->
  is_u32 (sequenceNumber packet) ->
  sequenceNumber packet < UINT32_MOD - 1 ->
  exists r',
    exec (processReceivedPacket packet) r = Done r'
    /\ m_expectedSequenceNumber r <= m_expectedSequenceNumber r'.
Proof.
  intros H Hu Hlt.
  destruct (processReceivedPacket_run packet r H) as (r' & Hrun & _ & _ & _ & _ & Hexp & _).
  exists r'. unfold exec. rewrite Hrun. split; [reflexivity|].
  rewrite Hexp. destruct (Z.leb_spec (m_expectedSequenceNumber r) (sequenceNumber packet)).
  - rewrite wrap_u32_succ by assumption. lia.
  - lia.
Qed.

(** Each packet is counted once. *)
Lemma processReceivedPacket_counts_one (packet : TelemetryPacket) (r : R) :
  m_dataLock r = false ->
  exists r',
    exec (processReceivedPacket packet) r = Done r'
    /\ m_packetsReceived r' = wrap_i32 (m_packetsReceived r + 1).
Proof.
  intros H.
  destruct (processReceivedPacket_run packet r H) as (r' & Hrun & _ & Hcnt & _).
  exists r'. unfold exec. rewrite Hrun. now split.
Qed.

(** A datagram whose document is [{"seq": -1}]: [toInt] gives -1, and the
    cast to [quint32] the largest sequence number. *)
Definition datagram_seq_minus_one : Datagram :=
  {| dg_isValid := true;
     dg_document := Some (<["seq"%string := JInteger (-1)]> ∅);
     dg_senderAddress := "192.0.2.1";
     dg_senderPort := 40000 |}.

Definition quiet_env : Env :=
  {| currentDateTime := 1000; socket_accepts := fun _ => true |}.

(** C6. The specification has [m_expectedSequenceNumber] never decrease,
    whatever is received. On the datagram [{"seq": -1}], which decodes to
    sequence number 4294967295, a fresh receiver computes
    [packet.sequenceNumber + 1] in [quint32]: the expected sequence number
    goes from 1 down to 0 (the last valid one goes up to 4294967295, and
    the datagram is counted once). *)
Theorem expected_regresses_at_largest_sequence :
  exists r',
    exec (processPendingDatagrams quiet_env [datagram_seq_minus_one]) init = Done r'
    /\ m_expectedSequenceNumber init = 1
    /\ m_expectedSequenceNumber r' = 0
    /\ m_lastValidSequenceNumber r' = 4294967295
    /\ m_packetsReceived r' = 1.
Proof. eexists. split; [vm_compute; reflexivity|]. repeat split. Qed.

(** *** Statistics *)

(** C8. For counters that are not negative and whose sum an [int] holds,
    [getPacketLossRate] is [packetsLost / (packetsReceived + packetsLost) *
    100] in double arithmetic, and 0 when the sum is 0; for 97 packets
    received and 3 lost it is 3.0 exactly. *)
Theorem getPacketLossRate_formula (r : R) :
  0 <= m_packetsReceived r ->
  0 <= m_packetsLost r ->
  m_packetsReceived r + m_packetsLost r <= INT_MAX ->
  getPacketLossRate r =
    (if m_packetsReceived r + m_packetsLost r =? 0 then 0%float
     else (double_of_Z (m_packetsLost r)
           / double_of_Z (m_packetsReceived r + m_packetsLost r) * 100)%float)
  /\ (m_packetsReceived r = 97 -> m_packetsLost r = 3 -> getPacketLossRate r = 3%float).
Proof.
  intros Hr Hl Hsum.
  assert (Hform : getPacketLossRate r =
    (if m_packetsReceived r + m_packetsLost r =? 0 then 0%float
     else (double_of_Z (m_packetsLost r)
           / double_of_Z (m_packetsReceived r + m_packetsLost r) * 100)%float)).
  { unfold getPacketLossRate.
    rewrite wrap_i32_id by (unfold is_i32, INT_MIN, INT_MAX in *; lia).
    destruct (Z.eqb_spec (m_packetsReceived r + m_packetsLost r) 0) as [E|E].
    - rewrite E. reflexivity.
    - destruct (Z.ltb_spec 0 (m_packetsReceived r + m_packetsLost r)); [reflexivity | lia]. }
  split; [exact Hform|].
  intros E1 E2. rewrite Hform, E1, E2. vm_compute. reflexivity.
Qed.

Definition counters (received lost : Z) : R :=
  set_packetsLost lost (set_packetsReceived received init).

Lemma getPacketLossRate_formula_97_3 :
  getPacketLossRate (counters 97 3) = 3%float.
Proof.
  apply (getPacketLossRate_formula (counters 97 3)); vm_compute; congruence.
Defined.

(** *** The receive loop *)

(** A datagram that Qt reports invalid, or whose payload does not parse,
    leaves the receiver as it was. *)
Lemma processDatagram_undecodable (env : Env) (datagram : Datagram) (r : R) :
  dg_isValid datagram = false \/ dg_document datagram = None ->
  processDatagram env datagram r = Done (tt, r).
Proof.
  intros [H|H]; unfold processDatagram; rewrite H.
  - reflexivity.
  - destruct (dg_isValid datagram); reflexivity.
Qed.

(** So does an ACK document. *)
Lemma processDatagram_ack (env : Env) (datagram : Datagram) (obj : QJsonObject) (r : R) :
  dg_document datagram = Some obj ->
  is_ack_document obj = true ->
  processDatagram env datagram r = Done (tt, r).
Proof.
  intros Hdoc Hack. unfold processDatagram. rewrite Hdoc, Hack.
  destruct (dg_isValid datagram); reflexivity.
Qed.

(** Any other document is decoded and, when it asks for no ACK, handed to
    sequence processing. *)
Lemma processDatagram_telemetry (env : Env) (datagram : Datagram) (obj : QJsonObject) (r : R) :
  dg_isValid datagram = true ->
  dg_document datagram = Some obj ->
  is_ack_document obj = false ->
  needsAck (TelemetryPacket_fromJson obj) = false ->
  processDatagram env datagram r = processReceivedPacket (TelemetryPacket_fromJson obj) r.
Proof.
  intros Hv Hdoc Hack Hneeds. unfold processDatagram. rewrite Hv, Hdoc, Hack, Hneeds.
  unfold bind, ret. reflexivity.
Qed.

(** [sendAck] takes [m_socketLock]; called with the lock held it does not
    return. *)
Lemma sendAck_deadlock (env : Env) (seq : Z) (sender : string) (port : Z) (r : R) :
  m_socketLock r = true ->
  sendAck env seq sender port r = Deadlock.
Proof. intros H. unfold sendAck. now apply locked_held. Qed.

(** With the lock free it writes one ACK document, carrying [seq], to the
    address it is given. *)
Lemma sendAck_run (env : Env) (seq : Z) (sender : string) (port : Z) (r : R) :
  m_socketLock r = false ->
  exists r' ok,
    sendAck env seq sender port r = Done (tt, r')
    /\ emitted r' =
         emitted r ++
         [writeDatagram
            (AckPacket_toJson {| ack_sequenceNumber := seq;
                                 ack_timestamp := currentDateTime env |})
            sender port ok]
    /\ m_acksSent r' = (if ok then wrap_i32 (m_acksSent r + 1) else m_acksSent r).
Proof.
  intros H. unfold sendAck. rewrite locked_run by assumption. slot_steps. cbn.
  destruct (socket_accepts env _); cbn; eexists; eexists;
    (split; [reflexivity|]); cbn; split; reflexivity.
Qed.

Lemma processDatagram_needsAck_deadlock (env : Env) (datagram : Datagram)
    (obj : QJsonObject) (r : R) :
  m_socketLock r = true ->
  dg_isValid datagram = true ->
  dg_document datagram = Some obj ->
  is_ack_document obj = false ->
  needsAck (TelemetryPacket_fromJson obj) = true ->
  processDatagram env datagram r = Deadlock.
Proof.
  intros Hl Hv Hdoc Hack Hneeds. unfold processDatagram. rewrite Hv, Hdoc, Hack, Hneeds.
  unfold bind. now rewrite sendAck_deadlock.
Qed.

(** C9. The specification has a telemetry datagram with [needsAck] set
    answered by exactly one ACK and then handed to sequence processing.
    [processPendingDatagrams] holds [m_socketLock] for the whole loop, and
    [sendAck] locks it again: on the first such datagram the slot does not
    return. Datagrams before it that do not decode, or that are ACK
    documents, were skipped. *)
Theorem processPendingDatagrams_needsAck_deadlock (env : Env)
    (skipped : list Datagram) (datagram : Datagram) (rest : list Datagram)
    (obj : QJsonObject) (r : R) :
  m_socketLock r = false ->
  Forall (fun d => dg_isValid d = false \/ dg_document d = None
                   \/ exists o, dg_document d = Some o /\ is_ack_document o = true) skipped ->
  dg_isValid datagram = true ->
  dg_document datagram = Some obj ->
  is_ack_document obj = false ->
  needsAck (TelemetryPacket_fromJson obj) = true ->
  exec (processPendingDatagrams env (skipped ++ datagram :: rest)) r = Deadlock.
Proof.
  intros Hl Hskip Hv Hdoc Hack Hneeds.
  unfold exec, processPendingDatagrams. rewrite locked_run by assumption.
  rewrite for_each_app.
  rewrite (for_each_skip skipped).
  - rewrite for_each_cons.
    rewrite (processDatagram_needsAck_deadlock env datagram obj); auto.
  - intros d Hd. rewrite Forall_forall in Hskip.
    destruct (Hskip d Hd) as [H|[H|(o & H1 & H2)]].
    + apply processDatagram_undecodable. now left.
    + apply processDatagram_undecodable. now right.
    + now apply (processDatagram_ack env d o).
Qed.

(** A telemetry datagram as a sender with reliability enabled writes it. *)
Definition reliable_datagram : Datagram :=
  {| dg_isValid := true;
     dg_document :=
       Some (TelemetryPacket_toJson
               {| sequenceNumber := 1; timestamp := 1000;
                  latitude := 41%float; longitude := 29%float; speed := 60%float;
                  status := "OK"; needsAck := true |});
     dg_senderAddress := "192.0.2.1";
     dg_senderPort := 40000 |}.

Definition garbage_datagram : Datagram :=
  {| dg_isValid := true; dg_document := None;
     dg_senderAddress := "192.0.2.7"; dg_senderPort := 9 |}.

Lemma processPendingDatagrams_needsAck_deadlock_first :
  exec (processPendingDatagrams quiet_env [garbage_datagram; reliable_datagram]) init = Deadlock.
Proof.
  apply (processPendingDatagrams_needsAck_deadlock quiet_env
           [garbage_datagram] reliable_datagram []
           (TelemetryPacket_toJson
               {| sequenceNumber := 1; timestamp := 1000;
                  latitude := 41%float; longitude := 29%float; speed := 60%float;
                  status := "OK"; needsAck := true |}) init).
  - reflexivity.
  - constructor; [right; left; reflexivity | constructor].
  - reflexivity.
  - reflexivity.
  - vm_compute. reflexivity.
  - vm_compute. reflexivity.
Defined.

(** *** Interpolation *)

Ltac u32_arith :=
  unfold wrap_u32, is_u32, UINT32_MOD in *; Z.div_mod_to_equations; lia.

(** The searches stop by themselves within [scan_fuel] iterations: more
    fuel changes nothing. *)
Lemma find_before_more_fuel (buf : gmap Z TelemetryPacket) (s : Z) (n m : nat) (i : Z) :
  i - wrap_u32 (s - 10) <= Z.of_nat n ->
  (n <= m)%nat ->
  find_before n buf s i = find_before m buf s i.
Proof.
  revert m i. induction n as [|n IH]; intros m i Hi Hnm.
  - destruct m as [|m]; [reflexivity|]. cbn.
    destruct (Z.ltb_spec (wrap_u32 (s - 10)) i); [lia|].
    now rewrite andb_false_r.
  - destruct m as [|m]; [lia|]. cbn.
    destruct (Z.ltb_spec 0 i); [|reflexivity].
    destruct (Z.ltb_spec (wrap_u32 (s - 10)) i); [|reflexivity]. cbn.
    destruct (buf !! i); [reflexivity|].
    apply IH; [|lia].
    assert (wrap_u32 (i - 1) <= i - 1) by u32_arith. lia.
Qed.

Lemma find_before_fuel (buf : gmap Z TelemetryPacket) (s : Z) (n : nat) :
  is_u32 s ->
  (scan_fuel <= n)%nat ->
  find_before n buf s (wrap_u32 (s - 1)) = find_before scan_fuel buf s (wrap_u32 (s - 1)).
Proof.
  intros Hs Hn. symmetry. apply find_before_more_fuel; [|assumption].
  unfold scan_fuel. u32_arith.
Qed.

Lemma find_after_more_fuel (buf : gmap Z TelemetryPacket) (s : Z) (n m : nat) (i : Z) :
  wrap_u32 (s + 10) - i <= Z.of_nat n ->
  (n <= m)%nat ->
  find_after n buf s i = find_after m buf s i.
Proof.
  revert m i. induction n as [|n IH]; intros m i Hi Hnm.
  - destruct m as [|m]; [reflexivity|]. cbn.
    destruct (Z.ltb_spec i (wrap_u32 (s + 10))); [lia|reflexivity].
  - destruct m as [|m]; [lia|]. cbn.
    destruct (Z.ltb_spec i (wrap_u32 (s + 10))); [|reflexivity].
    destruct (buf !! i); [reflexivity|].
    apply IH; [|lia].
    assert (wrap_u32 (s + 10) < 2 ^ 32) by u32_arith.
    destruct (Z.le_gt_cases 0 i).
    + assert (wrap_u32 (i + 1) = i + 1) by u32_arith. lia.
    + assert (0 <= wrap_u32 (i + 1)) by u32_arith.
      assert (i + 1 <= wrap_u32 (i + 1)) by lia. lia.
Qed.

Lemma find_after_fuel (buf : gmap Z TelemetryPacket) (s : Z) (n : nat) :
  is_u32 s ->
  (scan_fuel <= n)%nat ->
  find_after n buf s (wrap_u32 (s + 1)) = find_after scan_fuel buf s (wrap_u32 (s + 1)).
Proof.
  intros Hs Hn. symmetry. apply find_after_more_fuel; [|assumption].
  unfold scan_fuel. u32_arith.
Qed.

(** For a sequence number from 1 to 9, [sequenceNumber - 10] wraps to a
    number near 2^32 and the backward search does not run at all. *)
Lemma find_before_below_10 (buf : gmap Z TelemetryPacket) (s : Z) (n : nat) :
  1 <= s <= 9 ->
  find_before n buf s (wrap_u32 (s - 1)) = None.
Proof.
  intros Hs. destruct n as [|n]; [reflexivity|]. cbn.
  destruct (Z.ltb_spec (wrap_u32 (s - 10)) (wrap_u32 (s - 1))) as [H|H].
  - exfalso. revert H. u32_arith.
  - now rewrite andb_false_r.
Qed.

(** What [interpolatePacket] returns when it copies the position and
    speed of [p]. *)
Definition substitute (env : Env) (seq : Z) (p : TelemetryPacket) : TelemetryPacket :=
  {| sequenceNumber := seq;
     timestamp := currentDateTime env;
     latitude := latitude p; longitude := longitude p; speed := speed p;
     status := "INTERPOLATED";
     needsAck := false |}.

(** For [s] from 1 to 9 the backward search looks at no sequence number:
    with packets buffered on both sides of [s], at [s - 1] and at [s + 1],
    [interpolatePacket] does not interpolate between them but returns the
    position and speed of the successor. *)
Theorem interpolatePacket_ignores_predecessor_below_10 (env : Env) (r : R) (s : Z)
    (before after : TelemetryPacket) :
  1 <= s <= 9 ->
  m_receivedPackets r !! (s - 1) = Some before ->
  m_receivedPackets r !! (s + 1) = Some after ->
  interpolatePacket env r s = substitute env s after.
Proof.
  intros Hs Hb Ha. unfold interpolatePacket.
  rewrite find_before_below_10 by assumption.
  assert (E1 : wrap_u32 (s + 1) = s + 1) by u32_arith.
  assert (E2 : wrap_u32 (s + 10) = s + 10) by u32_arith.
  unfold scan_fuel. cbn [find_after]. rewrite E1, E2, Ha.
  destruct (Z.ltb_spec (s + 1) (s + 10)); [reflexivity | lia].
Qed.

Definition sample (seq : Z) (x : float) : TelemetryPacket :=
  {| sequenceNumber := seq; timestamp := 0;
     latitude := x; longitude := (x + x)%float; speed := (x * 10)%float;
     status := "OK"; needsAck := false |}.

Lemma interpolatePacket_ignores_predecessor_at_6 :
  interpolatePacket quiet_env
    (set_receivedPackets (<[5 := sample 5 0]> (<[7 := sample 7 4]> ∅)) init) 6
  = substitute quiet_env 6 (sample 7 4).
Proof.
  apply (interpolatePacket_ignores_predecessor_below_10 quiet_env
           (set_receivedPackets (<[5 := sample 5 0]> (<[7 := sample 7 4]> ∅)) init)
           6 (sample 5 0) (sample 7 4)).
  - lia.
  - reflexivity.
  - reflexivity.
Defined.

(** The state of the specification's gap-fill example: the buffer holds
    exactly the sequence numbers 5 ([A]) and 9 ([B]), the last valid
    sequence number is 9, the expected one 6, interpolation is enabled. *)
Definition gap_state (A B : TelemetryPacket) : R :=
  set_receivedPackets (<[5 := A]> (<[9 := B]> ∅))
    (set_lastValidPacket B
       (set_lastValidSequenceNumber 9
          (set_expectedSequenceNumber 6 init))).

(** On that state one gap check emits 6, 7 and 8, each once and tagged
    INTERPOLATED, and leaves the expected sequence number at 9; each of the
    three carries the position and speed of [B] unchanged, the search for a
    predecessor being skipped below sequence number 10. With [A] at
    latitude 0 and [B] at latitude 4 the packet for 6 has latitude 4, where
    a quarter of the way from [A] to [B] is 1. *)
Theorem gap_check_5_9_copies_successor (env : Env) (A B : TelemetryPacket) :
  (exists r',
     exec (checkForMissingPackets env) (gap_state A B) = Done r'
     /\ emitted r' =
          [telemetryDataReceived (substitute env 6 B);
           telemetryDataReceived (substitute env 7 B);
           telemetryDataReceived (substitute env 8 B);
           statisticsUpdated]
     /\ m_expectedSequenceNumber r' = 9
     /\ m_packetsLost r' = 3
     /\ m_packetsInterpolated r' = 3)
  /\ latitude (substitute env 6 (sample 9 4)) = 4%float
  /\ lerp (double_of_Z 1 / double_of_Z 4) (latitude (sample 5 0)) (latitude (sample 9 4))
       = 1%float
  /\ 4%float <> 1%float.
Proof.
  split; [|split; [|split]].
  - eexists. split; [vm_compute; reflexivity|]. repeat split.
  - reflexivity.
  - vm_compute. reflexivity.
  - intros H. apply (f_equal Prim2SF) in H. vm_compute in H. discriminate.
Qed.













(** *** Eviction *)

Lemma set_receivedPackets_id (r : R) : set_receivedPackets (m_receivedPackets r) r = r.
Proof. now destruct r. Qed.

Lemma set_dataLock_restore (r : R) :
  m_dataLock r = false -> set_dataLock false (set_dataLock true r) = r.
Proof. destruct r; cbn. now intros ->. Qed.

(** The buffer after the keys [ks] were removed one by one. *)
Definition remove_all (ks : list Z) (buf : gmap Z TelemetryPacket) : gmap Z TelemetryPacket :=
  foldl (fun m k => delete k m) buf ks.

Lemma remove_all_lookup (ks : list Z) (buf : gmap Z TelemetryPacket) (k : Z) :
  remove_all ks buf !! k = if decide (k ∈ ks) then None else buf !! k.
Proof.
  unfold remove_all. revert buf. induction ks as [|k0 ks IH]; intros buf; cbn.
  - rewrite decide_False; [reflexivity | apply not_elem_of_nil].
  - rewrite IH. destruct (decide (k ∈ ks)) as [Hin|Hnin].
    + rewrite decide_True; [reflexivity | now apply list_elem_of_further].
    + destruct (decide (k = k0)) as [->|Hne].
      * rewrite lookup_delete_eq. rewrite decide_True; [reflexivity | apply list_elem_of_here].
      * rewrite lookup_delete_ne by congruence.
        rewrite decide_False; [reflexivity|].
        intros Hin. apply elem_of_cons in Hin. tauto.
Qed.

Lemma remove_all_size (ks : list Z) (buf : gmap Z TelemetryPacket) :
  NoDup ks ->
  (forall k, k ∈ ks -> is_Some (buf !! k)) ->
  size (remove_all ks buf) = (size buf - length ks)%nat.
Proof.
  unfold remove_all. revert buf. induction ks as [|k0 ks IH]; intros buf Hnd Hin; cbn.
  - lia.
  - apply NoDup_cons in Hnd as [Hk0 Hnd].
    rewrite IH; [|assumption|].
    + rewrite map_size_delete_Some by (apply Hin, list_elem_of_here). lia.
    + intros k Hk. rewrite lookup_delete_ne by (intros ->; contradiction).
      apply Hin. now apply list_elem_of_further.
Qed.

(** The loop of [cleanupOldPackets] over the indices [i], ..., [i + n - 1]
    of [keys], all of them in range. *)
Lemma removeAt_loop (keys : list Z) (n i : nat) (r : R) :
  (i + n <= length keys)%nat ->
  for_each (seqZ (Z.of_nat i) (Z.of_nat n)) (removeAt keys) r =
    Done (tt, set_receivedPackets
                (remove_all (take n (drop i keys)) (m_receivedPackets r)) r).
Proof.
  revert i r. induction n as [|n IH]; intros i r Hlen.
  - now destruct r.
  - rewrite seqZ_cons by lia. rewrite for_each_cons.
    destruct (lookup_lt_is_Some_2 keys i ltac:(lia)) as [k Hk].
    unfold removeAt at 1. rewrite Nat2Z.id, Hk. unfold modify.
    replace (Z.succ (Z.of_nat i)) with (Z.of_nat (S i)) by lia.
    replace (Z.pred (Z.of_nat (S n))) with (Z.of_nat n) by lia.
    rewrite IH by lia. rewrite (drop_S keys k i Hk). cbn. now destruct r.
Qed.

(** An index past the end of [keys] is a fault. *)
Lemma removeAt_out_of_range (keys : list Z) (i : Z) (r : R) :
  (length keys <= Z.to_nat i)%nat -> removeAt keys i r = Fault.
Proof. intros H. unfold removeAt. now rewrite lookup_ge_None_2. Qed.

Lemma sorted_keys_perm (buf : gmap Z TelemetryPacket) :
  sorted_keys buf ≡ₚ (map_to_list buf).*1.
Proof. apply merge_sort_Permutation. Qed.

Lemma sorted_keys_length (buf : gmap Z TelemetryPacket) :
  length (sorted_keys buf) = size buf.
Proof. now rewrite sorted_keys_perm, length_fmap, length_map_to_list. Qed.

Lemma sorted_keys_NoDup (buf : gmap Z TelemetryPacket) : NoDup (sorted_keys buf).
Proof. rewrite sorted_keys_perm. apply NoDup_fst_map_to_list. Qed.

Lemma sorted_keys_elem_of (buf : gmap Z TelemetryPacket) (k : Z) :
  k ∈ sorted_keys buf <-> is_Some (buf !! k).
Proof.
  rewrite sorted_keys_perm, list_elem_of_fmap. split.
  - intros ([k' p] & -> & Hin). apply elem_of_map_to_list in Hin. now exists p.
  - intros [p Hp]. exists (k, p). split; [reflexivity|]. now apply elem_of_map_to_list.
Qed.

Lemma sorted_keys_sorted (buf : gmap Z TelemetryPacket) :
  StronglySorted Z.le (sorted_keys buf).
Proof. apply StronglySorted_merge_sort; apply _. Qed.

(** In the sorted keys, whatever stands among the first [t] is smaller
    than whatever stands after them. *)
Lemma sorted_keys_split (buf : gmap Z TelemetryPacket) (t : nat) (k1 k2 : Z) :
  k1 ∈ take t (sorted_keys buf) ->
  k2 ∈ drop t (sorted_keys buf) ->
  k1 < k2.
Proof.
  intros H1 H2.
  pose proof (sorted_keys_sorted buf) as Hs.
  pose proof (sorted_keys_NoDup buf) as Hnd.
  rewrite <- (take_drop t (sorted_keys buf)) in Hs, Hnd.
  pose proof (StronglySorted_app_1_elem_of _ _ _ _ _ Hs H1 H2) as Hle.
  apply NoDup_app in Hnd as (_ & Hdisj & _).
  assert (k1 <> k2) by (intros ->; now apply (Hdisj k2)).
  lia.
Qed.

(** C7. For a buffer bound that is not negative (and a buffer whose size an
    [int] holds): when the buffer holds more than [m_maxBufferSize]
    entries, [cleanupOldPackets] returns and leaves exactly
    [m_maxBufferSize] of them, each with the packet it had, and every
    sequence number it evicted is smaller than every one it kept; when the
    buffer holds no more than the bound, the receiver is left as it was. *)
Theorem cleanupOldPackets_evicts_smallest (r : R) :
  m_dataLock r = false ->
  0 <= m_maxBufferSize r ->
  Z.of_nat (size (m_receivedPackets r)) <= INT_MAX ->
  exists r',
    exec cleanupOldPackets r = Done r'
    /\ (m_maxBufferSize r < Z.of_nat (size (m_receivedPackets r)) ->
        Z.of_nat (size (m_receivedPackets r')) = m_maxBufferSize r
        /\ m_receivedPackets r' ⊆ m_receivedPackets r
        /\ (forall kept evicted : Z,
              is_Some (m_receivedPackets r' !! kept) ->
              is_Some (m_receivedPackets r !! evicted) ->
              m_receivedPackets r' !! evicted = None ->
              evicted < kept))
    /\ (Z.of_nat (size (m_receivedPackets r)) <= m_maxBufferSize r -> r' = r).
Proof.
  intros Hlock Hmax Hsize.
  unfold exec, cleanupOldPackets. rewrite locked_run by assumption.
  slot_steps. cbn [m_receivedPackets m_maxBufferSize set_dataLock].
  set (buf := m_receivedPackets r) in *.
  destruct (Z.ltb_spec (m_maxBufferSize r) (Z.of_nat (size buf))) as [Hgt|Hle].
  - set (t := (size buf - Z.to_nat (m_maxBufferSize r))%nat).
    assert (Ht : wrap_i32 (Z.of_nat (size buf) - m_maxBufferSize r) = Z.of_nat t).
    { rewrite wrap_i32_id by (unfold is_i32, INT_MIN, INT_MAX in *; lia).
      unfold t. lia. }
    rewrite Ht. change 0 with (Z.of_nat 0).
    rewrite removeAt_loop by (rewrite sorted_keys_length; cbn; unfold t; lia).
    rewrite drop_0. cbn [m_receivedPackets set_dataLock set_receivedPackets].
    fold buf. eexists. split; [reflexivity|].
    cbn [m_receivedPackets set_dataLock set_receivedPackets].
    split; [|lia]. intros _. split; [|split].
    + rewrite remove_all_size.
      * rewrite length_take, sorted_keys_length. unfold t. lia.
      * eapply sublist_NoDup; [apply sorted_keys_NoDup | apply sublist_take].
      * intros k Hk. apply sorted_keys_elem_of. now apply (subseteq_take t).
    + apply map_subseteq_spec. intros k p. rewrite remove_all_lookup.
      destruct (decide (k ∈ take t (sorted_keys buf))); [discriminate | trivial].
    + intros kept evicted Hkept Hold Hgone.
      rewrite remove_all_lookup in Hkept, Hgone.
      destruct (decide (kept ∈ take t (sorted_keys buf))) as [|Hk];
        [destruct Hkept; discriminate|].
      destruct (decide (evicted ∈ take t (sorted_keys buf))) as [He|];
        [|rewrite Hgone in Hold; destruct Hold; discriminate].
      apply (sorted_keys_split buf t); [assumption|].
      apply sorted_keys_elem_of in Hkept.
      rewrite <- (take_drop t (sorted_keys buf)) in Hkept.
      apply elem_of_app in Hkept. tauto.
  - eexists. split; [reflexivity|]. split; [lia|]. intros _.
    now apply set_dataLock_restore.
Qed.

(** Three buffered packets and room for two. *)
Definition crowded : R :=
  set_maxBufferSize 2
    (set_receivedPackets
       (<[1 := sample 1 1]> (<[2 := sample 2 2]> (<[3 := sample 3 3]> ∅))) init).

Lemma cleanupOldPackets_evicts_smallest_of_three :
  exists r',
    exec cleanupOldPackets crowded = Done r'
    /\ (m_maxBufferSize crowded < Z.of_nat (size (m_receivedPackets crowded)) ->
        Z.of_nat (size (m_receivedPackets r')) = m_maxBufferSize crowded
        /\ m_receivedPackets r' ⊆ m_receivedPackets crowded
        /\ (forall kept evicted : Z,
              is_Some (m_receivedPackets r' !! kept) ->
              is_Some (m_receivedPackets crowded !! evicted) ->
              m_receivedPackets r' !! evicted = None ->
              evicted < kept))
    /\ (Z.of_nat (size (m_receivedPackets crowded)) <= m_maxBufferSize crowded -> r' = crowded).
Proof.
  apply (cleanupOldPackets_evicts_smallest crowded).
  - reflexivity.
  - cbn. lia.
  - vm_compute. congruence.
Defined.

(** A negative bound sends the loop past the end of [keys]. *)
Lemma cleanupOldPackets_negative_bound :
  exec cleanupOldPackets (set_maxBufferSize (-1) init) = Fault.
Proof. vm_compute. reflexivity. Qed.

(** *** Gap detection *)

(** The range the gap check scans is empty whenever the expected sequence
    number is not below the last valid one: the check then only signals
    [statisticsUpdated]. *)
Lemma checkForMissingPackets_idle (env : Env) (r : R) :
  m_dataLock r = false ->
  m_lastValidSequenceNumber r <= m_expectedSequenceNumber r ->
  exists r',
    exec (checkForMissingPackets env) r = Done r'
    /\ emitted r' = emitted r ++ [statisticsUpdated]
    /\ m_packetsLost r' = m_packetsLost r
    /\ m_packetsInterpolated r' = m_packetsInterpolated r
    /\ m_expectedSequenceNumber r' = m_expectedSequenceNumber r
    /\ m_lastValidSequenceNumber r' = m_lastValidSequenceNumber r
    /\ m_dataLock r' = false.
Proof.
  intros Hlock Hle. unfold exec, checkForMissingPackets.
  rewrite locked_run by assumption. slot_steps.
  cbn [m_expectedSequenceNumber m_lastValidSequenceNumber set_dataLock].
  rewrite seqZ_nil by lia. cbn.
  eexists. split; [reflexivity|]. cbn. repeat split; reflexivity.
Qed.

(** [processReceivedPacket] keeps the expected sequence number above the
    last valid one, for every sequence number but the largest. *)
Lemma processReceivedPacket_keeps_ahead (packet : TelemetryPacket) (r : R) :
  m_dataLock r = false ->
  is_u32 (sequenceNumber packet) ->
  sequenceNumber packet < UINT32_MOD - 1 ->
  m_lastValidSequenceNumber r < m_expectedSequenceNumber r ->
  exists r',
    exec (processReceivedPacket packet) r = Done r'
    /\ m_lastValidSequenceNumber r' < m_expectedSequenceNumber r'
    /\ m_packetsLost r' = m_packetsLost r
    /\ m_dataLock r' = false.
Proof.
  intros Hlock Hu Hlt Hinv.
  destruct (processReceivedPacket_run packet r Hlock)
    as (r' & Hrun & _ & _ & Hlast & _ & Hexp & _ & Hl & _ & Hlost & _).
  exists r'. unfold exec. rewrite Hrun. split; [reflexivity|].
  split; [|split; assumption].
  rewrite Hlast, Hexp.
  destruct (Z.leb_spec (m_lastValidSequenceNumber r) (sequenceNumber packet));
    destruct (Z.leb_spec (m_expectedSequenceNumber r) (sequenceNumber packet));
    rewrite ?wrap_u32_succ by assumption; lia.
Qed.

(** The calls a receiver gets: a decoded packet, or a tick of the timer of
    the gap check. *)
Inductive Call : Type :=
| received (packet : TelemetryPacket)
| gap_check (env : Env).

Definition call (c : Call) : Slot R unit :=
  match c with
  | received packet => processReceivedPacket packet
  | gap_check env => checkForMissingPackets env
  end.

(** A call whose packet, if any, does not carry the largest sequence
    number. *)
Definition below_largest (c : Call) : Prop :=
  match c with
  | received packet =>
      is_u32 (sequenceNumber packet) /\ sequenceNumber packet < UINT32_MOD - 1
  | gap_check _ => True
  end.

(** Through any such calls the expected sequence number stays above the
    last valid one, and no packet is ever counted lost. *)
Lemma no_loss_counted (calls : list Call) (r : R) :
  m_dataLock r = false ->
  m_lastValidSequenceNumber r < m_expectedSequenceNumber r ->
  Forall below_largest calls ->
  exists r',
    exec (for_each calls call) r = Done r'
    /\ m_packetsLost r' = m_packetsLost r
    /\ m_lastValidSequenceNumber r' < m_expectedSequenceNumber r'.
Proof.
  revert r. induction calls as [|c calls IH]; intros r Hlock Hinv Hall.
  - exists r. now repeat split.
  - apply Forall_cons in Hall as [Hc Hall].
    assert (Hstep : exists r1, call c r = Done (tt, r1)
                               /\ m_dataLock r1 = false
                               /\ m_lastValidSequenceNumber r1 < m_expectedSequenceNumber r1
                               /\ m_packetsLost r1 = m_packetsLost r).
    { destruct c as [packet|env]; cbn in Hc |- *.
      - destruct Hc as [Hu Hlt].
        destruct (processReceivedPacket_keeps_ahead packet r Hlock Hu Hlt Hinv)
          as (r1 & Hrun & Hinv1 & Hlost & Hlock1).
        exists r1. apply exec_done_unit in Hrun. now repeat split.
      - destruct (checkForMissingPackets_idle env r Hlock ltac:(lia))
          as (r1 & Hrun & _ & Hlost & _ & Hexp & Hlast & Hlock1).
        exists r1. apply exec_done_unit in Hrun. repeat split; try assumption. lia. }
    destruct Hstep as (r1 & Hrun & Hlock1 & Hinv1 & Hlost1).
    destruct (IH r1 Hlock1 Hinv1 Hall) as (r' & Hrest & Hlost & Hinv').
    exists r'. unfold exec in *. rewrite for_each_cons, Hrun.
    split; [assumption|]. split; [congruence | assumption].
Qed.

End ReceiverProps.

(** ** The sender *)

Module SenderProps.
Import Sender.

(** The packet [sendTelemetryData] stamps and transmits. *)
Definition stamped (env : Env) (st : T) (pkt : TelemetryPacket) : TelemetryPacket :=
  {| sequenceNumber := m_nextSequenceNumber st;
     timestamp := currentDateTime env;
     latitude := latitude pkt; longitude := longitude pkt; speed := speed pkt;
     status := status pkt;
     needsAck := m_reliabilityEnabled st |}.

(** What one call of [sendTelemetryData] leaves, field by field; [ok] is
    whether the socket took the datagram. *)
Lemma sendTelemetryData_run (env : Env) (pkt : TelemetryPacket) (st : T) :
  m_pendingLock st = false ->
  m_socketLock st = false ->
  let data := TelemetryPacket_toJson (stamped env st pkt) in
  let ok := socket_accepts env data in
  exists st',
    sendTelemetryData env pkt st = Done (tt, st')
    /\ m_nextSequenceNumber st' = wrap_u32 (m_nextSequenceNumber st + 1)
    /\ m_packetsSent st' =
         (if ok then wrap_i32 (m_packetsSent st + 1) else m_packetsSent st)
    /\ m_pendingAcks st' =
         (if ok && m_reliabilityEnabled st
          then <[m_nextSequenceNumber st :=
                   {| packet := stamped env st pkt;
                      sentTime := currentDateTime env;
                      retransmissionCount := 0 |}]> (m_pendingAcks st)
          else m_pendingAcks st)
    /\ emitted st' =
         emitted st
         ++ writeDatagram data (m_targetAddress st) (m_targetPort st) ok
            :: (if ok then [statisticsUpdated] else [])
    /\ m_pendingLock st' = false
    /\ m_socketLock st' = false
    /\ m_reliabilityEnabled st' = m_reliabilityEnabled st
    /\ m_maxRetransmissions st' = m_maxRetransmissions st
    /\ m_ackTimeoutMs st' = m_ackTimeoutMs st
    /\ m_targetAddress st' = m_targetAddress st
    /\ m_targetPort st' = m_targetPort st.
Proof.
  intros Hp Hs data ok. unfold sendTelemetryData.
  rewrite locked_run by assumption. unfold bind at 1, get at 1.
  unfold bind at 1, modify at 1. unfold bind at 1.
  rewrite locked_run by (cbn; assumption).
  slot_steps. cbn. fold (stamped env st pkt). fold data. fold ok.
  destruct ok; cbn; [destruct (m_reliabilityEnabled st) eqn:E; cbn|];
    eexists; (split; [reflexivity|]); cbn; rewrite ?E, <- ?app_assoc; cbn;
    repeat split; reflexivity.
Qed.

(** *** Sending *)

(** C4, as the code has it. A call of [sendTelemetryData] returns; when
    the socket takes the datagram, [m_packetsSent] goes up by one (in [int]
    arithmetic) and, with reliability enabled, a pending entry with
    [retransmissionCount] 0 is stored under the sequence number the packet
    was given; when the socket refuses it, [m_packetsSent] and
    [m_pendingAcks] are left as they were. *)
Theorem sendTelemetryData_counts_accepted_sends (env : Env) (pkt : TelemetryPacket) (st : T) :
  m_pendingLock st = false ->
  m_socketLock st = false ->
  exists st',
    exec (sendTelemetryData env pkt) st = Done st'
    /\ (socket_accepts env (TelemetryPacket_toJson (stamped env st pkt)) = true ->
        m_packetsSent st' = wrap_i32 (m_packetsSent st + 1)
        /\ (m_reliabilityEnabled st = true ->
            m_pendingAcks st' =
              <[m_nextSequenceNumber st :=
                  {| packet := stamped env st pkt;
                     sentTime := currentDateTime env;
                     retransmissionCount := 0 |}]> (m_pendingAcks st)))
    /\ (socket_accepts env (TelemetryPacket_toJson (stamped env st pkt)) = false ->
        m_packetsSent st' = m_packetsSent st
        /\ m_pendingAcks st' = m_pendingAcks st).
Proof.
  intros Hp Hs.
  destruct (sendTelemetryData_run env pkt st Hp Hs) as (st' & Hrun & _ & Hsent & Hpend & _).
  exists st'. unfold exec. rewrite Hrun. split; [reflexivity|].
  rewrite Hsent, Hpend. split; intros ->; cbn.
  - split; [reflexivity|]. now intros ->.
  - now split.
Qed.

Definition reading : TelemetryPacket :=
  {| sequenceNumber := 0; timestamp := 0;
     latitude := 41%float; longitude := 29%float; speed := 60%float;
     status := "OK"; needsAck := false |}.

Definition accepting_env : Env :=
  {| currentDateTime := 1000; socket_accepts := fun _ => true |}.

Definition refusing_env : Env :=
  {| currentDateTime := 1000; socket_accepts := fun _ => false |}.

Lemma sendTelemetryData_counts_accepted_sends_first :
  exists st',
    exec (sendTelemetryData accepting_env reading) init = Done st'
    /\ (socket_accepts accepting_env
          (TelemetryPacket_toJson (stamped accepting_env init reading)) = true ->
        m_packetsSent st' = wrap_i32 (m_packetsSent init + 1)
        /\ (m_reliabilityEnabled init = true ->
            m_pendingAcks st' =
              <[m_nextSequenceNumber init :=
                  {| packet := stamped accepting_env init reading;
                     sentTime := currentDateTime accepting_env;
                     retransmissionCount := 0 |}]> (m_pendingAcks init)))
    /\ (socket_accepts accepting_env
          (TelemetryPacket_toJson (stamped accepting_env init reading)) = false ->
        m_packetsSent st' = m_packetsSent init
        /\ m_pendingAcks st' = m_pendingAcks init).
Proof.
  apply (sendTelemetryData_counts_accepted_sends accepting_env reading init); reflexivity.
Defined.

(** C4, as the specification has it, "always increments a sent-packet
    counter": not when the socket refuses the datagram. *)
Lemma sendTelemetryData_refused_send_not_counted :
  exists st',
    exec (sendTelemetryData refusing_env reading) init = Done st'
    /\ m_packetsSent init = 0
    /\ m_packetsSent st' = 0
    /\ m_packetsSent st' <> m_packetsSent init + 1.
Proof.
  eexists. split; [vm_compute; reflexivity|]. repeat split. cbn. lia.
Qed.

(** Every call takes the next sequence number, whether or not the socket
    takes the datagram; a refused datagram leaves nothing behind but the
    attempt. *)
Lemma sendTelemetryData_consumes_sequence_number (env : Env) (pkt : TelemetryPacket) (st : T) :
  m_pendingLock st = false ->
  m_socketLock st = false ->
  exists st',
    exec (sendTelemetryData env pkt) st = Done st'
    /\ m_nextSequenceNumber st' = wrap_u32 (m_nextSequenceNumber st + 1)
    /\ (socket_accepts env (TelemetryPacket_toJson (stamped env st pkt)) = false ->
        m_pendingAcks st' = m_pendingAcks st
        /\ emitted st' =
             emitted st ++
             [writeDatagram (TelemetryPacket_toJson (stamped env st pkt))
                (m_targetAddress st) (m_targetPort st) false]).
Proof.
  intros Hp Hs.
  destruct (sendTelemetryData_run env pkt st Hp Hs)
    as (st' & Hrun & Hnext & _ & Hpend & Hem & _).
  exists st'. unfold exec. rewrite Hrun. split; [reflexivity|].
  split; [assumption|]. rewrite Hpend, Hem. intros ->. cbn. now split.
Qed.

(** *** Retransmission *)

(** What the outside sees of one sequence number: a datagram written for
    it, or its timeout signal. *)
Inductive Observation : Type :=
| Transmitted (payload : QJsonObject)
| TimedOut.

(** The sequence number a telemetry document carries. *)
Definition payload_seq (payload : QJsonObject) : option Z :=
  match payload !! "seq"%string with
  | Some (JInteger n) => Some n
  | _ => None
  end.

Definition observe (seq : Z) (e : Event) : option Observation :=
  match e with
  | writeDatagram payload _ _ _ =>
      if decide (payload_seq payload = Some seq) then Some (Transmitted payload) else None
  | packetTimeout s => if decide (s = seq) then Some TimedOut else None
  | _ => None
  end.

Definition observations (seq : Z) (events : list Event) : list Observation :=
  omap (observe seq) events.

(** Every pending entry is stored under the sequence number of its packet,
    as [sendTelemetryData] stores it. *)
Definition keyed (st : T) : Prop :=
  forall k e, m_pendingAcks st !! k = Some e -> sequenceNumber (packet e) = k.

(** What the slots of this part leave alone. *)
Definition same_settings (st st' : T) : Prop :=
  m_maxRetransmissions st' = m_maxRetransmissions st
  /\ m_ackTimeoutMs st' = m_ackTimeoutMs st
  /\ m_targetAddress st' = m_targetAddress st
  /\ m_targetPort st' = m_targetPort st
  /\ m_pendingLock st' = m_pendingLock st
  /\ m_socketLock st' = m_socketLock st
  /\ m_nextSequenceNumber st' = m_nextSequenceNumber st.

Lemma same_settings_refl (st : T) : same_settings st st.
Proof. now repeat split. Qed.

Lemma same_settings_trans (a b c : T) :
  same_settings a b -> same_settings b c -> same_settings a c.
Proof.
  unfold same_settings. intros (?&?&?&?&?&?&?) (?&?&?&?&?&?&?).
  repeat split; congruence.
Qed.

Lemma payload_seq_toJson (p : TelemetryPacket) :
  payload_seq (TelemetryPacket_toJson p) = Some (sequenceNumber p).
Proof. unfold payload_seq, TelemetryPacket_toJson. now rewrite lookup_insert_eq. Qed.

Lemma observations_app (seq : Z) (xs ys : list Event) :
  observations seq (xs ++ ys) = observations seq xs ++ observations seq ys.
Proof. apply omap_app. Qed.

(** The entry a retransmission leaves. *)
Definition refreshed (env : Env) (e : PendingPacket) : PendingPacket :=
  {| packet := packet e;
     sentTime := currentDateTime env;
     retransmissionCount := wrap_i32 (retransmissionCount e + 1) |}.

Lemma retransmitPacket_run (env : Env) (seq : Z) (st : T) (e : PendingPacket) :
  m_pendingAcks st !! seq = Some e ->
  m_socketLock st = false ->
  exists st' ok,
    retransmitPacket env seq st = Done (tt, st')
    /\ m_pendingAcks st' = <[seq := refreshed env e]> (m_pendingAcks st)
    /\ emitted st' =
         emitted st ++
         [writeDatagram (TelemetryPacket_toJson (packet e))
            (m_targetAddress st) (m_targetPort st) ok;
          statisticsUpdated]
    /\ m_retransmissions st' =
         (if ok then wrap_i32 (m_retransmissions st + 1) else m_retransmissions st)
    /\ same_settings st st'.
Proof.
  intros He Hs. unfold retransmitPacket. unfold bind at 1, get at 1. rewrite He.
  unfold bind at 1, modify at 1. rewrite locked_run by (cbn; assumption).
  slot_steps. cbn. fold (refreshed env e).
  destruct (socket_accepts env (TelemetryPacket_toJson (packet e))); cbn;
    eexists; eexists; (split; [reflexivity|]); cbn; rewrite <- ?app_assoc; cbn;
    unfold same_settings; cbn; rewrite ?Hs; repeat split; reflexivity.
Qed.

(** One turn of the loop of [checkForTimeouts], on a key that is pending. *)
Lemma checkTimedOut_run (env : Env) (seq : Z) (st : T) (e : PendingPacket) :
  m_pendingAcks st !! seq = Some e ->
  m_socketLock st = false ->
  exists st' ok,
    checkTimedOut env seq st = Done (tt, st')
    /\ m_pendingAcks st' =
         (if retransmissionCount e <? m_maxRetransmissions st
          then <[seq := refreshed env e]> (m_pendingAcks st)
          else delete seq (m_pendingAcks st))
    /\ emitted st' =
         emitted st ++
         (if retransmissionCount e <? m_maxRetransmissions st
          then [writeDatagram (TelemetryPacket_toJson (packet e))
                  (m_targetAddress st) (m_targetPort st) ok;
                statisticsUpdated]
          else [packetTimeout seq])
    /\ same_settings st st'.
Proof.
  intros He Hs. unfold checkTimedOut, pendingAt.
  unfold bind at 1. unfold bind at 1, get at 1. rewrite He. unfold ret at 1.
  unfold bind at 1, get at 1.
  destruct (retransmissionCount e <? m_maxRetransmissions st).
  - destruct (retransmitPacket_run env seq st e He Hs)
      as (st' & ok & Hrun & Hpend & Hem & _ & Hsame).
    exists st', ok. now rewrite Hrun.
  - slot_steps. cbn. eexists; exists true. split; [reflexivity|]. cbn.
    split; [reflexivity|]. split; [reflexivity|].
    unfold same_settings; cbn. repeat split; reflexivity.
Qed.

(** [keyed] holds of a fresh sender and is kept by [sendTelemetryData]. *)
Lemma init_keyed : keyed init.
Proof. intros k e H. cbn in H. now rewrite lookup_empty in H. Qed.

Lemma sendTelemetryData_keyed (env : Env) (pkt : TelemetryPacket) (st : T) :
  m_pendingLock st = false ->
  m_socketLock st = false ->
  keyed st ->
  exists st', exec (sendTelemetryData env pkt) st = Done st' /\ keyed st'.
Proof.
  intros Hp Hs Hkeyed.
  destruct (sendTelemetryData_run env pkt st Hp Hs) as (st' & Hrun & _ & _ & Hpend & _).
  exists st'. unfold exec. rewrite Hrun. split; [reflexivity|].
  intros k e He. rewrite Hpend in He.
  destruct (_ && _).
  - apply lookup_insert_Some in He as [[<- <-]|[_ He]]; [reflexivity | now apply Hkeyed].
  - now apply Hkeyed.
Qed.

(** What a turn of the loop shows of its own key, and of another. *)
Definition turn_events (env : Env) (st : T) (k : Z) (e : PendingPacket) (ok : bool)
  : list Event :=
  if retransmissionCount e <? m_maxRetransmissions st
  then [writeDatagram (TelemetryPacket_toJson (packet e))
          (m_targetAddress st) (m_targetPort st) ok;
        statisticsUpdated]
  else [packetTimeout k].

Lemma turn_events_own (env : Env) (st : T) (k : Z) (e : PendingPacket) (ok : bool) :
  sequenceNumber (packet e) = k ->
  observations k (turn_events env st k e ok) =
    if retransmissionCount e <? m_maxRetransmissions st
    then [Transmitted (TelemetryPacket_toJson (packet e))]
    else [TimedOut].
Proof.
  intros Hk. unfold turn_events, observations.
  destruct (retransmissionCount e <? m_maxRetransmissions st); cbn.
  - rewrite payload_seq_toJson, Hk. now rewrite decide_True.
  - now rewrite decide_True.
Qed.

Lemma turn_events_other (env : Env) (st : T) (k k' : Z) (e : PendingPacket) (ok : bool) :
  sequenceNumber (packet e) = k ->
  k <> k' ->
  observations k' (turn_events env st k e ok) = [].
Proof.
  intros Hk Hne. unfold turn_events, observations.
  destruct (retransmissionCount e <? m_maxRetransmissions st); cbn.
  - rewrite payload_seq_toJson, Hk. rewrite decide_False; [reflexivity | congruence].
  - rewrite decide_False; [reflexivity | congruence].
Qed.

(** The second loop of [checkForTimeouts], over distinct pending keys. *)
Lemma checkTimedOut_loop (env : Env) (ks : list Z) (st : T) :
  NoDup ks ->
  (forall k, k ∈ ks -> is_Some (m_pendingAcks st !! k)) ->
  keyed st ->
  m_socketLock st = false ->
  exists st' new,
    for_each ks (checkTimedOut env) st = Done (tt, st')
    /\ emitted st' = emitted st ++ new
    /\ same_settings st st'
    /\ keyed st'
    /\ (forall k, k ∉ ks ->
         m_pendingAcks st' !! k = m_pendingAcks st !! k /\ observations k new = [])
    /\ (forall k e, k ∈ ks -> m_pendingAcks st !! k = Some e ->
         if retransmissionCount e <? m_maxRetransmissions st
         then m_pendingAcks st' !! k = Some (refreshed env e)
              /\ observations k new = [Transmitted (TelemetryPacket_toJson (packet e))]
         else m_pendingAcks st' !! k = None
              /\ observations k new = [TimedOut]).
Proof.
  revert st. induction ks as [|k0 ks IH]; intros st Hnd Hin Hkeyed Hsock.
  - exists st, []. rewrite app_nil_r. repeat split; auto using same_settings_refl.
    intros k e Hk. now apply elem_of_nil in Hk.
  - apply NoDup_cons in Hnd as [Hk0 Hnd].
    destruct (Hin k0 (list_elem_of_here _ _)) as [e0 He0].
    destruct (checkTimedOut_run env k0 st e0 He0 Hsock)
      as (st1 & ok & Hrun & Hpend1 & Hem1 & Hsame1).
    fold (turn_events env st k0 e0 ok) in Hem1.
    assert (Hother : forall k, k <> k0 -> m_pendingAcks st1 !! k = m_pendingAcks st !! k).
    { intros k Hne. rewrite Hpend1.
      destruct (retransmissionCount e0 <? m_maxRetransmissions st).
      - now rewrite lookup_insert_ne.
      - now rewrite lookup_delete_ne. }
    assert (Hkeyed1 : keyed st1).
    { intros k e Hk. destruct (decide (k = k0)) as [->|Hne].
      - rewrite Hpend1 in Hk.
        destruct (retransmissionCount e0 <? m_maxRetransmissions st).
        + rewrite lookup_insert_eq in Hk. injection Hk as <-. cbn. now apply Hkeyed.
        + now rewrite lookup_delete_eq in Hk.
      - rewrite Hother in Hk by assumption. now apply Hkeyed. }
    destruct (IH st1) as (st' & new & Hloop & Hem & Hsame & Hkeyed' & Hout & Hinl).
    { assumption. }
    { intros k Hk. rewrite Hother; [apply Hin; now apply list_elem_of_further|].
      intros ->. contradiction. }
    { assumption. }
    { destruct Hsame1 as (_&_&_&_&_&->&_). assumption. }
    exists st', (turn_events env st k0 e0 ok ++ new).
    rewrite for_each_cons, Hrun. split; [assumption|].
    split; [now rewrite Hem, Hem1, app_assoc|].
    split; [eapply same_settings_trans; eassumption|].
    split; [assumption|].
    pose proof (Hkeyed k0 e0 He0) as Hseq0.
    split.
    + intros k Hk. apply not_elem_of_cons in Hk as [Hne Hk].
      destruct (Hout k Hk) as [Hl Ho]. split.
      * now rewrite Hl, Hother.
      * rewrite observations_app, Ho, (turn_events_other env st k0 k e0 ok) by congruence.
        reflexivity.
    + intros k e Hk He. rewrite observations_app.
      destruct (decide (k = k0)) as [->|Hne].
      * assert (e = e0) as -> by congruence.
        destruct (Hout k0 Hk0) as [Hl Ho].
        rewrite Hl, Ho, app_nil_r, Hpend1, (turn_events_own env st k0 e0 ok Hseq0).
        destruct (retransmissionCount e0 <? m_maxRetransmissions st).
        -- now rewrite lookup_insert_eq.
        -- now rewrite lookup_delete_eq.
      * apply elem_of_cons in Hk as [?|Hk]; [contradiction|].
        rewrite (turn_events_other env st k0 k e0 ok) by congruence. cbn [app].
        specialize (Hinl k e Hk). rewrite Hother in Hinl by assumption.
        specialize (Hinl He).
        destruct Hsame1 as (Hmax&_). now rewrite Hmax in Hinl.
Qed.

Lemma timedOutPackets_elem_of (env : Env) (st : T) (k : Z) :
  k ∈ timedOutPackets env st <->
  exists e, m_pendingAcks st !! k = Some e /\ sentTime e < cutoffTime env st.
Proof.
  unfold timedOutPackets. rewrite list_elem_of_fmap. split.
  - intros ([k' e] & -> & Hin). apply list_elem_of_filter in Hin as [Hlt Hin].
    apply elem_of_map_to_list in Hin. now exists e.
  - intros (e & He & Hlt). exists (k, e). split; [reflexivity|].
    apply list_elem_of_filter. split; [assumption|]. now apply elem_of_map_to_list.
Qed.

Lemma timedOutPackets_NoDup (env : Env) (st : T) : NoDup (timedOutPackets env st).
Proof.
  unfold timedOutPackets.
  eapply sublist_NoDup; [apply (NoDup_fst_map_to_list (m_pendingAcks st))|].
  apply fmap_sublist, sublist_filter.
Qed.

(** One run of [checkForTimeouts], seen from each key. *)
Lemma checkForTimeouts_run (env : Env) (st : T) :
  m_pendingLock st = false ->
  m_socketLock st = false ->
  keyed st ->
  exists st' new,
    checkForTimeouts env st = Done (tt, st')
    /\ emitted st' = emitted st ++ new
    /\ same_settings st st'
    /\ keyed st'
    /\ forall k,
         match m_pendingAcks st !! k with
         | Some e =>
             if decide (sentTime e < cutoffTime env st) then
               if retransmissionCount e <? m_maxRetransmissions st
               then m_pendingAcks st' !! k = Some (refreshed env e)
                    /\ observations k new = [Transmitted (TelemetryPacket_toJson (packet e))]
               else m_pendingAcks st' !! k = None
                    /\ observations k new = [TimedOut]
             else m_pendingAcks st' !! k = Some e /\ observations k new = []
         | None => m_pendingAcks st' !! k = None /\ observations k new = []
         end.
Proof.
  intros Hp Hs Hkeyed. unfold checkForTimeouts.
  rewrite locked_run by assumption. unfold bind at 1, get at 1.
  change (timedOutPackets env (set_pendingLock true st)) with (timedOutPackets env st).
  destruct (checkTimedOut_loop env (timedOutPackets env st) (set_pendingLock true st))
    as (st1 & new & Hloop & Hem & Hsame & Hkeyed1 & Hout & Hin).
  { apply timedOutPackets_NoDup. }
  { intros k Hk. apply timedOutPackets_elem_of in Hk as (e & He & _). now exists e. }
  { exact Hkeyed. }
  { exact Hs. }
  rewrite Hloop. exists (set_pendingLock false st1), new.
  split; [reflexivity|]. split; [exact Hem|].
  destruct Hsame as (H1 & H2 & H3 & H4 & H5 & H6 & H7).
  cbn in H1, H2, H3, H4, H5, H6, H7.
  split; [unfold same_settings; cbn; now rewrite Hp|].
  split; [exact Hkeyed1|].
  intros k. cbn [m_pendingAcks set_pendingLock].
  destruct (m_pendingAcks st !! k) as [e|] eqn:He.
  - destruct (decide (sentTime e < cutoffTime env st)) as [Hlt|Hge].
    + apply (Hin k e); [|exact He].
      apply timedOutPackets_elem_of. now exists e.
    + destruct (Hout k) as [Hl Ho].
      * intros Hk. apply timedOutPackets_elem_of in Hk as (e' & He' & Hlt).
        cbn in He'. congruence.
      * split; [|exact Ho]. rewrite Hl. exact He.
  - destruct (Hout k) as [Hl Ho].
    + intros Hk. apply timedOutPackets_elem_of in Hk as (e' & He' & _).
      cbn in He'. congruence.
    + split; [|exact Ho]. rewrite Hl. exact He.
Qed.

(** *** Pending packets whose ACKs are lost *)

(** The calls a sender gets: a reading to send, datagrams arriving on its
    socket, or a tick of the timer of the timeout check. *)
Inductive Call : Type :=
| send (env : Env) (pkt : TelemetryPacket)
| arrive (datagrams : list Datagram)
| check (env : Env).

Definition call (c : Call) : Slot T unit :=
  match c with
  | send env pkt => sendTelemetryData env pkt
  | arrive datagrams => processIncomingAcks datagrams
  | check env => checkForTimeouts env
  end.

Definition run (calls : list Call) : Slot T unit := for_each calls call.

(** The timeout checks among the calls. *)
Definition checks_of (calls : list Call) : list Env :=
  omap (fun c => match c with check env => Some env | _ => None end) calls.

(** A datagram that [processIncomingAcks] reads as the ACK of [seq]. *)
Definition acknowledges (seq : Z) (d : Datagram) : Prop :=
  dg_isValid d = true
  /\ exists obj, dg_document d = Some obj
                /\ is_ack_document obj = true
                /\ ack_sequenceNumber (AckPacket_fromJson obj) = seq.

(** The ACKs of [seq] are all lost: none is among the datagrams that
    arrive. *)
Definition acks_lost (seq : Z) (calls : list Call) : Prop :=
  Forall (fun c => match c with
                   | arrive datagrams => Forall (fun d => ~ acknowledges seq d) datagrams
                   | _ => True
                   end) calls.

(** No later send is given the sequence number [seq] again ([next] is the
    sender's next sequence number; it comes back to [seq] only after 2^32
    sends). *)
Fixpoint not_reassigned (seq next : Z) (calls : list Call) : Prop :=
  match calls with
  | [] => True
  | send _ _ :: rest => next <> seq /\ not_reassigned seq (wrap_u32 (next + 1)) rest
  | _ :: rest => not_reassigned seq next rest
  end.

(** A packet last sent at [sent] is overdue at a check when [sent] lies
    before the check's [cutoffTime]. *)
Definition overdue (timeout sent : Z) (env : Env) : Prop :=
  sent < currentDateTime env + wrap_i32 (- timeout).

#[global] Instance overdue_dec (timeout sent : Z) (env : Env) :
  Decision (overdue timeout sent env) := Z_lt_dec _ _.

(** Of the checks [envs], how many find a packet overdue that was sent at
    [sent] and is sent again at each check that finds it overdue; and when
    it was last sent. *)
Fixpoint overdue_checks (timeout sent : Z) (envs : list Env) : nat :=
  match envs with
  | [] => 0
  | env :: rest =>
      if decide (overdue timeout sent env)
      then S (overdue_checks timeout (currentDateTime env) rest)
      else overdue_checks timeout sent rest
  end.

Fixpoint last_sent (timeout sent : Z) (envs : list Env) : Z :=
  match envs with
  | [] => sent
  | env :: rest =>
      if decide (overdue timeout sent env)
      then last_sent timeout (currentDateTime env) rest
      else last_sent timeout sent rest
  end.

(** One datagram of the receive loop of [processIncomingAcks]: it can only
    remove an entry, that of the sequence number it acknowledges. *)
Lemma processAckDatagram_run (datagram : Datagram) (st : T) :
  m_pendingLock st = false ->
  exists st' new,
    processAckDatagram datagram st = Done (tt, st')
    /\ emitted st' = emitted st ++ new
    /\ same_settings st st'
    /\ (forall k e, m_pendingAcks st' !! k = Some e -> m_pendingAcks st !! k = Some e)
    /\ (forall seq, ~ acknowledges seq datagram ->
         m_pendingAcks st' !! seq = m_pendingAcks st !! seq)
    /\ (forall seq, observations seq new = []).
Proof.
  intros Hp.
  assert (Hskip : exists st' new,
             Done (tt, st) = Done (tt, st')
             /\ emitted st' = emitted st ++ new
             /\ same_settings st st'
             /\ (forall k e, m_pendingAcks st' !! k = Some e -> m_pendingAcks st !! k = Some e)
             /\ (forall seq, ~ acknowledges seq datagram ->
                  m_pendingAcks st' !! seq = m_pendingAcks st !! seq)
             /\ (forall seq, observations seq new = [])).
  { exists st, []. rewrite app_nil_r. repeat split; auto using same_settings_refl. }
  unfold processAckDatagram.
  destruct (dg_isValid datagram) eqn:Hv; [|exact Hskip].
  destruct (dg_document datagram) as [obj|] eqn:Hdoc; [|exact Hskip].
  destruct (is_ack_document obj) eqn:Hack; [|exact Hskip].
  clear Hskip. rewrite locked_run by assumption. slot_steps.
  cbn [m_pendingAcks set_pendingLock].
  set (k0 := ack_sequenceNumber (AckPacket_fromJson obj)).
  destruct (bool_decide (is_Some (m_pendingAcks st !! k0))); cbn.
  - eexists. exists [ackReceived k0]. split; [reflexivity|]. cbn.
    split; [reflexivity|].
    split; [unfold same_settings; cbn; rewrite Hp; repeat split; reflexivity|].
    split; [|split].
    + intros k e Hk. apply lookup_delete_Some in Hk. tauto.
    + intros seq Hseq. apply lookup_delete_ne. intros <-. apply Hseq.
      split; [assumption|]. exists obj. repeat split; assumption.
    + reflexivity.
  - eexists. exists []. split; [reflexivity|]. cbn. rewrite app_nil_r.
    split; [reflexivity|].
    split; [unfold same_settings; cbn; rewrite Hp; repeat split; reflexivity|].
    repeat split; auto.
Qed.

Lemma processAckDatagram_loop (datagrams : list Datagram) (st : T) :
  m_pendingLock st = false ->
  exists st' new,
    for_each datagrams processAckDatagram st = Done (tt, st')
    /\ emitted st' = emitted st ++ new
    /\ same_settings st st'
    /\ (forall k e, m_pendingAcks st' !! k = Some e -> m_pendingAcks st !! k = Some e)
    /\ (forall seq, Forall (fun d => ~ acknowledges seq d) datagrams ->
         m_pendingAcks st' !! seq = m_pendingAcks st !! seq)
    /\ (forall seq, observations seq new = []).
Proof.
  revert st. induction datagrams as [|d rest IH]; intros st Hp.
  - exists st, []. rewrite app_nil_r. repeat split; auto using same_settings_refl.
  - destruct (processAckDatagram_run d st Hp)
      as (st1 & new1 & Hrun & Hem1 & Hsame1 & Hsub1 & Hkeep1 & Hobs1).
    assert (Hp1 : m_pendingLock st1 = false).
    { destruct Hsame1 as (_&_&_&_&->&_). assumption. }
    destruct (IH st1 Hp1) as (st' & new & Hloop & Hem & Hsame & Hsub & Hkeep & Hobs).
    exists st', (new1 ++ new). rewrite for_each_cons, Hrun.
    split; [assumption|].
    split; [now rewrite Hem, Hem1, app_assoc|].
    split; [eapply same_settings_trans; eassumption|].
    split; [auto|]. split.
    + intros seq Hall. apply Forall_cons in Hall as [Hd Hall].
      rewrite Hkeep by assumption. now apply Hkeep1.
    + intros seq. now rewrite observations_app, Hobs1, Hobs.
Qed.

Lemma processIncomingAcks_run (datagrams : list Datagram) (st : T) :
  m_pendingLock st = false ->
  m_socketLock st = false ->
  exists st' new,
    processIncomingAcks datagrams st = Done (tt, st')
    /\ emitted st' = emitted st ++ new
    /\ same_settings st st'
    /\ (forall k e, m_pendingAcks st' !! k = Some e -> m_pendingAcks st !! k = Some e)
    /\ (forall seq, Forall (fun d => ~ acknowledges seq d) datagrams ->
         m_pendingAcks st' !! seq = m_pendingAcks st !! seq)
    /\ (forall seq, observations seq new = []).
Proof.
  intros Hp Hs. unfold processIncomingAcks. unfold bind at 1.
  rewrite locked_run by assumption.
  destruct (processAckDatagram_loop datagrams (set_socketLock true st) Hp)
    as (st1 & new & Hloop & Hem & Hsame & Hsub & Hkeep & Hobs).
  rewrite Hloop. slot_steps. cbn.
  eexists. exists (new ++ [statisticsUpdated]). split; [reflexivity|]. cbn.
  split; [cbn in Hem; now rewrite Hem, app_assoc|].
  destruct Hsame as (H1 & H2 & H3 & H4 & H5 & H6 & H7).
  cbn in H1, H2, H3, H4, H5, H6, H7.
  split; [unfold same_settings; cbn; now rewrite Hs|].
  split; [exact Hsub|]. split; [exact Hkeep|].
  intros seq. now rewrite observations_app, Hobs.
Qed.

(** What one call does to the entry of [seq], when it is not the ACK of
    [seq] arriving nor a send that is given [seq]. *)
Lemma call_run (c : Call) (st : T) (seq : Z) :
  m_pendingLock st = false ->
  m_socketLock st = false ->
  keyed st ->
  acks_lost seq [c] ->
  not_reassigned seq (m_nextSequenceNumber st) [c] ->
  exists st' new,
    call c st = Done (tt, st')
    /\ emitted st' = emitted st ++ new
    /\ m_pendingLock st' = false
    /\ m_socketLock st' = false
    /\ keyed st'
    /\ m_maxRetransmissions st' = m_maxRetransmissions st
    /\ m_ackTimeoutMs st' = m_ackTimeoutMs st
    /\ (forall rest, not_reassigned seq (m_nextSequenceNumber st) (c :: rest) ->
         not_reassigned seq (m_nextSequenceNumber st') rest)
    /\ match c, m_pendingAcks st !! seq with
       | check env, Some e =>
           if decide (overdue (m_ackTimeoutMs st) (sentTime e) env) then
             if retransmissionCount e <? m_maxRetransmissions st
             then m_pendingAcks st' !! seq = Some (refreshed env e)
                  /\ observations seq new = [Transmitted (TelemetryPacket_toJson (packet e))]
             else m_pendingAcks st' !! seq = None
                  /\ observations seq new = [TimedOut]
           else m_pendingAcks st' !! seq = Some e /\ observations seq new = []
       | _, entry => m_pendingAcks st' !! seq = entry /\ observations seq new = []
       end.
Proof.
  intros Hp Hs Hkeyed Hlost Hfresh.
  destruct c as [env pkt|datagrams|env]; cbn [call].
  - destruct Hfresh as [Hne _].
    destruct (sendTelemetryData_run env pkt st Hp Hs)
      as (st' & Hrun & Hnext & _ & Hpend & Hem & Hp' & Hs' & _ & Hmax & Htime & _).
    destruct (sendTelemetryData_keyed env pkt st Hp Hs Hkeyed) as (st'' & Hrun' & Hkeyed').
    unfold exec in Hrun'. rewrite Hrun in Hrun'. injection Hrun' as <-.
    eexists. eexists. split; [exact Hrun|]. split; [exact Hem|].
    repeat (split; [assumption|]).
    split; [intros rest [_ Hrest]; now rewrite Hnext|].
    split.
    + rewrite Hpend. destruct (_ && _); [now rewrite lookup_insert_ne | reflexivity].
    + unfold observations. cbn. rewrite payload_seq_toJson. cbn.
      rewrite decide_False by congruence. now destruct (socket_accepts env _).
  - apply Forall_cons in Hlost as [Hlost _].
    destruct (processIncomingAcks_run datagrams st Hp Hs)
      as (st' & new & Hrun & Hem & Hsame & Hsub & Hkeep & Hobs).
    destruct Hsame as (Hmax & Htime & _ & _ & Hp' & Hs' & Hnext).
    exists st', new. split; [exact Hrun|]. split; [exact Hem|].
    split; [congruence|]. split; [congruence|].
    split; [intros k e Hk; now apply Hkeyed, Hsub|].
    split; [assumption|]. split; [assumption|].
    split; [intros rest Hrest; now rewrite Hnext|].
    split; [now apply Hkeep | apply Hobs].
  - destruct (checkForTimeouts_run env st Hp Hs Hkeyed)
      as (st' & new & Hrun & Hem & Hsame & Hkeyed' & Hentry).
    destruct Hsame as (Hmax & Htime & _ & _ & Hp' & Hs' & Hnext).
    exists st', new. split; [exact Hrun|]. split; [exact Hem|].
    split; [congruence|]. split; [congruence|].
    split; [assumption|]. split; [assumption|]. split; [assumption|].
    split; [intros rest Hrest; now rewrite Hnext|].
    specialize (Hentry seq).
    destruct (m_pendingAcks st !! seq) as [e|]; [|exact Hentry].
    destruct (Z_lt_dec (sentTime e) (cutoffTime env st)) as [Hlt|Hge].
    + rewrite (decide_True (P := sentTime e < cutoffTime env st)) in Hentry by assumption.
      rewrite (decide_True (P := overdue (m_ackTimeoutMs st) (sentTime e) env)) by exact Hlt.
      exact Hentry.
    + rewrite (decide_False (P := sentTime e < cutoffTime env st)) in Hentry by assumption.
      rewrite (decide_False (P := overdue (m_ackTimeoutMs st) (sentTime e) env)) by exact Hge.
      exact Hentry.
Qed.

Lemma not_reassigned_head (seq next : Z) (c : Call) (rest : list Call) :
  not_reassigned seq next (c :: rest) -> not_reassigned seq next [c].
Proof. destruct c; cbn; tauto. Qed.

(** Once its entry is gone, nothing more is seen of a sequence number. *)
Lemma run_absent (calls : list Call) (st : T) (seq : Z) :
  m_pendingLock st = false ->
  m_socketLock st = false ->
  keyed st ->
  acks_lost seq calls ->
  not_reassigned seq (m_nextSequenceNumber st) calls ->
  m_pendingAcks st !! seq = None ->
  exists st' new,
    run calls st = Done (tt, st')
    /\ emitted st' = emitted st ++ new
    /\ observations seq new = []
    /\ m_pendingAcks st' !! seq = None.
Proof.
  revert st. induction calls as [|c rest IH]; intros st Hp Hs Hkeyed Hlost Hfresh Hnone.
  - exists st, []. now rewrite app_nil_r.
  - apply Forall_cons in Hlost as [Hlost1 Hlost].
    destruct (call_run c st seq Hp Hs Hkeyed)
      as (st1 & new1 & Hrun & Hem1 & Hp1 & Hs1 & Hkeyed1 & _ & _ & Hnext & Hentry).
    { now apply Forall_cons. }
    { eapply not_reassigned_head, Hfresh. }
    rewrite Hnone in Hentry.
    assert (Hentry' : m_pendingAcks st1 !! seq = None /\ observations seq new1 = [])
      by (destruct c; exact Hentry).
    destruct Hentry' as [Hl1 Ho1].
    destruct (IH st1 Hp1 Hs1 Hkeyed1 Hlost (Hnext rest Hfresh) Hl1)
      as (st' & new & Hrest & Hem & Ho & Hl).
    exists st', (new1 ++ new). unfold run in *. rewrite for_each_cons, Hrun.
    split; [assumption|].
    split; [now rewrite Hem, Hem1, app_assoc|].
    split; [|assumption]. now rewrite observations_app, Ho1, Ho.
Qed.

(** The course of one pending packet through any succession of calls,
    from a retransmission count [c] within the budget. *)
Lemma run_entry (calls : list Call) (st : T) (seq : Z)
    (p : TelemetryPacket) (t c : Z) :
  m_pendingLock st = false ->
  m_socketLock st = false ->
  keyed st ->
  acks_lost seq calls ->
  not_reassigned seq (m_nextSequenceNumber st) calls ->
  0 <= c <= m_maxRetransmissions st ->
  m_maxRetransmissions st <= INT_MAX ->
  m_pendingAcks st !! seq =
    Some {| packet := p; sentTime := t; retransmissionCount := c |} ->
  exists st' new,
    run calls st = Done (tt, st')
    /\ emitted st' = emitted st ++ new
    /\ let h := overdue_checks (m_ackTimeoutMs st) t (checks_of calls) in
       if decide (c + Z.of_nat h <= m_maxRetransmissions st) then
         observations seq new = replicate h (Transmitted (TelemetryPacket_toJson p))
         /\ m_pendingAcks st' !! seq =
              Some {| packet := p;
                      sentTime := last_sent (m_ackTimeoutMs st) t (checks_of calls);
                      retransmissionCount := c + Z.of_nat h |}
       else
         observations seq new =
           replicate (Z.to_nat (m_maxRetransmissions st - c))
                     (Transmitted (TelemetryPacket_toJson p)) ++ [TimedOut]
         /\ m_pendingAcks st' !! seq = None.
Proof.
  revert st t c.
  induction calls as [|c0 rest IH]; intros st t c Hp Hs Hkeyed Hlost Hfresh Hc Hmax He.
  - exists st, []. rewrite app_nil_r. split; [reflexivity|]. split; [reflexivity|].
    cbn. rewrite decide_True by lia. now rewrite Z.add_0_r.
  - apply Forall_cons in Hlost as [Hlost1 Hlost].
    destruct (call_run c0 st seq Hp Hs Hkeyed)
      as (st1 & new1 & Hrun & Hem1 & Hp1 & Hs1 & Hkeyed1 & Hmax1 & Htime1 & Hnext & Hentry).
    { now apply Forall_cons. }
    { eapply not_reassigned_head, Hfresh. }
    specialize (Hnext rest Hfresh).
    rewrite He in Hentry. unfold run in *. rewrite for_each_cons, Hrun.
    assert (Hkeep : m_pendingAcks st1 !! seq =
                      Some {| packet := p; sentTime := t; retransmissionCount := c |}
                    /\ observations seq new1 = [] ->
                    checks_of (c0 :: rest) = checks_of rest \/
                    (exists env, checks_of (c0 :: rest) = env :: checks_of rest
                                 /\ ~ overdue (m_ackTimeoutMs st) t env) ->
      exists st' new,
        for_each rest call st1 = Done (tt, st')
        /\ emitted st' = emitted st ++ new
        /\ let h := overdue_checks (m_ackTimeoutMs st) t (checks_of (c0 :: rest)) in
           if decide (c + Z.of_nat h <= m_maxRetransmissions st) then
             observations seq new = replicate h (Transmitted (TelemetryPacket_toJson p))
             /\ m_pendingAcks st' !! seq =
                  Some {| packet := p;
                          sentTime := last_sent (m_ackTimeoutMs st) t (checks_of (c0 :: rest));
                          retransmissionCount := c + Z.of_nat h |}
           else
             observations seq new =
               replicate (Z.to_nat (m_maxRetransmissions st - c))
                         (Transmitted (TelemetryPacket_toJson p)) ++ [TimedOut]
             /\ m_pendingAcks st' !! seq = None).
    { intros [Hl1 Ho1] Hchecks.
      destruct (IH st1 t c Hp1 Hs1 Hkeyed1 Hlost Hnext)
        as (st' & new & Hrest & Hem & Hres); [lia | lia | exact Hl1 |].
      exists st', (new1 ++ new). split; [assumption|].
      split; [now rewrite Hem, Hem1, app_assoc|].
      cbn zeta in *. rewrite Hmax1, Htime1 in Hres.
      rewrite observations_app, Ho1. cbn [app].
      destruct Hchecks as [->|(env & -> & Hnot)]; [exact Hres|].
      cbn [overdue_checks last_sent].
      rewrite !(decide_False (P := overdue (m_ackTimeoutMs st) t env)) by assumption.
      exact Hres. }
    destruct c0 as [env pkt|datagrams|env].
    + apply Hkeep; [exact Hentry | now left].
    + apply Hkeep; [exact Hentry | now left].
    + cbn [sentTime retransmissionCount packet] in Hentry.
      destruct (decide (overdue (m_ackTimeoutMs st) t env)) as [Hdue|Hnot].
      * clear Hkeep. cbn [checks_of omap list_omap overdue_checks last_sent].
        rewrite !(decide_True (P := overdue (m_ackTimeoutMs st) t env)) by assumption.
        destruct (Z.ltb_spec c (m_maxRetransmissions st)) as [Hlt'|Hge'].
        -- destruct Hentry as [Hl1 Ho1].
           unfold refreshed in Hl1. cbn in Hl1.
           rewrite wrap_i32_id in Hl1
             by (unfold is_i32, INT_MIN, INT_MAX in *; lia).
           destruct (IH st1 (currentDateTime env) (c + 1) Hp1 Hs1 Hkeyed1 Hlost Hnext)
             as (st' & new & Hrest & Hem & Hres); [lia | lia | exact Hl1 |].
           exists st', (new1 ++ new). split; [assumption|].
           split; [now rewrite Hem, Hem1, app_assoc|].
           cbn zeta in *. rewrite Hmax1, Htime1 in Hres.
           rewrite observations_app, Ho1.
           fold (checks_of rest).
           set (h := overdue_checks (m_ackTimeoutMs st) (currentDateTime env)
                       (checks_of rest)) in *.
           destruct (decide (c + 1 + Z.of_nat h <= m_maxRetransmissions st)) as [Hin|Hout].
           ++ rewrite decide_True by lia. destruct Hres as [Ho Hl]. split.
              ** now rewrite Ho.
              ** rewrite Hl. do 2 f_equal. lia.
           ++ rewrite decide_False by lia. destruct Hres as [Ho Hl]. split; [|assumption].
              rewrite Ho.
              replace (Z.to_nat (m_maxRetransmissions st - c))
                with (S (Z.to_nat (m_maxRetransmissions st - (c + 1)))) by lia.
              reflexivity.
        -- destruct Hentry as [Hl1 Ho1].
           destruct (run_absent rest st1 seq Hp1 Hs1 Hkeyed1 Hlost Hnext Hl1)
             as (st' & new & Hrest & Hem & Ho & Hl).
           exists st', (new1 ++ new). unfold run in Hrest. split; [assumption|].
           split; [now rewrite Hem, Hem1, app_assoc|].
           cbn zeta. rewrite decide_False by lia.
           rewrite observations_app, Ho1, Ho.
           replace (m_maxRetransmissions st - c) with 0 by lia. now split.
      * apply Hkeep; [exact Hentry|]. right. exists env. now split.
Qed.

(** C3. A packet is pending with retransmission count 0, and its ACKs are
    all lost: whatever the sender is called to do next (send further
    readings, read arriving datagrams, run the timeout check), no ACK of
    its sequence number arrives. Let [h] be the number of timeout checks
    that find the packet overdue. While [h] is within
    [m_maxRetransmissions], the packet was written to the socket [h]
    times, each time as the same document (so with the same sequence
    number, that of its key), and its entry holds count [h] and the time of
    the last of these checks. Once [h] exceeds the budget, the packet was
    written exactly [m_maxRetransmissions] times, after which
    [packetTimeout] was signalled for it exactly once, and its entry is
    gone. *)
Theorem retransmitted_max_times_then_timed_out (calls : list Call) (st : T) (seq : Z)
    (p : TelemetryPacket) (t0 : Z) :
  m_pendingLock st = false ->
  m_socketLock st = false ->
  keyed st ->
  0 <= m_maxRetransmissions st <= INT_MAX ->
  m_pendingAcks st !! seq =
    Some {| packet := p; sentTime := t0; retransmissionCount := 0 |} ->
  acks_lost seq calls ->
  not_reassigned seq (m_nextSequenceNumber st) calls ->
  exists st' new,
    exec (run calls) st = Done st'
    /\ emitted st' = emitted st ++ new
    /\ payload_seq (TelemetryPacket_toJson p) = Some seq
    /\ let h := overdue_checks (m_ackTimeoutMs st) t0 (checks_of calls) in
       if decide (Z.of_nat h <= m_maxRetransmissions st) then
         observations seq new = replicate h (Transmitted (TelemetryPacket_toJson p))
         /\ m_pendingAcks st' !! seq =
              Some {| packet := p;
                      sentTime := last_sent (m_ackTimeoutMs st) t0 (checks_of calls);
                      retransmissionCount := Z.of_nat h |}
       else
         observations seq new =
           replicate (Z.to_nat (m_maxRetransmissions st))
                     (Transmitted (TelemetryPacket_toJson p)) ++ [TimedOut]
         /\ m_pendingAcks st' !! seq = None.
Proof.
  intros Hp Hs Hkeyed Hmax He Hlost Hfresh.
  destruct (run_entry calls st seq p t0 0 Hp Hs Hkeyed Hlost Hfresh
              ltac:(lia) ltac:(lia) He)
    as (st' & new & Hrun & Hem & Hres).
  exists st', new. unfold exec. rewrite Hrun. split; [reflexivity|].
  split; [assumption|].
  split; [rewrite payload_seq_toJson; f_equal; exact (Hkeyed seq _ He)|].
  cbn zeta in *. rewrite Z.add_0_l, Z.sub_0_r in Hres. exact Hres.
Qed.

(** When every check comes more than the ACK timeout after the one before
    it (and the first that long after the packet was sent), every check
    finds the packet overdue. *)
Fixpoint spaced (timeout sent : Z) (envs : list Env) : Prop :=
  match envs with
  | [] => True
  | env :: rest =>
      overdue timeout sent env /\ spaced timeout (currentDateTime env) rest
  end.

Lemma overdue_checks_spaced (timeout sent : Z) (envs : list Env) :
  spaced timeout sent envs -> overdue_checks timeout sent envs = length envs.
Proof.
  revert sent. induction envs as [|env rest IH]; intros sent; cbn.
  - reflexivity.
  - intros [Hdue Hrest]. rewrite decide_True by assumption. now rewrite IH.
Qed.

(** One packet sent at time 1000 and waiting for its ACK. *)
Definition waiting_entry : PendingPacket :=
  {| packet := stamped accepting_env init reading;
     sentTime := 1000;
     retransmissionCount := 0 |}.

Definition waiting : T :=
  set_pendingAcks (<[1 := waiting_entry]> ∅) (set_nextSequenceNumber 2 init).

Definition check_at (now : Z) (accepts : bool) : Env :=
  {| currentDateTime := now; socket_accepts := fun _ => accepts |}.

(** The ACK of some other sequence number, and a datagram that is no
    document at all. *)
Definition stray_ack : Datagram :=
  {| dg_isValid := true;
     dg_document :=
       Some (AckPacket_toJson {| ack_sequenceNumber := 7; ack_timestamp := 2000 |});
     dg_senderAddress := "192.0.2.9";
     dg_senderPort := 12345 |}.

Definition noise : Datagram :=
  {| dg_isValid := true; dg_document := None;
     dg_senderAddress := "192.0.2.9"; dg_senderPort := 12345 |}.

(** Four checks, four seconds apart, among other calls; the socket refuses
    the second retransmission. *)
Definition busy_session : list Call :=
  [check (check_at 2000 true);
   send (check_at 3000 true) reading;
   check (check_at 5000 true);
   arrive [stray_ack; noise];
   check (check_at 9000 false);
   check (check_at 10000 true);
   check (check_at 13000 true);
   check (check_at 17000 true)].

Lemma retransmitted_three_times_then_timed_out :
  exists st' new,
    exec (run busy_session) waiting = Done st'
    /\ emitted st' = emitted waiting ++ new
    /\ payload_seq (TelemetryPacket_toJson (packet waiting_entry)) = Some 1
    /\ let h := overdue_checks (m_ackTimeoutMs waiting) 1000 (checks_of busy_session) in
       if decide (Z.of_nat h <= m_maxRetransmissions waiting) then
         observations 1 new =
           replicate h (Transmitted (TelemetryPacket_toJson (packet waiting_entry)))
         /\ m_pendingAcks st' !! 1 =
              Some {| packet := packet waiting_entry;
                      sentTime :=
                        last_sent (m_ackTimeoutMs waiting) 1000 (checks_of busy_session);
                      retransmissionCount := Z.of_nat h |}
       else
         observations 1 new =
           replicate (Z.to_nat (m_maxRetransmissions waiting))
                     (Transmitted (TelemetryPacket_toJson (packet waiting_entry)))
           ++ [TimedOut]
         /\ m_pendingAcks st' !! 1 = None.
Proof.
  apply (retransmitted_max_times_then_timed_out busy_session waiting 1
           (packet waiting_entry) 1000).
  - reflexivity.
  - reflexivity.
  - intros k e He. cbn in He. apply lookup_insert_Some in He as [[<- <-]|[_ He]].
    + reflexivity.
    + now rewrite lookup_empty in He.
  - cbn. unfold INT_MAX. lia.
  - reflexivity.
  - repeat constructor.
    + intros (_ & obj & Hdoc & _ & Hseq). cbn in Hdoc. injection Hdoc as <-.
      vm_compute in Hseq. discriminate.
    + intros (_ & obj & Hdoc & _). discriminate.
  - cbn. repeat split. lia.
Defined.

(** The same session, evaluated: three retransmissions of the one
    document, then the timeout; what is left pending is the reading sent
    meanwhile. *)
Lemma busy_session_observed :
  exists st',
    exec (run busy_session) waiting = Done st'
    /\ observations 1 (emitted st') =
         [Transmitted (TelemetryPacket_toJson (packet waiting_entry));
          Transmitted (TelemetryPacket_toJson (packet waiting_entry));
          Transmitted (TelemetryPacket_toJson (packet waiting_entry));
          TimedOut]
    /\ m_pendingAcks st' !! 1 = None
    /\ dom (m_pendingAcks st') = {[2]}.
Proof. eexists. split; [vm_compute; reflexivity|]. repeat split. Qed.

End SenderProps.


(** ** Sender and receiver together *)

Module LinkProps.

(** The datagrams the network hands to the receiver: those the sender's
    socket took, none lost on the way, each document as it comes off the
    wire. *)
Definition delivered (events : list Event) : list Datagram :=
  omap (fun e =>
          match e with
          | writeDatagram payload _ _ true =>
              Some {| dg_isValid := true;
                      dg_document := Some (on_the_wire payload);
                      dg_senderAddress := "192.0.2.1";
                      dg_senderPort := 40000 |}
          | _ => None
          end) events.

(** The sequence numbers the sender wrote, each with whether the socket
    took the datagram. *)
Definition attempts (events : list Event) : list (option Z * bool) :=
  omap (fun e =>
          match e with
          | writeDatagram payload _ _ ok => Some (SenderProps.payload_seq payload, ok)
          | _ => None
          end) events.

(** A sender that asks for no ACKs. *)
Definition fire_and_forget : Sender.T :=
  Sender.set_reliabilityEnabled false Sender.init.

(** Three readings sent; the socket refuses the second. *)
Definition three_sends : Slot Sender.T unit :=
  (Sender.sendTelemetryData SenderProps.accepting_env SenderProps.reading ;;;
   Sender.sendTelemetryData SenderProps.refusing_env SenderProps.reading ;;;
   Sender.sendTelemetryData SenderProps.accepting_env SenderProps.reading)%slot.

(** The receiver takes what arrived, and then its gap check runs. *)
Definition receive_then_check (arrived : list Datagram) : Slot Receiver.R unit :=
  (Receiver.processPendingDatagrams ReceiverProps.quiet_env arrived ;;;
   Receiver.checkForMissingPackets ReceiverProps.quiet_env)%slot.

(** C10. Every call of [sendTelemetryData] takes a sequence number, also
    the call whose datagram the socket refuses: of three sends the second
    fails, the sequence numbers 1 and 3 reach the wire, and the next one is
    4. The specification has the receiver later count the missing number 2
    as a lost packet. It does not: having received 1 and 3 it expects 4,
    above the last valid number 3, the gap check finds nothing to scan and
    [m_packetsLost] stays 0. *)
Theorem refused_send_gap_not_counted_lost :
  exists st' r',
    exec three_sends fire_and_forget = Done st'
    /\ Sender.m_nextSequenceNumber st' = 4
    /\ attempts (Sender.emitted st') = [(Some 1, true); (Some 2, false); (Some 3, true)]
    /\ exec (receive_then_check (delivered (Sender.emitted st'))) Receiver.init = Done r'
    /\ Receiver.m_packetsReceived r' = 2
    /\ Receiver.m_lastValidSequenceNumber r' = 3
    /\ Receiver.m_expectedSequenceNumber r' = 4
    /\ Receiver.m_packetsLost r' = 0.
Proof.
  eexists. eexists. split; [vm_compute; reflexivity|].
  split; [reflexivity|]. split; [reflexivity|].
  split; [vm_compute; reflexivity|]. repeat split.
Qed.

End LinkProps.

(** ** The codec *)

Module CodecProps.

Ltac json_lookup :=
  unfold jget, jcontains, TelemetryPacket_toJson, AckPacket_toJson;
  rewrite ?lookup_insert_ne by discriminate;
  rewrite ?lookup_insert_eq, ?lookup_empty.

Lemma toInt_in_range (n : Z) : is_i32 n -> toInt (JInteger n) = n.
Proof.
  unfold is_i32. intros [H1 H2]. cbn.
  destruct (Z.leb_spec INT_MIN n); [|lia].
  destruct (Z.leb_spec n INT_MAX); [reflexivity | lia].
Qed.

Lemma toInt_out_of_range (n : Z) : INT_MAX < n -> toInt (JInteger n) = 0.
Proof.
  intros H. cbn. destruct (Z.leb_spec n INT_MAX); [lia|]. now rewrite andb_false_r.
Qed.

Lemma fromJson_toJson_fields (p : TelemetryPacket) :
  TelemetryPacket_fromJson (TelemetryPacket_toJson p) =
    {| sequenceNumber := wrap_u32 (toInt (JInteger (sequenceNumber p)));
       timestamp := timestamp p;
       latitude := latitude p; longitude := longitude p; speed := speed p;
       status := status p; needsAck := needsAck p |}.
Proof. unfold TelemetryPacket_fromJson. json_lookup. reflexivity. Qed.

(** X1. A telemetry packet whose sequence number an [int] holds comes back
    from [fromJson] as it went into [toJson]. *)
Theorem telemetry_codec_round_trip (p : TelemetryPacket) :
  0 <= sequenceNumber p <= INT_MAX ->
  TelemetryPacket_fromJson (TelemetryPacket_toJson p) = p.
Proof.
  intros H. rewrite fromJson_toJson_fields.
  rewrite toInt_in_range by (unfold is_i32, INT_MIN, INT_MAX in *; lia).
  rewrite wrap_u32_id by (unfold is_u32, UINT32_MOD, INT_MAX in *; lia).
  now destruct p.
Qed.

Definition cruising (seq : Z) : TelemetryPacket :=
  {| sequenceNumber := seq; timestamp := 1700000000000;
     latitude := 39.5%float; longitude := 35.25%float; speed := 25%float;
     status := "OK"; needsAck := true |}.

Lemma telemetry_codec_round_trip_cruising :
  TelemetryPacket_fromJson (TelemetryPacket_toJson (cruising 7)) = cruising 7.
Proof. apply (telemetry_codec_round_trip (cruising 7)). cbn. unfold INT_MAX. lia. Defined.

(** X2. A sequence number from 2^31 up is written by [toJson] as it is, and
    read back by [fromJson] as 0: [toInt()] gives 0 for a number an [int]
    does not hold. The other fields come back unchanged. *)
Theorem telemetry_codec_large_sequence_reads_zero (p : TelemetryPacket) :
  INT_MAX < sequenceNumber p ->
  TelemetryPacket_fromJson (TelemetryPacket_toJson p) =
    {| sequenceNumber := 0;
       timestamp := timestamp p;
       latitude := latitude p; longitude := longitude p; speed := speed p;
       status := status p; needsAck := needsAck p |}.
Proof.
  intros H. rewrite fromJson_toJson_fields.
  now rewrite toInt_out_of_range by assumption.
Qed.

Lemma telemetry_codec_large_sequence_reads_zero_at_2_31 :
  TelemetryPacket_fromJson (TelemetryPacket_toJson (cruising 2147483648)) = cruising 0.
Proof.
  apply (telemetry_codec_large_sequence_reads_zero (cruising 2147483648)).
  cbn. unfold INT_MAX. lia.
Defined.

(** X3. The discriminator: what [AckPacket::toJson] writes is read as an ACK
    document, what [TelemetryPacket::toJson] writes is not; and an ACK
    whose sequence number an [int] holds comes back from
    [AckPacket::fromJson] as it was written. *)
Theorem ack_documents_told_apart (a : AckPacket) (p : TelemetryPacket) :
  is_ack_document (AckPacket_toJson a) = true
  /\ is_ack_document (TelemetryPacket_toJson p) = false
  /\ (0 <= ack_sequenceNumber a <= INT_MAX ->
      AckPacket_fromJson (AckPacket_toJson a) = a).
Proof.
  split; [|split].
  - unfold is_ack_document. json_lookup. reflexivity.
  - unfold is_ack_document. json_lookup. reflexivity.
  - intros H. unfold AckPacket_fromJson. json_lookup.
    cbn [default from_option id toLongLong].
    rewrite toInt_in_range by (unfold is_i32, INT_MIN, INT_MAX in *; lia).
    rewrite wrap_u32_id by (unfold is_u32, UINT32_MOD, INT_MAX in *; lia).
    now destruct a.
Qed.

Lemma ack_documents_told_apart_example :
  is_ack_document (AckPacket_toJson {| ack_sequenceNumber := 7; ack_timestamp := 5 |}) = true
  /\ is_ack_document (TelemetryPacket_toJson (cruising 7)) = false
  /\ AckPacket_fromJson (AckPacket_toJson {| ack_sequenceNumber := 7; ack_timestamp := 5 |})
     = {| ack_sequenceNumber := 7; ack_timestamp := 5 |}.
Proof.
  destruct (ack_documents_told_apart {| ack_sequenceNumber := 7; ack_timestamp := 5 |}
              (cruising 7)) as (H1 & H2 & H3).
  split; [exact H1|]. split; [exact H2|]. apply H3. vm_compute. split; congruence.
Defined.

End CodecProps.

(** ** More of the receiver *)

Module ReceiverMore.
Import Receiver ReceiverProps.

Lemma wrap_i32_add (x n : Z) : wrap_i32 (wrap_i32 x + n) = wrap_i32 (x + n).
Proof.
  unfold wrap_i32, UINT32_MOD.
  replace ((x + 2 ^ 31) mod 2 ^ 32 - 2 ^ 31 + n + 2 ^ 31)
    with ((x + 2 ^ 31) mod 2 ^ 32 + n) by lia.
  rewrite Zplus_mod_idemp_l. f_equal. f_equal. lia.
Qed.

(** *** The receive loop *)

(** The telemetry packet the receive loop reads from a datagram, when it
    reads one. *)
Definition decoded (d : Datagram) : option TelemetryPacket :=
  if dg_isValid d then
    match dg_document d with
    | Some obj => if is_ack_document obj then None else Some (TelemetryPacket_fromJson obj)
    | None => None
    end
  else None.

Lemma processDatagram_decoded (env : Env) (d : Datagram) (r : R) :
  match decoded d with
  | Some p => needsAck p = false -> processDatagram env d r = processReceivedPacket p r
  | None => processDatagram env d r = Done (tt, r)
  end.
Proof.
  unfold decoded, processDatagram.
  destruct (dg_isValid d); [|reflexivity].
  destruct (dg_document d) as [obj|]; [|reflexivity].
  destruct (is_ack_document obj); [reflexivity|].
  intros ->. unfold bind, ret. reflexivity.
Qed.

Lemma processDatagram_loop (env : Env) (ds : list Datagram) (r : R) :
  m_dataLock r = false ->
  is_i32 (m_packetsReceived r) ->
  Forall (fun p => needsAck p = false) (omap decoded ds) ->
  exists r',
    for_each ds (processDatagram env) r = Done (tt, r')
    /\ emitted r' =
         emitted r ++
         flat_map (fun p => [telemetryDataReceived p; statisticsUpdated]) (omap decoded ds)
    /\ m_packetsReceived r' =
         wrap_i32 (m_packetsReceived r + Z.of_nat (length (omap decoded ds)))
    /\ m_dataLock r' = false
    /\ m_socketLock r' = m_socketLock r
    /\ m_receivedPackets r' = m_receivedPackets r.
Proof.
  revert r. induction ds as [|d ds IH]; intros r Hlock Hint Hall.
  - exists r. cbn. rewrite app_nil_r, Z.add_0_r, wrap_i32_id by assumption.
    repeat split; try reflexivity; assumption.
  - rewrite for_each_cons. pose proof (processDatagram_decoded env d r) as Hd.
    cbn [omap list_omap] in Hall |- *.
    destruct (decoded d) as [p|].
    + apply Forall_cons in Hall as [Hp Hall]. rewrite (Hd Hp).
      destruct (processReceivedPacket_run p r Hlock)
        as (r1 & Hrun & Hbuf & Hcnt & _ & _ & _ & Hem & Hlock1 & Hsock & _).
      rewrite Hrun.
      destruct (IH r1 Hlock1) as (r' & Hloop & Hem' & Hcnt' & Hl' & Hs' & Hb');
        [rewrite Hcnt; apply wrap_i32_range | assumption |].
      exists r'. split; [assumption|]. split; [|split; [|split; [|split]]].
      * rewrite Hem', Hem. cbn [flat_map]. rewrite <- app_assoc. reflexivity.
      * rewrite Hcnt', Hcnt, wrap_i32_add. cbn [length]. f_equal. lia.
      * assumption.
      * congruence.
      * congruence.
    + rewrite Hd. now apply IH.
Qed.

(** X4. Datagrams that ask for no ACK are taken in the order they arrive,
    whatever their sequence numbers: the loop returns, has emitted each
    decoded packet followed by [statisticsUpdated], in arrival order, and
    counted each once; datagrams that are invalid, do not parse or hold an
    ACK document leave no trace. *)
Theorem processPendingDatagrams_in_arrival_order (env : Env) (ds : list Datagram) (r : R) :
  m_socketLock r = false ->
  m_dataLock r = false ->
  is_i32 (m_packetsReceived r) ->
  Forall (fun p => needsAck p = false) (omap decoded ds) ->
  exists r',
    exec (processPendingDatagrams env ds) r = Done r'
    /\ emitted r' =
         emitted r ++
         flat_map (fun p => [telemetryDataReceived p; statisticsUpdated]) (omap decoded ds)
    /\ m_packetsReceived r' =
         wrap_i32 (m_packetsReceived r + Z.of_nat (length (omap decoded ds)))
    /\ m_socketLock r' = false
    /\ m_dataLock r' = false.
Proof.
  intros Hs Hd Hint Hall. unfold exec, processPendingDatagrams.
  rewrite locked_run by assumption.
  destruct (processDatagram_loop env ds (set_socketLock true r) Hd Hint Hall)
    as (r' & Hloop & Hem & Hcnt & Hl & _ & _).
  rewrite Hloop. eexists. split; [reflexivity|]. cbn.
  repeat split; assumption.
Qed.

(** Three datagrams out of order, with noise and an ACK among them. *)
Definition plain (seq : Z) : Datagram :=
  {| dg_isValid := true;
     dg_document := Some (TelemetryPacket_toJson (sample seq 1));
     dg_senderAddress := "192.0.2.1";
     dg_senderPort := 40000 |}.

Definition mixed_arrivals : list Datagram :=
  [plain 3; garbage_datagram; plain 1;
   {| dg_isValid := true;
      dg_document := Some (AckPacket_toJson {| ack_sequenceNumber := 9; ack_timestamp := 0 |});
      dg_senderAddress := "192.0.2.1"; dg_senderPort := 40000 |};
   plain 2].

Lemma processPendingDatagrams_in_arrival_order_mixed :
  exists r',
    exec (processPendingDatagrams quiet_env mixed_arrivals) init = Done r'
    /\ emitted r' =
         emitted init ++
         flat_map (fun p => [telemetryDataReceived p; statisticsUpdated])
                  (omap decoded mixed_arrivals)
    /\ m_packetsReceived r' =
         wrap_i32 (m_packetsReceived init + Z.of_nat (length (omap decoded mixed_arrivals)))
    /\ m_socketLock r' = false
    /\ m_dataLock r' = false.
Proof.
  apply (processPendingDatagrams_in_arrival_order quiet_env mixed_arrivals init).
  - reflexivity.
  - reflexivity.
  - vm_compute. split; congruence.
  - vm_compute. repeat constructor.
Defined.

(** *** Duplicates and late packets *)

(** X5. A packet delivered a second time (a retransmission whose ACK was
    lost) is counted and emitted to the consumer again; the watermarks and
    the last valid packet stay as its first delivery left them. *)
Theorem duplicate_packet_processed_again (packet : TelemetryPacket) (r : R) :
  m_dataLock r = false ->
  is_u32 (sequenceNumber packet) ->
  sequenceNumber packet < UINT32_MOD - 1 ->
  exists r1 r2,
    exec (processReceivedPacket packet) r = Done r1
    /\ exec (processReceivedPacket packet) r1 = Done r2
    /\ m_lastValidSequenceNumber r2 = m_lastValidSequenceNumber r1
    /\ m_lastValidPacket r2 = m_lastValidPacket r1
    /\ m_expectedSequenceNumber r2 = m_expectedSequenceNumber r1
    /\ emitted r2 = emitted r1 ++ [telemetryDataReceived packet; statisticsUpdated]
    /\ m_packetsReceived r2 = wrap_i32 (m_packetsReceived r1 + 1).
Proof.
  intros Hlock Hu Hlt.
  destruct (processReceivedPacket_run packet r Hlock)
    as (r1 & Hrun1 & _ & _ & Hlast1 & Hpkt1 & Hexp1 & _ & Hlock1 & _).
  destruct (processReceivedPacket_run packet r1 Hlock1)
    as (r2 & Hrun2 & _ & Hcnt2 & Hlast2 & Hpkt2 & Hexp2 & Hem2 & _).
  exists r1, r2. unfold exec. rewrite Hrun1, Hrun2.
  split; [reflexivity|]. split; [reflexivity|].
  rewrite Hlast2, Hpkt2, Hexp2.
  assert (Hex : ~ m_expectedSequenceNumber r1 <= sequenceNumber packet).
  { rewrite Hexp1.
    destruct (Z.leb_spec (m_expectedSequenceNumber r) (sequenceNumber packet));
      rewrite ?wrap_u32_succ by assumption; lia. }
  destruct (Z.leb_spec (m_expectedSequenceNumber r1) (sequenceNumber packet)); [lia|].
  destruct (Z.leb_spec (m_lastValidSequenceNumber r1) (sequenceNumber packet)) as [Hle|Hgt].
  - assert (m_lastValidSequenceNumber r1 = sequenceNumber packet /\ m_lastValidPacket r1 = packet)
      as [E1 E2].
    { rewrite Hlast1, Hpkt1 in *.
      destruct (Z.leb_spec (m_lastValidSequenceNumber r) (sequenceNumber packet));
        [now split | lia]. }
    rewrite E1, E2. repeat split; assumption.
  - repeat split; assumption.
Qed.

Lemma duplicate_packet_processed_again_first :
  exists r1 r2,
    exec (processReceivedPacket first_packet) init = Done r1
    /\ exec (processReceivedPacket first_packet) r1 = Done r2
    /\ m_lastValidSequenceNumber r2 = m_lastValidSequenceNumber r1
    /\ m_lastValidPacket r2 = m_lastValidPacket r1
    /\ m_expectedSequenceNumber r2 = m_expectedSequenceNumber r1
    /\ emitted r2 = emitted r1 ++ [telemetryDataReceived first_packet; statisticsUpdated]
    /\ m_packetsReceived r2 = wrap_i32 (m_packetsReceived r1 + 1).
Proof.
  apply (duplicate_packet_processed_again first_packet init).
  - reflexivity.
  - vm_compute. split; congruence.
  - vm_compute. reflexivity.
Defined.

(** A packet that arrives late, its sequence number below both
    watermarks, is emitted and counted like any other, and moves neither
    watermark nor the last valid packet. *)
Theorem late_packet_moves_no_watermark (packet : TelemetryPacket) (r : R) :
  m_dataLock r = false ->
  sequenceNumber packet < m_lastValidSequenceNumber r ->
  sequenceNumber packet < m_expectedSequenceNumber r ->
  exists r',
    exec (processReceivedPacket packet) r = Done r'
    /\ m_lastValidSequenceNumber r' = m_lastValidSequenceNumber r
    /\ m_lastValidPacket r' = m_lastValidPacket r
    /\ m_expectedSequenceNumber r' = m_expectedSequenceNumber r
    /\ emitted r' = emitted r ++ [telemetryDataReceived packet; statisticsUpdated]
    /\ m_packetsReceived r' = wrap_i32 (m_packetsReceived r + 1).
Proof.
  intros Hlock H1 H2.
  destruct (processReceivedPacket_run packet r Hlock)
    as (r' & Hrun & _ & Hcnt & Hlast & Hpkt & Hexp & Hem & _).
  exists r'. unfold exec. rewrite Hrun. split; [reflexivity|].
  rewrite Hlast, Hpkt, Hexp.
  destruct (Z.leb_spec (m_lastValidSequenceNumber r) (sequenceNumber packet)); [lia|].
  destruct (Z.leb_spec (m_expectedSequenceNumber r) (sequenceNumber packet)); [lia|].
  repeat split; assumption.
Qed.

Definition after_ten : R :=
  set_lastValidPacket (sample 10 5)
    (set_lastValidSequenceNumber 10 (set_expectedSequenceNumber 11 init)).

Lemma late_packet_moves_no_watermark_at_4 :
  exists r',
    exec (processReceivedPacket (sample 4 2)) after_ten = Done r'
    /\ m_lastValidSequenceNumber r' = m_lastValidSequenceNumber after_ten
    /\ m_lastValidPacket r' = m_lastValidPacket after_ten
    /\ m_expectedSequenceNumber r' = m_expectedSequenceNumber after_ten
    /\ emitted r' = emitted after_ten ++ [telemetryDataReceived (sample 4 2); statisticsUpdated]
    /\ m_packetsReceived r' = wrap_i32 (m_packetsReceived after_ten + 1).
Proof.
  apply (late_packet_moves_no_watermark (sample 4 2) after_ten).
  - reflexivity.
  - cbn. lia.
  - cbn. lia.
Defined.

(** *** The gap check *)

(** The packet the gap check emits for a missing sequence number: the
    interpolated one, or with interpolation off the last valid packet
    under the missing number and the current time. *)
Definition lastValid_copy (env : Env) (r : R) (seq : Z) : TelemetryPacket :=
  {| sequenceNumber := seq;
     timestamp := currentDateTime env;
     latitude := latitude (m_lastValidPacket r);
     longitude := longitude (m_lastValidPacket r);
     speed := speed (m_lastValidPacket r);
     status := status (m_lastValidPacket r);
     needsAck := needsAck (m_lastValidPacket r) |}.

Definition fill (env : Env) (r : R) (seq : Z) : TelemetryPacket :=
  if m_interpolationEnabled r then interpolatePacket env r seq
  else lastValid_copy env r seq.

(** The sequence numbers of a list that the buffer does not hold. *)
Definition missing_of (buf : gmap Z TelemetryPacket) (seqs : list Z) : list Z :=
  filter (fun seq => buf !! seq = None) seqs.

(** The sequence numbers a gap check finds missing. *)
Definition missing (r : R) : list Z :=
  missing_of (m_receivedPackets r)
    (seqZ (m_expectedSequenceNumber r)
          (m_lastValidSequenceNumber r - m_expectedSequenceNumber r)).

(** What the loop leaves alone. *)
Definition same_but_progress (r r' : R) : Prop :=
  m_receivedPackets r' = m_receivedPackets r
  /\ m_lastValidPacket r' = m_lastValidPacket r
  /\ m_lastValidSequenceNumber r' = m_lastValidSequenceNumber r
  /\ m_interpolationEnabled r' = m_interpolationEnabled r
  /\ m_maxBufferSize r' = m_maxBufferSize r
  /\ m_packetsReceived r' = m_packetsReceived r
  /\ m_acksSent r' = m_acksSent r
  /\ m_dataLock r' = m_dataLock r
  /\ m_socketLock r' = m_socketLock r.

Lemma fill_ext (env : Env) (r r' : R) (seq : Z) :
  same_but_progress r r' -> fill env r' seq = fill env r seq.
Proof.
  intros (Hb & Hp & _ & Hi & _). unfold fill, lastValid_copy, interpolatePacket.
  now rewrite Hb, Hp, Hi.
Qed.

Lemma checkSequence_run (env : Env) (seq : Z) (r : R) :
  0 <= seq < UINT32_MOD - 1 ->
  exists r',
    checkSequence env seq r = Done (tt, r')
    /\ same_but_progress r r'
    /\ if decide (m_receivedPackets r !! seq = None) then
         emitted r' = emitted r ++ [telemetryDataReceived (fill env r seq)]
         /\ m_packetsLost r' = wrap_i32 (m_packetsLost r + 1)
         /\ m_packetsInterpolated r' =
              (if m_interpolationEnabled r
               then wrap_i32 (m_packetsInterpolated r + 1)
               else m_packetsInterpolated r)
         /\ m_expectedSequenceNumber r' = seq + 1
       else r' = r.
Proof.
  intros Hseq. unfold checkSequence. unfold bind at 1, get at 1.
  destruct (decide (m_receivedPackets r !! seq = None)) as [Hlook|Hlook].
  - rewrite bool_decide_false by (rewrite Hlook; intros [? ?]; discriminate).
    assert (E : wrap_u32 (seq + 1) = seq + 1)
      by (apply wrap_u32_id; unfold is_u32, UINT32_MOD in *; lia).
    unfold fill, lastValid_copy.
    destruct (m_interpolationEnabled r) eqn:Hint; slot_steps; cbn; rewrite E;
      eexists; (split; [reflexivity|]); unfold same_but_progress; cbn;
      rewrite ?Hint; repeat split; reflexivity.
  - exists r. rewrite bool_decide_true
      by (destruct (m_receivedPackets r !! seq); [eauto | congruence]).
    repeat split; reflexivity.
Qed.

Lemma same_but_progress_trans (a b c : R) :
  same_but_progress a b -> same_but_progress b c -> same_but_progress a c.
Proof.
  unfold same_but_progress.
  intros (?&?&?&?&?&?&?&?&?) (?&?&?&?&?&?&?&?&?). repeat split; congruence.
Qed.

Lemma checkSequence_loop (env : Env) (seqs : list Z) (r : R) :
  Forall (fun seq => 0 <= seq < UINT32_MOD - 1) seqs ->
  is_i32 (m_packetsLost r) ->
  is_i32 (m_packetsInterpolated r) ->
  exists r',
    for_each seqs (checkSequence env) r = Done (tt, r')
    /\ same_but_progress r r'
    /\ emitted r' =
         emitted r ++
         map (fun seq => telemetryDataReceived (fill env r seq))
             (missing_of (m_receivedPackets r) seqs)
    /\ m_packetsLost r' =
         wrap_i32 (m_packetsLost r
                   + Z.of_nat (length (missing_of (m_receivedPackets r) seqs)))
    /\ m_packetsInterpolated r' =
         (if m_interpolationEnabled r
          then wrap_i32 (m_packetsInterpolated r
                         + Z.of_nat (length (missing_of (m_receivedPackets r) seqs)))
          else m_packetsInterpolated r)
    /\ m_expectedSequenceNumber r' =
         from_option (fun seq => seq + 1) (m_expectedSequenceNumber r)
                     (last (missing_of (m_receivedPackets r) seqs)).
Proof.
  revert r. induction seqs as [|seq seqs IH]; intros r Hall Hl Hi.
  - exists r. cbn. rewrite app_nil_r, !Z.add_0_r, !wrap_i32_id by assumption.
    repeat split; try reflexivity. now destruct (m_interpolationEnabled r).
  - apply Forall_cons in Hall as [Hseq Hall]. rewrite for_each_cons.
    destruct (checkSequence_run env seq r Hseq) as (r1 & Hrun & Hsame1 & Hstep).
    rewrite Hrun. unfold missing_of in *.
    destruct (decide (m_receivedPackets r !! seq = None)) as [Hmiss|Hpres].
    + destruct Hstep as (Hem1 & Hlost1 & Hint1 & Hexp1).
      destruct (IH r1 Hall) as (r' & Hloop & Hsame & Hem & Hlost & Hint & Hexp).
      { rewrite Hlost1. apply wrap_i32_range. }
      { rewrite Hint1. destruct (m_interpolationEnabled r);
          [apply wrap_i32_range | assumption]. }
      pose proof Hsame1 as (Hb1 & _ & _ & Hi1 & _).
      rewrite Hb1, Hi1 in *.
      exists r'. split; [assumption|].
      split; [eapply same_but_progress_trans; eassumption|].
      rewrite filter_cons_True by assumption. cbn [map length].
      split; [|split; [|split]].
      * rewrite Hem, Hem1, <- app_assoc. cbn [app]. f_equal. f_equal.
        apply map_ext. intros s. f_equal. now apply fill_ext.
      * rewrite Hlost, Hlost1, wrap_i32_add. f_equal. lia.
      * rewrite Hint, Hint1. destruct (m_interpolationEnabled r); [|reflexivity].
        rewrite wrap_i32_add. f_equal. lia.
      * rewrite Hexp, Hexp1, last_cons.
        now destruct (last (filter _ seqs)).
    + subst r1. rewrite filter_cons_False by assumption. now apply IH.
Qed.

Lemma checkForMissingPackets_run (env : Env) (r : R) :
  m_dataLock r = false ->
  0 <= m_expectedSequenceNumber r ->
  m_lastValidSequenceNumber r < UINT32_MOD ->
  is_i32 (m_packetsLost r) ->
  is_i32 (m_packetsInterpolated r) ->
  exists r',
    exec (checkForMissingPackets env) r = Done r'
    /\ emitted r' =
         emitted r
         ++ map (fun seq => telemetryDataReceived (fill env r seq)) (missing r)
         ++ [statisticsUpdated]
    /\ m_packetsLost r' = wrap_i32 (m_packetsLost r + Z.of_nat (length (missing r)))
    /\ m_packetsInterpolated r' =
         (if m_interpolationEnabled r
          then wrap_i32 (m_packetsInterpolated r + Z.of_nat (length (missing r)))
          else m_packetsInterpolated r)
    /\ m_expectedSequenceNumber r' =
         from_option (fun seq => seq + 1) (m_expectedSequenceNumber r) (last (missing r))
    /\ m_receivedPackets r' = m_receivedPackets r
    /\ m_lastValidPacket r' = m_lastValidPacket r
    /\ m_lastValidSequenceNumber r' = m_lastValidSequenceNumber r
    /\ m_dataLock r' = false.
Proof.
  intros Hlock He Hl Hi1 Hi2. unfold exec, checkForMissingPackets.
  rewrite locked_run by assumption. unfold bind at 1, get at 1. unfold bind at 1.
  cbn [m_expectedSequenceNumber m_lastValidSequenceNumber set_dataLock].
  destruct (checkSequence_loop env
              (seqZ (m_expectedSequenceNumber r)
                    (m_lastValidSequenceNumber r - m_expectedSequenceNumber r))
              (set_dataLock true r))
    as (r1 & Hloop & Hsame & Hem & Hlost & Hint & Hexp).
  { apply Forall_forall. intros s Hs. apply elem_of_seqZ in Hs. lia. }
  { assumption. }
  { assumption. }
  rewrite Hloop. slot_steps. cbn.
  destruct Hsame as (Hb & Hp & Hlv & _).
  eexists. split; [reflexivity|]. cbn.
  cbn in Hem, Hlost, Hint, Hexp, Hb, Hp, Hlv. unfold missing.
  split; [|repeat split; assumption].
  rewrite Hem, <- app_assoc. reflexivity.
Qed.

(** X6. One run of the gap check, whatever the buffer holds: for each
    sequence number from the expected one up to, and without, the last
    valid one that the buffer does not hold, in increasing order and once
    each, it emits the fill packet and counts a loss (and an interpolation,
    when that is enabled); it leaves the expected sequence number one past
    the last number it filled, and signals [statisticsUpdated] once at the
    end. Buffer, last valid packet and last valid number are untouched. *)
Theorem checkForMissingPackets_fills_each_gap_once (env : Env) (r : R) :
  m_dataLock r = false ->
  0 <= m_expectedSequenceNumber r ->
  m_lastValidSequenceNumber r < UINT32_MOD ->
  is_i32 (m_packetsLost r) ->
  is_i32 (m_packetsInterpolated r) ->
  exists r',
    exec (checkForMissingPackets env) r = Done r'
    /\ emitted r' =
         emitted r
         ++ map (fun seq => telemetryDataReceived (fill env r seq)) (missing r)
         ++ [statisticsUpdated]
    /\ m_packetsLost r' = wrap_i32 (m_packetsLost r + Z.of_nat (length (missing r)))
    /\ m_packetsInterpolated r' =
         (if m_interpolationEnabled r
          then wrap_i32 (m_packetsInterpolated r + Z.of_nat (length (missing r)))
          else m_packetsInterpolated r)
    /\ m_expectedSequenceNumber r' =
         from_option (fun seq => seq + 1) (m_expectedSequenceNumber r) (last (missing r))
    /\ m_receivedPackets r' = m_receivedPackets r
    /\ m_lastValidPacket r' = m_lastValidPacket r
    /\ m_lastValidSequenceNumber r' = m_lastValidSequenceNumber r
    /\ m_dataLock r' = false.
Proof. apply checkForMissingPackets_run. Qed.

(** A buffer that holds 12 and 14, with 10 to 15 to be checked. *)
Definition gappy : R :=
  set_receivedPackets (<[12 := sample 12 2]> (<[14 := sample 14 4]> ∅))
    (set_lastValidPacket (sample 16 6)
       (set_lastValidSequenceNumber 16
          (set_expectedSequenceNumber 10 init))).

Lemma checkForMissingPackets_fills_each_gap_once_gappy :
  exists r',
    exec (checkForMissingPackets quiet_env) gappy = Done r'
    /\ emitted r' =
         emitted gappy
         ++ map (fun seq => telemetryDataReceived (fill quiet_env gappy seq)) (missing gappy)
         ++ [statisticsUpdated]
    /\ m_packetsLost r' = wrap_i32 (m_packetsLost gappy + Z.of_nat (length (missing gappy)))
    /\ m_packetsInterpolated r' =
         (if m_interpolationEnabled gappy
          then wrap_i32 (m_packetsInterpolated gappy + Z.of_nat (length (missing gappy)))
          else m_packetsInterpolated gappy)
    /\ m_expectedSequenceNumber r' =
         from_option (fun seq => seq + 1) (m_expectedSequenceNumber gappy)
                     (last (missing gappy))
    /\ m_receivedPackets r' = m_receivedPackets gappy
    /\ m_lastValidPacket r' = m_lastValidPacket gappy
    /\ m_lastValidSequenceNumber r' = m_lastValidSequenceNumber gappy
    /\ m_dataLock r' = false.
Proof.
  apply (checkForMissingPackets_fills_each_gap_once quiet_env gappy).
  - reflexivity.
  - cbn. lia.
  - cbn. unfold UINT32_MOD. lia.
  - vm_compute. split; congruence.
  - vm_compute. split; congruence.
Defined.

(** Where the last missing number of a range stands: nothing after it is
    missing; and with none missing, the whole range is buffered. *)
Lemma last_missing_of (buf : gmap Z TelemetryPacket) (a : Z) (n : nat) :
  match last (missing_of buf (seqZ a (Z.of_nat n))) with
  | Some m => a <= m < a + Z.of_nat n
              /\ forall s, m < s < a + Z.of_nat n -> buf !! s <> None
  | None => forall s, a <= s < a + Z.of_nat n -> buf !! s <> None
  end.
Proof.
  unfold missing_of. induction n as [|n IH].
  - cbn. intros s Hs. lia.
  - rewrite seqZ_S, filter_app.
    destruct (decide (buf !! (a + Z.of_nat n) = None)) as [Hmiss|Hpres].
    + rewrite filter_cons_True by exact Hmiss. rewrite filter_nil, last_snoc.
      split; [lia|]. intros s Hs. lia.
    + rewrite filter_cons_False by exact Hpres. rewrite filter_nil, app_nil_r.
      destruct (last (filter _ (seqZ a (Z.of_nat n)))) as [m|].
      * destruct IH as [Hm IH]. split; [lia|]. intros s Hs.
        destruct (decide (s = a + Z.of_nat n)) as [->|]; [assumption|].
        apply IH. lia.
      * intros s Hs. destruct (decide (s = a + Z.of_nat n)) as [->|]; [assumption|].
        apply IH. lia.
Qed.

Lemma missing_of_nil (buf : gmap Z TelemetryPacket) (seqs : list Z) :
  (forall s, s ∈ seqs -> buf !! s <> None) -> missing_of buf seqs = [].
Proof.
  unfold missing_of. induction seqs as [|s seqs IH]; intros H; [reflexivity|].
  rewrite filter_cons_False by (apply H; left).
  apply IH. intros s' Hs'. apply H. now right.
Qed.

(** X7. A gap check that follows another finds nothing missing: it emits no
    packet and counts no loss; it only signals [statisticsUpdated]. Each
    missing sequence number is so reported by one check only. *)
Theorem checkForMissingPackets_reports_gap_once (env env' : Env) (r : R) :
  m_dataLock r = false ->
  0 <= m_expectedSequenceNumber r ->
  m_lastValidSequenceNumber r < UINT32_MOD ->
  is_i32 (m_packetsLost r) ->
  is_i32 (m_packetsInterpolated r) ->
  exists r1 r2,
    exec (checkForMissingPackets env) r = Done r1
    /\ exec (checkForMissingPackets env') r1 = Done r2
    /\ emitted r2 = emitted r1 ++ [statisticsUpdated]
    /\ m_packetsLost r2 = m_packetsLost r1
    /\ m_packetsInterpolated r2 = m_packetsInterpolated r1
    /\ m_expectedSequenceNumber r2 = m_expectedSequenceNumber r1.
Proof.
  intros Hlock He Hl Hi1 Hi2.
  destruct (checkForMissingPackets_run env r Hlock He Hl Hi1 Hi2)
    as (r1 & Hrun1 & _ & Hlost1 & Hint1 & Hexp1 & Hb1 & _ & Hlv1 & Hlock1).
  pose proof (last_missing_of (m_receivedPackets r) (m_expectedSequenceNumber r)
                (Z.to_nat (m_lastValidSequenceNumber r - m_expectedSequenceNumber r)))
    as Hlast.
  assert (Hrange : seqZ (m_expectedSequenceNumber r)
                     (Z.of_nat (Z.to_nat (m_lastValidSequenceNumber r
                                          - m_expectedSequenceNumber r)))
                   = seqZ (m_expectedSequenceNumber r)
                       (m_lastValidSequenceNumber r - m_expectedSequenceNumber r)).
  { destruct (Z_le_dec 0 (m_lastValidSequenceNumber r - m_expectedSequenceNumber r)).
    - now rewrite Z2Nat.id.
    - rewrite Z2Nat.nonpos by lia. now rewrite !seqZ_nil by lia. }
  rewrite Hrange in Hlast. fold (missing r) in Hlast.
  assert (Hnone : missing r1 = []).
  { unfold missing. apply missing_of_nil. intros s Hs. apply elem_of_seqZ in Hs.
    rewrite Hb1. rewrite Hlv1, Hexp1 in Hs.
    destruct (last (missing r)) as [m|]; cbn in Hs.
    - destruct Hlast as [Hm Hafter]. apply Hafter. lia.
    - apply Hlast. lia. }
  assert (He1 : 0 <= m_expectedSequenceNumber r1).
  { rewrite Hexp1. destruct (last (missing r)) as [m|]; cbn; [|assumption].
    destruct Hlast as [Hm _]. lia. }
  assert (Hil : is_i32 (m_packetsLost r1)) by (rewrite Hlost1; apply wrap_i32_range).
  assert (Hii : is_i32 (m_packetsInterpolated r1)).
  { rewrite Hint1. destruct (m_interpolationEnabled r);
      [apply wrap_i32_range | assumption]. }
  destruct (checkForMissingPackets_run env' r1 Hlock1 He1 ltac:(lia) Hil Hii)
    as (r2 & Hrun2 & Hem2 & Hlost2 & Hint2 & Hexp2 & _).
  rewrite Hnone in Hem2, Hlost2, Hint2, Hexp2. cbn in Hem2, Hlost2, Hint2, Hexp2.
  rewrite Z.add_0_r, wrap_i32_id in Hlost2 by assumption.
  exists r1, r2. repeat split; try assumption.
  rewrite Hint2. destruct (m_interpolationEnabled r1); [|reflexivity].
  now rewrite Z.add_0_r, wrap_i32_id.
Qed.

Lemma checkForMissingPackets_reports_gap_once_gappy :
  exists r1 r2,
    exec (checkForMissingPackets quiet_env) gappy = Done r1
    /\ exec (checkForMissingPackets quiet_env) r1 = Done r2
    /\ emitted r2 = emitted r1 ++ [statisticsUpdated]
    /\ m_packetsLost r2 = m_packetsLost r1
    /\ m_packetsInterpolated r2 = m_packetsInterpolated r1
    /\ m_expectedSequenceNumber r2 = m_expectedSequenceNumber r1.
Proof.
  apply (checkForMissingPackets_reports_gap_once quiet_env quiet_env gappy).
  - reflexivity.
  - cbn. lia.
  - cbn. unfold UINT32_MOD. lia.
  - vm_compute. split; congruence.
  - vm_compute. split; congruence.
Defined.

(** *** The buffer *)

Lemma checkSequence_keeps_buffer (env : Env) (seqs : list Z) (r : R) :
  exists r',
    for_each seqs (checkSequence env) r = Done (tt, r')
    /\ m_receivedPackets r' = m_receivedPackets r
    /\ m_maxBufferSize r' = m_maxBufferSize r
    /\ m_dataLock r' = m_dataLock r.
Proof.
  revert r. induction seqs as [|seq seqs IH]; intros r.
  - exists r. now repeat split.
  - rewrite for_each_cons.
    assert (Hstep : exists r1, checkSequence env seq r = Done (tt, r1)
                               /\ m_receivedPackets r1 = m_receivedPackets r
                               /\ m_maxBufferSize r1 = m_maxBufferSize r
                               /\ m_dataLock r1 = m_dataLock r).
    { unfold checkSequence. unfold bind at 1, get at 1.
      destruct (bool_decide _); [exists r; now repeat split|].
      destruct (m_interpolationEnabled r); slot_steps; cbn;
        eexists; (split; [reflexivity|]); now repeat split. }
    destruct Hstep as (r1 & Hrun & Hb & Hm & Hl). rewrite Hrun.
    destruct (IH r1) as (r' & Hrest & Hb' & Hm' & Hl').
    exists r'. repeat split; congruence.
Qed.

Lemma checkForMissingPackets_keeps_buffer (env : Env) (r : R) :
  m_dataLock r = false ->
  exists r',
    checkForMissingPackets env r = Done (tt, r')
    /\ m_receivedPackets r' = m_receivedPackets r
    /\ m_maxBufferSize r' = m_maxBufferSize r
    /\ m_dataLock r' = false.
Proof.
  intros Hlock. unfold checkForMissingPackets. rewrite locked_run by assumption.
  unfold bind at 1, get at 1. unfold bind at 1.
  destruct (checkSequence_keeps_buffer env
              (seqZ (m_expectedSequenceNumber (set_dataLock true r))
                    (m_lastValidSequenceNumber (set_dataLock true r)
                     - m_expectedSequenceNumber (set_dataLock true r)))
              (set_dataLock true r))
    as (r1 & Hloop & Hb & Hm & _).
  rewrite Hloop. slot_steps. cbn.
  eexists. split; [reflexivity|]. cbn. repeat split; assumption.
Qed.

(** What [cleanupOldPackets] leaves, for a bound that is not negative. *)
Lemma cleanupOldPackets_run (r : R) :
  m_dataLock r = false ->
  0 <= m_maxBufferSize r ->
  Z.of_nat (size (m_receivedPackets r)) <= INT_MAX ->
  cleanupOldPackets r =
    Done (tt,
          if m_maxBufferSize r <? Z.of_nat (size (m_receivedPackets r))
          then set_receivedPackets
                 (remove_all
                    (take (size (m_receivedPackets r) - Z.to_nat (m_maxBufferSize r))
                          (sorted_keys (m_receivedPackets r)))
                    (m_receivedPackets r)) r
          else r).
Proof.
  intros Hlock Hmax Hsize.
  unfold cleanupOldPackets. rewrite locked_run by assumption.
  slot_steps. cbn [m_receivedPackets m_maxBufferSize set_dataLock].
  set (buf := m_receivedPackets r) in *.
  destruct (Z.ltb_spec (m_maxBufferSize r) (Z.of_nat (size buf))) as [Hgt|Hle].
  - set (t := (size buf - Z.to_nat (m_maxBufferSize r))%nat).
    assert (Ht : wrap_i32 (Z.of_nat (size buf) - m_maxBufferSize r) = Z.of_nat t).
    { rewrite wrap_i32_id by (unfold is_i32, INT_MIN, INT_MAX in *; lia).
      unfold t. lia. }
    rewrite Ht. change 0 with (Z.of_nat 0).
    rewrite removeAt_loop by (rewrite sorted_keys_length; cbn; unfold t; lia).
    rewrite drop_0. cbn [m_receivedPackets set_dataLock set_receivedPackets].
    fold buf. f_equal. f_equal. destruct r; cbn in *. now subst.
  - f_equal. f_equal. now apply set_dataLock_restore.
Qed.

(** The calls that reach the buffer: a decoded packet, a tick of the gap
    check, a tick of the cleanup. *)
Inductive Served : Type :=
| packet_in (packet : TelemetryPacket)
| gap_tick (env : Env)
| cleanup_tick.

Definition serve (c : Served) : Slot R unit :=
  match c with
  | packet_in packet => processReceivedPacket packet
  | gap_tick env => checkForMissingPackets env
  | cleanup_tick => cleanupOldPackets
  end.

(** X8. No slot of the receiver writes into [m_receivedPackets]: from a
    receiver whose buffer fits its bound (the constructed one: empty
    buffer, bound 1000), every sequence of received packets, gap checks
    and cleanups runs to its end and leaves the buffer exactly as it was.
    A freshly constructed receiver therefore never buffers a packet. *)
Theorem buffer_never_written (calls : list Served) (r : R) :
  m_dataLock r = false ->
  Z.of_nat (size (m_receivedPackets r)) <= m_maxBufferSize r ->
  exists r',
    exec (for_each calls serve) r = Done r'
    /\ m_receivedPackets r' = m_receivedPackets r.
Proof.
  revert r. induction calls as [|c calls IH]; intros r Hlock Hfit.
  - exists r. now split.
  - assert (Hstep : exists r1, serve c r = Done (tt, r1)
                               /\ m_receivedPackets r1 = m_receivedPackets r
                               /\ m_maxBufferSize r1 = m_maxBufferSize r
                               /\ m_dataLock r1 = false).
    { destruct c as [packet|env|]; cbn [serve].
      - destruct (processReceivedPacket_run packet r Hlock)
          as (r1 & Hrun & Hb & _ & _ & _ & _ & _ & Hl & _ & _ & _ & _ & _ & Hm).
        exists r1. now repeat split.
      - apply checkForMissingPackets_keeps_buffer; assumption.
      - exists r. unfold cleanupOldPackets. rewrite locked_run by assumption.
        slot_steps. cbn [m_receivedPackets m_maxBufferSize set_dataLock].
        destruct (Z.ltb_spec (m_maxBufferSize r) (Z.of_nat (size (m_receivedPackets r))));
          [lia|].
        rewrite set_dataLock_restore by assumption. now repeat split. }
    destruct Hstep as (r1 & Hrun & Hb & Hm & Hl).
    destruct (IH r1 Hl ltac:(rewrite Hb, Hm; assumption)) as (r' & Hrest & Hb').
    exists r'. unfold exec in *. rewrite for_each_cons, Hrun.
    split; [assumption | congruence].
Qed.

Lemma buffer_never_written_from_init :
  exists r',
    exec (for_each [packet_in (sample 1 2); packet_in (sample 5 3);
                    gap_tick quiet_env; cleanup_tick; packet_in (sample 3 1)]
                   serve) init = Done r'
    /\ m_receivedPackets r' = m_receivedPackets init.
Proof.
  apply (buffer_never_written _ init).
  - reflexivity.
  - vm_compute. congruence.
Defined.

(** X9. A negative bound (set by [setMaxBufferSize]) makes every cleanup index
    [keys] past its end: the loop first removes every buffered packet, then
    reads [keys[size]]. *)
Theorem cleanupOldPackets_negative_bound_faults (r : R) :
  m_dataLock r = false ->
  m_maxBufferSize r < 0 ->
  Z.of_nat (size (m_receivedPackets r)) - m_maxBufferSize r <= INT_MAX ->
  exec cleanupOldPackets r = Fault.
Proof.
  intros Hlock Hneg Hsize.
  unfold exec, cleanupOldPackets. rewrite locked_run by assumption.
  slot_steps. cbn [m_receivedPackets m_maxBufferSize set_dataLock].
  set (buf := m_receivedPackets r) in *.
  destruct (Z.ltb_spec (m_maxBufferSize r) (Z.of_nat (size buf))) as [_|Hle]; [|lia].
  rewrite wrap_i32_id by (unfold is_i32, INT_MIN, INT_MAX in *; lia).
  replace (Z.of_nat (size buf) - m_maxBufferSize r)
    with (Z.of_nat (size buf) + (- m_maxBufferSize r)) by lia.
  rewrite seqZ_app by lia. rewrite for_each_app.
  change 0 with (Z.of_nat 0) at 1.
  rewrite removeAt_loop by (rewrite sorted_keys_length; lia).
  rewrite seqZ_cons by lia. rewrite for_each_cons.
  rewrite removeAt_out_of_range by (rewrite sorted_keys_length; lia).
  reflexivity.
Qed.

Lemma cleanupOldPackets_negative_bound_faults_gappy :
  exec cleanupOldPackets (set_maxBufferSize (-5) gappy) = Fault.
Proof.
  apply cleanupOldPackets_negative_bound_faults.
  - reflexivity.
  - cbn. lia.
  - vm_compute. congruence.
Defined.

(** X10. A cleanup touches the buffer and nothing else: it emits no signal and
    leaves counters, sequence numbers, last valid packet and settings as
    they were; and a cleanup that follows another changes nothing at
    all. *)
Theorem cleanupOldPackets_only_buffer_then_idle (r : R) :
  m_dataLock r = false ->
  0 <= m_maxBufferSize r ->
  Z.of_nat (size (m_receivedPackets r)) <= INT_MAX ->
  exists r',
    exec cleanupOldPackets r = Done r'
    /\ set_receivedPackets (m_receivedPackets r) r' = r
    /\ Z.of_nat (size (m_receivedPackets r')) <= m_maxBufferSize r
    /\ exec cleanupOldPackets r' = Done r'.
Proof.
  intros Hlock Hmax Hsize. unfold exec.
  rewrite cleanupOldPackets_run by assumption.
  set (buf := m_receivedPackets r) in *.
  destruct (Z.ltb_spec (m_maxBufferSize r) (Z.of_nat (size buf))) as [Hgt|Hle].
  - set (t := (size buf - Z.to_nat (m_maxBufferSize r))%nat).
    assert (Hnew : Z.of_nat (size (remove_all (take t (sorted_keys buf)) buf))
                   = m_maxBufferSize r).
    { rewrite remove_all_size.
      - rewrite length_take, sorted_keys_length. unfold t. lia.
      - eapply sublist_NoDup; [apply sorted_keys_NoDup | apply sublist_take].
      - intros k Hk. apply sorted_keys_elem_of. now apply (subseteq_take t). }
    eexists. split; [reflexivity|]. cbn [fst snd].
    split; [|split].
    + unfold buf. now destruct r.
    + cbn. lia.
    + rewrite cleanupOldPackets_run; cbn; try assumption; try lia.
      destruct (Z.ltb_spec (m_maxBufferSize r)
                  (Z.of_nat (size (remove_all (take t (sorted_keys buf)) buf))));
        [lia | reflexivity].
  - exists r. split; [reflexivity|]. split; [|split].
    + apply set_receivedPackets_id.
    + assumption.
    + rewrite cleanupOldPackets_run by assumption. fold buf.
      destruct (Z.ltb_spec (m_maxBufferSize r) (Z.of_nat (size buf))); [lia | reflexivity].
Qed.

Lemma cleanupOldPackets_only_buffer_then_idle_gappy :
  exists r',
    exec cleanupOldPackets (set_maxBufferSize 1 gappy) = Done r'
    /\ set_receivedPackets (m_receivedPackets (set_maxBufferSize 1 gappy)) r'
       = set_maxBufferSize 1 gappy
    /\ Z.of_nat (size (m_receivedPackets r')) <= m_maxBufferSize (set_maxBufferSize 1 gappy)
    /\ exec cleanupOldPackets r' = Done r'.
Proof.
  apply (cleanupOldPackets_only_buffer_then_idle (set_maxBufferSize 1 gappy)).
  - reflexivity.
  - cbn. lia.
  - vm_compute. congruence.
Defined.

(** *** The interpolation policy *)







End ReceiverMore.

(** ** The sender, across calls *)

Module SenderMore.
Import Sender SenderProps.

(** *** Arriving datagrams *)

(** The sequence number a datagram acknowledges, as the receive loop of
    [processIncomingAcks] reads it. *)
Definition acknowledged (d : Datagram) : option Z :=
  if dg_isValid d then
    match dg_document d with
    | Some obj =>
        if is_ack_document obj
        then Some (ack_sequenceNumber (AckPacket_fromJson obj))
        else None
    | None => None
    end
  else None.

(** The sender after one datagram of the receive loop. *)
Definition absorb (st : T) (d : Datagram) : T :=
  match acknowledged d with
  | Some k =>
      if bool_decide (is_Some (m_pendingAcks st !! k))
      then set_emitted (emitted st ++ [ackReceived k])
             (set_acksReceived (wrap_i32 (m_acksReceived st + 1))
                (set_pendingAcks (delete k (m_pendingAcks st)) st))
      else st
  | None => st
  end.

(** The ACK of [seq], as [AckPacket::toJson] writes it. *)
Definition ack_for (seq stamp : Z) (address : string) (port : Z) : Datagram :=
  {| dg_isValid := true;
     dg_document :=
       Some (AckPacket_toJson {| ack_sequenceNumber := seq; ack_timestamp := stamp |});
     dg_senderAddress := address;
     dg_senderPort := port |}.

Lemma set_pendingLock_restore (st : T) :
  m_pendingLock st = false -> set_pendingLock false (set_pendingLock true st) = st.
Proof. destruct st; cbn. now intros ->. Qed.

Lemma set_socketLock_restore (st : T) :
  m_socketLock st = false -> set_socketLock false (set_socketLock true st) = st.
Proof. destruct st; cbn. now intros ->. Qed.

Lemma processAckDatagram_effect (d : Datagram) (st : T) :
  m_pendingLock st = false ->
  processAckDatagram d st = Done (tt, absorb st d).
Proof.
  intros Hp. unfold processAckDatagram, absorb, acknowledged.
  destruct (dg_isValid d); [|reflexivity].
  destruct (dg_document d) as [obj|]; [|reflexivity].
  destruct (is_ack_document obj); [|reflexivity].
  rewrite locked_run by assumption. slot_steps.
  cbn [m_pendingAcks set_pendingLock].
  destruct (bool_decide _); cbn.
  - f_equal. f_equal. destruct st; cbn in *. now subst.
  - now rewrite set_pendingLock_restore.
Qed.

Lemma absorb_pendingLock (st : T) (d : Datagram) :
  m_pendingLock (absorb st d) = m_pendingLock st.
Proof.
  unfold absorb. destruct (acknowledged d); [|reflexivity].
  now destruct (bool_decide _).
Qed.

Lemma absorb_set_socketLock (b : bool) (st : T) (d : Datagram) :
  absorb (set_socketLock b st) d = set_socketLock b (absorb st d).
Proof.
  unfold absorb. destruct (acknowledged d); [|reflexivity].
  cbn [m_pendingAcks set_socketLock]. now destruct (bool_decide _).
Qed.

Lemma processAckDatagram_fold (ds : list Datagram) (st : T) :
  m_pendingLock st = false ->
  for_each ds processAckDatagram st = Done (tt, foldl absorb st ds).
Proof.
  revert st. induction ds as [|d ds IH]; intros st Hp; [reflexivity|].
  rewrite for_each_cons, processAckDatagram_effect by assumption.
  cbn [foldl]. apply IH. now rewrite absorb_pendingLock.
Qed.

Lemma foldl_absorb_set_socketLock (b : bool) (ds : list Datagram) (st : T) :
  foldl absorb (set_socketLock b st) ds = set_socketLock b (foldl absorb st ds).
Proof.
  revert st. induction ds as [|d ds IH]; intros st; [reflexivity|].
  cbn [foldl]. now rewrite absorb_set_socketLock, IH.
Qed.

Lemma foldl_absorb_socketLock (ds : list Datagram) (st : T) :
  m_socketLock (foldl absorb st ds) = m_socketLock st.
Proof.
  revert st. induction ds as [|d ds IH]; intros st; [reflexivity|].
  cbn [foldl]. rewrite IH. unfold absorb. destruct (acknowledged d); [|reflexivity].
  now destruct (bool_decide _).
Qed.

(** A whole call of [processIncomingAcks]: the datagrams one after the
    other, then [statisticsUpdated]. *)
Lemma processIncomingAcks_effect (ds : list Datagram) (st : T) :
  m_pendingLock st = false ->
  m_socketLock st = false ->
  processIncomingAcks ds st =
    Done (tt, set_emitted (emitted (foldl absorb st ds) ++ [statisticsUpdated])
                (foldl absorb st ds)).
Proof.
  intros Hp Hs. unfold processIncomingAcks. unfold bind at 1.
  rewrite locked_run by assumption.
  rewrite processAckDatagram_fold by assumption.
  rewrite foldl_absorb_set_socketLock, set_socketLock_restore
    by (now rewrite foldl_absorb_socketLock).
  reflexivity.
Qed.

Lemma acknowledged_ack_for (seq stamp : Z) (address : string) (port : Z) :
  acknowledged (ack_for seq stamp address port) = Some (wrap_u32 (toInt (JInteger seq))).
Proof. reflexivity. Qed.

(** X11. Datagrams that acknowledge nothing pending leave the sender as it
    was, but for one [statisticsUpdated]: invalid datagrams, datagrams that
    do not parse, telemetry or other documents, and ACKs of sequence
    numbers that are not pending (unknown numbers, or a packet already
    acknowledged or timed out) are all dropped without a trace in pending
    packets or counters. *)
Theorem unmatched_datagrams_only_refresh_statistics (ds : list Datagram) (st : T) :
  m_pendingLock st = false ->
  m_socketLock st = false ->
  Forall (fun d => forall k, acknowledged d = Some k -> m_pendingAcks st !! k = None) ds ->
  exec (processIncomingAcks ds) st =
    Done (set_emitted (emitted st ++ [statisticsUpdated]) st).
Proof.
  intros Hp Hs Hall. unfold exec.
  rewrite processIncomingAcks_effect by assumption.
  assert (Hfold : foldl absorb st ds = st).
  { induction ds as [|d ds IH]; [reflexivity|].
    apply Forall_cons in Hall as [Hd Hall]. cbn [foldl].
    assert (Hone : absorb st d = st).
    { unfold absorb. destruct (acknowledged d) as [k|]; [|reflexivity].
      rewrite (Hd k eq_refl). rewrite bool_decide_false; [reflexivity|].
      intros [? ?]; discriminate. }
    rewrite Hone. now apply IH. }
  now rewrite Hfold.
Qed.

Lemma unmatched_datagrams_only_refresh_statistics_stray :
  exec (processIncomingAcks [stray_ack; noise]) waiting =
    Done (set_emitted (emitted waiting ++ [statisticsUpdated]) waiting).
Proof.
  apply unmatched_datagrams_only_refresh_statistics.
  - reflexivity.
  - reflexivity.
  - constructor; [|constructor; [|constructor]].
    + intros k [= <-]. reflexivity.
    + intros k [=].
Defined.

(** X12. A datagram that arrives twice counts once: the second copy of an ACK
    finds its packet no longer pending, so [m_acksReceived] counts it once
    and [ackReceived] is signalled once. *)
Theorem datagram_delivered_twice_counts_once (d : Datagram) (st : T) :
  m_pendingLock st = false ->
  m_socketLock st = false ->
  exec (processIncomingAcks [d; d]) st = exec (processIncomingAcks [d]) st.
Proof.
  intros Hp Hs. unfold exec.
  rewrite !processIncomingAcks_effect by assumption. cbn [foldl].
  assert (Hagain : absorb (absorb st d) d = absorb st d).
  { unfold absorb. destruct (acknowledged d) as [k|]; [|reflexivity].
    destruct (bool_decide (is_Some (m_pendingAcks st !! k))) eqn:Hk.
    - cbn [m_pendingAcks set_emitted set_acksReceived set_pendingAcks].
      rewrite lookup_delete_eq. rewrite bool_decide_false; [reflexivity|].
      intros [? ?]; discriminate.
    - now rewrite Hk. }
  now rewrite Hagain.
Qed.

Lemma datagram_delivered_twice_counts_once_waiting :
  exec (processIncomingAcks [ack_for 1 2000 "192.0.2.9" 12345;
                             ack_for 1 2000 "192.0.2.9" 12345]) waiting
  = exec (processIncomingAcks [ack_for 1 2000 "192.0.2.9" 12345]) waiting.
Proof.
  apply datagram_delivered_twice_counts_once; reflexivity.
Defined.

(** X13. A send followed by its ACK: the packet the socket took is pending
    under the sequence number it was given; when the ACK of that number
    arrives the entry is removed, [m_acksReceived] goes up by one and
    [ackReceived] is signalled with the number. For sequence numbers an
    [int] holds. *)
Theorem send_then_ack_settles (env : Env) (pkt : TelemetryPacket) (st : T)
    (stamp : Z) (address : string) (port : Z) :
  m_pendingLock st = false ->
  m_socketLock st = false ->
  m_reliabilityEnabled st = true ->
  socket_accepts env (TelemetryPacket_toJson (stamped env st pkt)) = true ->
  0 <= m_nextSequenceNumber st <= INT_MAX ->
  exists st1 st2,
    exec (sendTelemetryData env pkt) st = Done st1
    /\ m_pendingAcks st1 !! m_nextSequenceNumber st =
         Some {| packet := stamped env st pkt;
                 sentTime := currentDateTime env;
                 retransmissionCount := 0 |}
    /\ exec (processIncomingAcks [ack_for (m_nextSequenceNumber st) stamp address port])
            st1 = Done st2
    /\ m_pendingAcks st2 = delete (m_nextSequenceNumber st) (m_pendingAcks st)
    /\ m_acksReceived st2 = wrap_i32 (m_acksReceived st1 + 1)
    /\ emitted st2 =
         emitted st1 ++ [ackReceived (m_nextSequenceNumber st); statisticsUpdated].
Proof.
  intros Hp Hs Hrel Hok Hseq.
  destruct (sendTelemetryData_run env pkt st Hp Hs)
    as (st1 & Hrun & _ & _ & Hpend & _ & Hp1 & Hs1 & _).
  cbv zeta in Hpend. rewrite Hok, Hrel in Hpend. cbn [andb] in Hpend.
  assert (Hk : acknowledged (ack_for (m_nextSequenceNumber st) stamp address port)
               = Some (m_nextSequenceNumber st)).
  { rewrite acknowledged_ack_for.
    rewrite CodecProps.toInt_in_range
      by (unfold is_i32, INT_MIN, INT_MAX in *; lia).
    rewrite wrap_u32_id; [reflexivity|].
    unfold is_u32, UINT32_MOD, INT_MAX in *. lia. }
  exists st1. eexists. unfold exec. rewrite Hrun.
  rewrite processIncomingAcks_effect by assumption.
  cbn [foldl]. unfold absorb. rewrite Hk, Hpend, lookup_insert_eq.
  rewrite bool_decide_true by eauto.
  split; [reflexivity|]. split; [reflexivity|]. split; [reflexivity|].
  cbn. rewrite delete_insert_eq, <- app_assoc. repeat split; reflexivity.
Qed.

Lemma send_then_ack_settles_first :
  exists st1 st2,
    exec (sendTelemetryData accepting_env reading) init = Done st1
    /\ m_pendingAcks st1 !! m_nextSequenceNumber init =
         Some {| packet := stamped accepting_env init reading;
                 sentTime := currentDateTime accepting_env;
                 retransmissionCount := 0 |}
    /\ exec (processIncomingAcks
               [ack_for (m_nextSequenceNumber init) 1500 "192.0.2.9" 12345])
            st1 = Done st2
    /\ m_pendingAcks st2 = delete (m_nextSequenceNumber init) (m_pendingAcks init)
    /\ m_acksReceived st2 = wrap_i32 (m_acksReceived st1 + 1)
    /\ emitted st2 =
         emitted st1 ++ [ackReceived (m_nextSequenceNumber init); statisticsUpdated].
Proof.
  apply (send_then_ack_settles accepting_env reading init).
  - reflexivity.
  - reflexivity.
  - reflexivity.
  - reflexivity.
  - vm_compute. split; congruence.
Defined.

(** X14. The ACK of a sequence number above [INT_MAX] is not read as such:
    [toInt] gives 0 for it, so the ACK acknowledges sequence number 0. With
    nothing pending under 0 the packet it was meant for stays pending
    (and will be retransmitted and timed out), no ACK is counted and
    nothing but [statisticsUpdated] is signalled. *)
Theorem ack_of_large_sequence_number_misread (st : T) (seq stamp : Z)
    (address : string) (port : Z) :
  m_pendingLock st = false ->
  m_socketLock st = false ->
  INT_MAX < seq ->
  m_pendingAcks st !! 0 = None ->
  acknowledged (ack_for seq stamp address port) = Some 0
  /\ exec (processIncomingAcks [ack_for seq stamp address port]) st =
       Done (set_emitted (emitted st ++ [statisticsUpdated]) st).
Proof.
  intros Hp Hs Hseq H0.
  assert (Hk : acknowledged (ack_for seq stamp address port) = Some 0).
  { rewrite acknowledged_ack_for, CodecProps.toInt_out_of_range by assumption.
    reflexivity. }
  split; [assumption|]. unfold exec.
  rewrite processIncomingAcks_effect by assumption.
  cbn [foldl]. unfold absorb. rewrite Hk, H0.
  rewrite bool_decide_false; [reflexivity|]. intros [? ?]; discriminate.
Qed.

(** A sender whose only pending packet has the sequence number 2^31. *)
Definition far_along : T :=
  set_pendingAcks
    (<[2147483648 :=
         {| packet := stamped accepting_env (set_nextSequenceNumber 2147483648 init) reading;
            sentTime := 1000;
            retransmissionCount := 0 |}]> ∅)
    (set_nextSequenceNumber 2147483649 init).

Lemma ack_of_large_sequence_number_misread_at_2_31 :
  acknowledged (ack_for 2147483648 1500 "192.0.2.9" 12345) = Some 0
  /\ exec (processIncomingAcks [ack_for 2147483648 1500 "192.0.2.9" 12345]) far_along =
       Done (set_emitted (emitted far_along ++ [statisticsUpdated]) far_along).
Proof.
  apply ack_of_large_sequence_number_misread.
  - reflexivity.
  - reflexivity.
  - unfold INT_MAX. lia.
  - reflexivity.
Defined.

(** *** The ledger of tracked packets *)

Definition is_timeout (e : Event) : bool :=
  match e with packetTimeout _ => true | _ => false end.

(** How many [packetTimeout] signals were emitted. *)
Definition timeouts (events : list Event) : nat :=
  length (List.filter is_timeout events).

Definition is_send (c : Call) : bool :=
  match c with send _ _ => true | _ => false end.

(** How many of the calls are calls of [sendTelemetryData]. *)
Definition sends (calls : list Call) : nat :=
  length (List.filter is_send calls).

(** Every pending packet was retransmitted at most [m_maxRetransmissions]
    times. *)
Definition within_budget (st : T) : Prop :=
  forall k e, m_pendingAcks st !! k = Some e ->
    0 <= retransmissionCount e <= m_maxRetransmissions st.

(** A reliable sender between two calls: both locks free, every pending
    packet under a sequence number already given out and within its
    budget, and every packet the socket took either acknowledged, timed
    out or still pending. *)
Definition sound (st : T) : Prop :=
  m_pendingLock st = false
  /\ m_socketLock st = false
  /\ m_reliabilityEnabled st = true
  /\ 0 <= m_maxRetransmissions st <= INT_MAX
  /\ 0 <= m_nextSequenceNumber st
  /\ (forall k, is_Some (m_pendingAcks st !! k) -> k < m_nextSequenceNumber st)
  /\ within_budget st
  /\ 0 <= m_acksReceived st
  /\ m_packetsSent st =
       m_acksReceived st + Z.of_nat (size (m_pendingAcks st))
       + Z.of_nat (timeouts (emitted st)).

Lemma timeouts_app (xs ys : list Event) :
  timeouts (xs ++ ys) = (timeouts xs + timeouts ys)%nat.
Proof. unfold timeouts. now rewrite List.filter_app, length_app. Qed.

Lemma size_delete_present (m : gmap Z PendingPacket) (k : Z) :
  is_Some (m !! k) -> Z.of_nat (size (delete k m)) = Z.of_nat (size m) - 1.
Proof.
  intros H. rewrite map_size_delete_Some by assumption.
  pose proof (map_size_ne_0_lookup_2 m k H). lia.
Qed.

Lemma absorb_sound (st : T) (d : Datagram) :
  sound st ->
  m_packetsSent st <= INT_MAX ->
  sound (absorb st d)
  /\ m_nextSequenceNumber (absorb st d) = m_nextSequenceNumber st
  /\ m_packetsSent (absorb st d) = m_packetsSent st
  /\ m_maxRetransmissions (absorb st d) = m_maxRetransmissions st.
Proof.
  intros Hsound Hsent. unfold absorb.
  destruct (acknowledged d) as [k|]; [|split; [assumption | now repeat split]].
  destruct (bool_decide (is_Some (m_pendingAcks st !! k))) eqn:Hk;
    [|split; [assumption | now repeat split]].
  apply bool_decide_eq_true in Hk.
  destruct Hsound as (Hp & Hs & Hrel & Hmax & Hnext & Hkeys & Hbudget & Hacks & Hbal).
  pose proof (size_delete_present _ _ Hk) as Hsize.
  split; [|now repeat split].
  unfold sound, within_budget. cbn -[timeouts wrap_i32 size].
  rewrite timeouts_app. cbn [timeouts List.filter is_timeout length].
  assert (Hwrap : wrap_i32 (m_acksReceived st + 1) = m_acksReceived st + 1).
  { apply wrap_i32_id. unfold is_i32, INT_MIN, INT_MAX in *. lia. }
  rewrite Hwrap.
  split; [assumption|]. split; [assumption|]. split; [assumption|].
  split; [assumption|]. split; [assumption|]. split; [|split; [|split]].
  - intros k' [e He]. apply lookup_delete_Some in He as [_ He]. apply Hkeys. eauto.
  - intros k' e He. apply lookup_delete_Some in He as [_ He]. eapply Hbudget; eassumption.
  - lia.
  - lia.
Qed.

Lemma foldl_absorb_sound (ds : list Datagram) (st : T) :
  sound st ->
  m_packetsSent st <= INT_MAX ->
  sound (foldl absorb st ds)
  /\ m_nextSequenceNumber (foldl absorb st ds) = m_nextSequenceNumber st
  /\ m_packetsSent (foldl absorb st ds) = m_packetsSent st
  /\ m_maxRetransmissions (foldl absorb st ds) = m_maxRetransmissions st.
Proof.
  revert st. induction ds as [|d ds IH]; intros st Hsound Hsent;
    [split; [assumption | now repeat split]|].
  cbn [foldl].
  destruct (absorb_sound st d Hsound Hsent) as (H1 & Hn1 & Hs1 & Hm1).
  destruct (IH (absorb st d) H1 ltac:(lia)) as (H2 & Hn2 & Hs2 & Hm2).
  split; [assumption|]. repeat split; congruence.
Qed.

Lemma processIncomingAcks_sound (ds : list Datagram) (st : T) :
  sound st ->
  m_packetsSent st <= INT_MAX ->
  exists st',
    processIncomingAcks ds st = Done (tt, st')
    /\ sound st'
    /\ m_nextSequenceNumber st' = m_nextSequenceNumber st
    /\ m_packetsSent st' = m_packetsSent st
    /\ m_maxRetransmissions st' = m_maxRetransmissions st.
Proof.
  intros Hsound Hsent.
  pose proof Hsound as (Hp & Hs & _).
  rewrite processIncomingAcks_effect by assumption.
  destruct (foldl_absorb_sound ds st Hsound Hsent) as (H1 & Hn & Hc & Hm).
  eexists. split; [reflexivity|]. split; [|now repeat split].
  destruct H1 as (G1 & G2 & G3 & G4 & G5 & G6 & G7 & G8 & G9).
  unfold sound. cbn -[timeouts wrap_i32 size]. rewrite timeouts_app.
  cbn [timeouts List.filter is_timeout length].
  split; [assumption|]. split; [assumption|]. split; [assumption|].
  split; [assumption|]. split; [assumption|]. split; [assumption|].
  split; [exact G7|]. split; [assumption|]. lia.
Qed.

Lemma sendTelemetryData_counters (env : Env) (pkt : TelemetryPacket) (st : T) :
  m_pendingLock st = false ->
  m_socketLock st = false ->
  exists st',
    sendTelemetryData env pkt st = Done (tt, st')
    /\ m_acksReceived st' = m_acksReceived st
    /\ m_retransmissions st' = m_retransmissions st.
Proof.
  intros Hp Hs. unfold sendTelemetryData.
  rewrite locked_run by assumption. unfold bind at 1, get at 1.
  unfold bind at 1, modify at 1. unfold bind at 1.
  rewrite locked_run by (cbn; assumption).
  slot_steps. cbn.
  destruct (socket_accepts env _); cbn; [destruct (m_reliabilityEnabled st); cbn|];
    eexists; (split; [reflexivity|]); cbn; split; reflexivity.
Qed.

Lemma sendTelemetryData_sound (env : Env) (pkt : TelemetryPacket) (st : T) :
  sound st ->
  m_nextSequenceNumber st < UINT32_MOD - 1 ->
  m_packetsSent st < INT_MAX ->
  exists st',
    sendTelemetryData env pkt st = Done (tt, st')
    /\ sound st'
    /\ m_nextSequenceNumber st' = m_nextSequenceNumber st + 1
    /\ m_packetsSent st <= m_packetsSent st' <= m_packetsSent st + 1
    /\ m_maxRetransmissions st' = m_maxRetransmissions st.
Proof.
  intros (Hp & Hs & Hrel & Hmax & Hnext & Hkeys & Hbudget & Hacks & Hbal) Hn Hsent.
  destruct (sendTelemetryData_run env pkt st Hp Hs)
    as (st' & Hrun & Hnext' & Hsent' & Hpend' & Hem' & Hp' & Hs' & Hrel' & Hmax' & _).
  destruct (sendTelemetryData_counters env pkt st Hp Hs) as (st2 & Hrun2 & Hacks' & _).
  rewrite Hrun in Hrun2. injection Hrun2 as <-.
  cbv zeta in Hsent', Hpend', Hem'.
  rewrite wrap_u32_id in Hnext' by (unfold is_u32, UINT32_MOD in *; lia).
  assert (Hfresh : m_pendingAcks st !! m_nextSequenceNumber st = None).
  { destruct (m_pendingAcks st !! m_nextSequenceNumber st) eqn:E; [|reflexivity].
    specialize (Hkeys (m_nextSequenceNumber st) ltac:(eauto)). lia. }
  exists st'. split; [assumption|].
  rewrite Hrel in Hpend'. rewrite andb_true_r in Hpend'.
  destruct (socket_accepts env _).
  - rewrite wrap_i32_id in Hsent'
      by (unfold is_i32, INT_MIN, INT_MAX in *;
          pose proof (Nat2Z.is_nonneg (size (m_pendingAcks st)));
          pose proof (Nat2Z.is_nonneg (timeouts (emitted st))); lia).
    split; [|repeat split; lia || congruence].
    unfold sound, within_budget.
    rewrite Hp', Hs', Hrel', Hmax', Hnext', Hsent', Hpend', Hem', Hacks'.
    rewrite timeouts_app. cbn [timeouts List.filter is_timeout length].
    rewrite map_size_insert_None by assumption.
    split; [reflexivity|]. split; [reflexivity|]. split; [assumption|].
    split; [assumption|]. split; [lia|]. split; [|split; [|split]].
    + intros k [e He]. apply lookup_insert_Some in He as [[<- _]|[_ He]]; [lia|].
      specialize (Hkeys k ltac:(eauto)). lia.
    + intros k e He. apply lookup_insert_Some in He as [[_ <-]|[_ He]]; [cbn; lia|].
      eapply Hbudget; eassumption.
    + assumption.
    + lia.
  - split; [|repeat split; lia || congruence].
    unfold sound, within_budget.
    rewrite Hp', Hs', Hrel', Hmax', Hnext', Hsent', Hpend', Hem', Hacks'.
    rewrite timeouts_app. cbn [timeouts List.filter is_timeout length].
    split; [reflexivity|]. split; [reflexivity|]. split; [assumption|].
    split; [assumption|]. split; [lia|]. split; [|split; [|split]].
    + intros k Hk. specialize (Hkeys k Hk). lia.
    + exact Hbudget.
    + assumption.
    + lia.
Qed.

(** One turn of the loop of [checkForTimeouts] on a pending key. *)
Lemma checkTimedOut_ledger (env : Env) (k : Z) (st : T) (e : PendingPacket) :
  m_pendingAcks st !! k = Some e ->
  m_socketLock st = false ->
  exists st',
    checkTimedOut env k st = Done (tt, st')
    /\ m_pendingAcks st' =
         (if retransmissionCount e <? m_maxRetransmissions st
          then <[k := refreshed env e]> (m_pendingAcks st)
          else delete k (m_pendingAcks st))
    /\ timeouts (emitted st') =
         (timeouts (emitted st)
          + if (retransmissionCount e <? m_maxRetransmissions st)%Z then 0 else 1)%nat
    /\ m_acksReceived st' = m_acksReceived st
    /\ m_packetsSent st' = m_packetsSent st
    /\ m_reliabilityEnabled st' = m_reliabilityEnabled st
    /\ same_settings st st'.
Proof.
  intros He Hs. unfold checkTimedOut, pendingAt.
  unfold bind at 1. unfold bind at 1, get at 1. rewrite He. unfold ret at 1.
  unfold bind at 1, get at 1.
  destruct (retransmissionCount e <? m_maxRetransmissions st).
  - unfold retransmitPacket. unfold bind at 1, get at 1. rewrite He.
    unfold bind at 1, modify at 1. rewrite locked_run by (cbn; assumption).
    slot_steps. cbn -[timeouts]. fold (refreshed env e).
    destruct (socket_accepts env (TelemetryPacket_toJson (packet e))); cbn -[timeouts];
      eexists; (split; [reflexivity|]); cbn -[timeouts];
      rewrite <- ?app_assoc, timeouts_app; cbn;
      unfold same_settings; cbn; rewrite ?Hs; repeat split; try reflexivity; lia.
  - slot_steps. cbn -[timeouts]. eexists. split; [reflexivity|]. cbn -[timeouts].
    rewrite timeouts_app. cbn.
    unfold same_settings; cbn. repeat split; reflexivity.
Qed.

Lemma checkTimedOut_ledger_loop (env : Env) (ks : list Z) (st : T) :
  NoDup ks ->
  (forall k, k ∈ ks -> is_Some (m_pendingAcks st !! k)) ->
  m_socketLock st = false ->
  within_budget st ->
  m_maxRetransmissions st <= INT_MAX ->
  exists st',
    for_each ks (checkTimedOut env) st = Done (tt, st')
    /\ Z.of_nat (size (m_pendingAcks st')) + Z.of_nat (timeouts (emitted st'))
       = Z.of_nat (size (m_pendingAcks st)) + Z.of_nat (timeouts (emitted st))
    /\ (forall k, is_Some (m_pendingAcks st' !! k) -> is_Some (m_pendingAcks st !! k))
    /\ within_budget st'
    /\ m_acksReceived st' = m_acksReceived st
    /\ m_packetsSent st' = m_packetsSent st
    /\ m_reliabilityEnabled st' = m_reliabilityEnabled st
    /\ same_settings st st'.
Proof.
  revert st. induction ks as [|k ks IH]; intros st Hnd Hin Hs Hbudget Hmax.
  - exists st. split; [reflexivity|]. split; [reflexivity|]. split; [auto|].
    split; [assumption|]. split; [reflexivity|]. split; [reflexivity|].
    split; [reflexivity|]. apply same_settings_refl.
  - apply NoDup_cons in Hnd as [Hk Hnd].
    destruct (Hin k ltac:(left)) as [e He].
    destruct (checkTimedOut_ledger env k st e He Hs)
      as (st1 & Hrun & Hpend1 & Htime1 & Hacks1 & Hsent1 & Hrel1 & Hsame1).
    pose proof Hsame1 as (Hmax1 & _ & _ & _ & _ & Hs1 & _).
    pose proof (Hbudget k e He) as Hc.
    assert (Hin1 : forall k', k' ∈ ks -> is_Some (m_pendingAcks st1 !! k')).
    { intros k' Hk'. assert (k <> k') by (intros ->; contradiction).
      rewrite Hpend1. destruct (_ <? _).
      - rewrite lookup_insert_ne by assumption. apply Hin. now right.
      - rewrite lookup_delete_ne by assumption. apply Hin. now right. }
    assert (Hbudget1 : within_budget st1).
    { intros k' e' He'. rewrite Hmax1. rewrite Hpend1 in He'.
      destruct (Z.ltb_spec (retransmissionCount e) (m_maxRetransmissions st)).
      - apply lookup_insert_Some in He' as [[_ <-]|[_ He']].
        + cbn. rewrite wrap_i32_id by (unfold is_i32, INT_MIN, INT_MAX in *; lia). lia.
        + eapply Hbudget; eassumption.
      - apply lookup_delete_Some in He' as [_ He']. eapply Hbudget; eassumption. }
    destruct (IH st1 Hnd Hin1 ltac:(congruence) Hbudget1 ltac:(lia))
      as (st' & Hloop & Hsum & Hsub & Hbudget' & Hacks & Hsent & Hrel & Hsame).
    exists st'. rewrite for_each_cons, Hrun.
    split; [assumption|]. split; [|split; [|split; [assumption|]]].
    + rewrite Hsum, Htime1, Hpend1. destruct (_ <? _).
      * rewrite map_size_insert_Some by eauto. lia.
      * rewrite size_delete_present by eauto. lia.
    + intros k' Hk'. apply Hsub in Hk'. rewrite Hpend1 in Hk'.
      destruct (_ <? _).
      * destruct Hk' as [e' He']. apply lookup_insert_Some in He' as [[<- _]|[_ He']]; eauto.
      * destruct Hk' as [e' He']. apply lookup_delete_Some in He' as [_ He']. eauto.
    + split; [congruence|]. split; [congruence|]. split; [congruence|].
      eapply same_settings_trans; eassumption.
Qed.

Lemma checkForTimeouts_sound (env : Env) (st : T) :
  sound st ->
  exists st',
    checkForTimeouts env st = Done (tt, st')
    /\ sound st'
    /\ m_nextSequenceNumber st' = m_nextSequenceNumber st
    /\ m_packetsSent st' = m_packetsSent st
    /\ m_maxRetransmissions st' = m_maxRetransmissions st.
Proof.
  intros (Hp & Hs & Hrel & Hmax & Hnext & Hkeys & Hbudget & Hacks & Hbal).
  unfold checkForTimeouts. rewrite locked_run by assumption.
  unfold bind at 1, get at 1.
  change (timedOutPackets env (set_pendingLock true st)) with (timedOutPackets env st).
  destruct (checkTimedOut_ledger_loop env (timedOutPackets env st) (set_pendingLock true st))
    as (st1 & Hloop & Hsum & Hsub & Hbudget1 & Hacks1 & Hsent1 & Hrel1 & Hsame).
  { apply timedOutPackets_NoDup. }
  { intros k Hk. apply timedOutPackets_elem_of in Hk as (e & He & _). now exists e. }
  { exact Hs. }
  { exact Hbudget. }
  { cbn. lia. }
  rewrite Hloop. exists (set_pendingLock false st1). split; [reflexivity|].
  destruct Hsame as (H1 & H2 & H3 & H4 & H5 & H6 & H7).
  cbn -[timeouts size] in H1, H2, H3, H4, H5, H6, H7, Hsum, Hsub, Hacks1, Hsent1, Hrel1.
  split; [|cbn; repeat split; congruence].
  unfold sound. cbn -[timeouts size].
  split; [reflexivity|]. split; [congruence|]. split; [congruence|].
  split; [rewrite H1; assumption|]. split; [rewrite H7; assumption|].
  split; [|split; [|split]].
  - intros k Hk. rewrite H7. apply Hkeys, Hsub, Hk.
  - exact Hbudget1.
  - rewrite Hacks1. assumption.
  - rewrite Hsent1, Hacks1. lia.
Qed.

Lemma run_sound (calls : list Call) (st : T) :
  sound st ->
  m_nextSequenceNumber st + Z.of_nat (sends calls) < UINT32_MOD ->
  m_packetsSent st + Z.of_nat (sends calls) <= INT_MAX ->
  exists st',
    run calls st = Done (tt, st')
    /\ sound st'
    /\ m_nextSequenceNumber st' = m_nextSequenceNumber st + Z.of_nat (sends calls)
    /\ m_maxRetransmissions st' = m_maxRetransmissions st.
Proof.
  unfold run. revert st. induction calls as [|c calls IH]; intros st Hsound Hn Hc.
  - exists st. cbn. rewrite Z.add_0_r. split; [reflexivity|].
    split; [assumption|]. split; reflexivity.
  - assert (Hstep : exists st1,
               call c st = Done (tt, st1)
               /\ sound st1
               /\ m_nextSequenceNumber st1 =
                    m_nextSequenceNumber st + (if is_send c then 1 else 0)
               /\ m_packetsSent st1 <=
                    m_packetsSent st + (if is_send c then 1 else 0)
               /\ m_maxRetransmissions st1 = m_maxRetransmissions st).
    { destruct c as [env pkt|ds|env]; cbn [call is_send].
      - unfold sends in Hn, Hc. cbn [List.filter is_send length] in Hn, Hc.
        destruct (sendTelemetryData_sound env pkt st Hsound ltac:(lia) ltac:(lia))
          as (st1 & Hrun & H1 & H2 & H3 & H4).
        exists st1. split; [assumption|]. split; [assumption|].
        split; [lia|]. split; [lia | assumption].
      - destruct (processIncomingAcks_sound ds st Hsound ltac:(lia))
          as (st1 & Hrun & H1 & H2 & H3 & H4).
        exists st1. split; [assumption|]. split; [assumption|].
        split; [lia|]. split; [lia | assumption].
      - destruct (checkForTimeouts_sound env st Hsound)
          as (st1 & Hrun & H1 & H2 & H3 & H4).
        exists st1. split; [assumption|]. split; [assumption|].
        split; [lia|]. split; [lia | assumption]. }
    destruct Hstep as (st1 & Hrun & Hsound1 & Hn1 & Hc1 & Hm1).
    assert (Hcount : Z.of_nat (sends (c :: calls))
                     = (if is_send c then 1 else 0) + Z.of_nat (sends calls)).
    { unfold sends. cbn [List.filter]. destruct (is_send c); cbn [length]; lia. }
    destruct (IH st1 Hsound1 ltac:(lia) ltac:(lia)) as (st' & Hrest & Hsound' & Hn' & Hm').
    exists st'. rewrite for_each_cons, Hrun.
    split; [assumption|]. split; [assumption|]. split; [lia | congruence].
Qed.

Lemma init_sound : sound init.
Proof.
  unfold sound, within_budget. cbn.
  split; [reflexivity|]. split; [reflexivity|]. split; [reflexivity|].
  split; [unfold INT_MAX; lia|]. split; [lia|]. split; [|split; [|split]].
  - intros k [e He]. rewrite lookup_empty in He. discriminate.
  - intros k e He. rewrite lookup_empty in He. discriminate.
  - lia.
  - reflexivity.
Qed.

(** X15. The statistics of a reliable sender balance. Whatever sends, arriving
    datagrams and timeout checks follow one another, in whatever order, the
    calls all return (no lock is found held), and every packet the socket
    took is acknowledged, timed out or still pending:
    [m_packetsSent = m_acksReceived + (number of packetTimeout signals)
    + (number of pending packets)]. Neither a duplicate ACK nor a
    retransmission is counted twice. (As long as the counters and the
    sequence number do not wrap.) *)
Theorem every_sent_packet_accounted_for (calls : list Call) (st : T) :
  sound st ->
  m_nextSequenceNumber st + Z.of_nat (sends calls) < UINT32_MOD ->
  m_packetsSent st + Z.of_nat (sends calls) <= INT_MAX ->
  exists st',
    exec (run calls) st = Done st'
    /\ m_pendingLock st' = false
    /\ m_socketLock st' = false
    /\ m_packetsSent st' =
         m_acksReceived st' + Z.of_nat (timeouts (emitted st'))
         + Z.of_nat (size (m_pendingAcks st')).
Proof.
  intros Hsound Hn Hc.
  destruct (run_sound calls st Hsound Hn Hc) as (st' & Hrun & Hsound' & _).
  exists st'. unfold exec. rewrite Hrun.
  destruct Hsound' as (Hp & Hs & _ & _ & _ & _ & _ & _ & Hbal).
  repeat split; try assumption. lia.
Qed.

Lemma every_sent_packet_accounted_for_busy :
  exists st',
    exec (run (send (check_at 500 true) reading :: busy_session)) init = Done st'
    /\ m_pendingLock st' = false
    /\ m_socketLock st' = false
    /\ m_packetsSent st' =
         m_acksReceived st' + Z.of_nat (timeouts (emitted st'))
         + Z.of_nat (size (m_pendingAcks st')).
Proof.
  apply (every_sent_packet_accounted_for _ init).
  - exact init_sound.
  - vm_compute. reflexivity.
  - vm_compute. congruence.
Defined.

(** X16. No pending packet is ever retransmitted more than
    [m_maxRetransmissions] times, and sequence numbers are given out in
    order: through any sends, arriving datagrams and timeout checks, every
    pending entry has a [retransmissionCount] from 0 to
    [m_maxRetransmissions] and is stored under a sequence number below the
    next one, which has advanced by one for each call of
    [sendTelemetryData], whether or not the socket took the datagram. *)
Theorem pending_packets_within_budget (calls : list Call) (st : T) :
  sound st ->
  m_nextSequenceNumber st + Z.of_nat (sends calls) < UINT32_MOD ->
  m_packetsSent st + Z.of_nat (sends calls) <= INT_MAX ->
  exists st',
    exec (run calls) st = Done st'
    /\ m_nextSequenceNumber st' = m_nextSequenceNumber st + Z.of_nat (sends calls)
    /\ forall k e, m_pendingAcks st' !! k = Some e ->
         k < m_nextSequenceNumber st'
         /\ 0 <= retransmissionCount e <= m_maxRetransmissions st.
Proof.
  intros Hsound Hn Hc.
  destruct (run_sound calls st Hsound Hn Hc) as (st' & Hrun & Hsound' & Hnext & Hmax).
  exists st'. unfold exec. rewrite Hrun.
  destruct Hsound' as (_ & _ & _ & _ & _ & Hkeys & Hbudget & _).
  split; [reflexivity|]. split; [assumption|].
  intros k e He. split; [apply Hkeys; eauto|].
  rewrite <- Hmax. eapply Hbudget; eassumption.
Qed.

Lemma pending_packets_within_budget_busy :
  exists st',
    exec (run (send (check_at 500 true) reading :: busy_session)) init = Done st'
    /\ m_nextSequenceNumber st' =
         m_nextSequenceNumber init
         + Z.of_nat (sends (send (check_at 500 true) reading :: busy_session))
    /\ forall k e, m_pendingAcks st' !! k = Some e ->
         k < m_nextSequenceNumber st'
         /\ 0 <= retransmissionCount e <= m_maxRetransmissions init.
Proof.
  apply (pending_packets_within_budget _ init).
  - exact init_sound.
  - vm_compute. reflexivity.
  - vm_compute. congruence.
Defined.

(** *** Checks that find nothing *)

Lemma checkForTimeouts_idle (env : Env) (st : T) :
  m_pendingLock st = false ->
  (forall k e, m_pendingAcks st !! k = Some e -> cutoffTime env st <= sentTime e) ->
  checkForTimeouts env st = Done (tt, st).
Proof.
  intros Hp Hfresh. unfold checkForTimeouts. rewrite locked_run by assumption.
  unfold bind at 1, get at 1.
  change (timedOutPackets env (set_pendingLock true st)) with (timedOutPackets env st).
  assert (Hnone : timedOutPackets env st = []).
  { apply elem_of_nil_inv. intros k Hk.
    apply timedOutPackets_elem_of in Hk as (e & He & Hlt).
    specialize (Hfresh k e He). lia. }
  rewrite Hnone. cbn. now rewrite set_pendingLock_restore.
Qed.

(** X17. No packet is retransmitted or given up before its time: a check at
    which every pending packet was last sent at or after the cut-off time
    (now minus [m_ackTimeoutMs]) writes nothing to the socket, signals
    nothing and leaves the sender exactly as it was. A packet sent exactly
    [m_ackTimeoutMs] milliseconds ago is not yet overdue. *)
Theorem checkForTimeouts_before_timeout_does_nothing (env : Env) (st : T) :
  m_pendingLock st = false ->
  (forall k e, m_pendingAcks st !! k = Some e -> cutoffTime env st <= sentTime e) ->
  exec (checkForTimeouts env) st = Done st.
Proof.
  intros Hp Hfresh. unfold exec. now rewrite checkForTimeouts_idle.
Qed.

Lemma checkForTimeouts_before_timeout_does_nothing_at_4000 :
  exec (checkForTimeouts (check_at 4000 true)) waiting = Done waiting.
Proof.
  apply checkForTimeouts_before_timeout_does_nothing.
  - reflexivity.
  - intros k e He. change (m_pendingAcks waiting) with (<[1 := waiting_entry]> (∅ : gmap Z PendingPacket)) in He.
    apply lookup_insert_Some in He as [[_ <-]|[_ He]].
    + vm_compute. congruence.
    + rewrite lookup_empty in He. discriminate.
Defined.

(** X18. A sender with reliability off tracks nothing: through any sends,
    arriving datagrams and timeout checks it keeps no pending packet, so it
    never retransmits, never signals [packetTimeout] and never counts an
    ACK, whatever arrives. *)
Theorem reliability_off_tracks_nothing (calls : list Call) (st : T) :
  m_pendingLock st = false ->
  m_socketLock st = false ->
  m_reliabilityEnabled st = false ->
  m_pendingAcks st = ∅ ->
  exists st',
    exec (run calls) st = Done st'
    /\ m_pendingAcks st' = ∅
    /\ m_retransmissions st' = m_retransmissions st
    /\ m_acksReceived st' = m_acksReceived st
    /\ timeouts (emitted st') = timeouts (emitted st).
Proof.
  unfold run. revert st. induction calls as [|c calls IH]; intros st Hp Hs Hrel Hnone.
  - exists st. now repeat split.
  - assert (Hstep : exists st1,
               call c st = Done (tt, st1)
               /\ m_pendingLock st1 = false
               /\ m_socketLock st1 = false
               /\ m_reliabilityEnabled st1 = false
               /\ m_pendingAcks st1 = ∅
               /\ m_retransmissions st1 = m_retransmissions st
               /\ m_acksReceived st1 = m_acksReceived st
               /\ timeouts (emitted st1) = timeouts (emitted st)).
    { destruct c as [env pkt|ds|env]; cbn [call].
      - destruct (sendTelemetryData_run env pkt st Hp Hs)
          as (st1 & Hrun & _ & _ & Hpend & Hem & Hp1 & Hs1 & Hrel1 & _).
        destruct (sendTelemetryData_counters env pkt st Hp Hs)
          as (st2 & Hrun2 & Hacks & Hretr).
        rewrite Hrun in Hrun2. injection Hrun2 as <-.
        cbv zeta in Hpend, Hem. rewrite Hrel, andb_false_r in Hpend.
        exists st1. repeat split; try congruence.
        rewrite Hem, timeouts_app. cbn [timeouts List.filter is_timeout].
        destruct (socket_accepts env _); cbn; lia.
      - rewrite processIncomingAcks_effect by assumption.
        assert (Hfold : foldl absorb st ds = st).
        { induction ds as [|d ds IHd]; [reflexivity|]. cbn [foldl].
          assert (Hone : absorb st d = st).
          { unfold absorb. destruct (acknowledged d) as [k|]; [|reflexivity].
            rewrite Hnone, lookup_empty. rewrite bool_decide_false; [reflexivity|].
            intros [? ?]; discriminate. }
          now rewrite Hone. }
        rewrite Hfold. eexists. split; [reflexivity|]. cbn -[timeouts].
        repeat split; try assumption. rewrite timeouts_app. cbn. lia.
      - rewrite checkForTimeouts_idle; [|assumption|].
        + exists st. now repeat split.
        + intros k e He. rewrite Hnone, lookup_empty in He. discriminate. }
    destruct Hstep as (st1 & Hrun & Hp1 & Hs1 & Hrel1 & Hnone1 & Hretr1 & Hacks1 & Htime1).
    destruct (IH st1 Hp1 Hs1 Hrel1 Hnone1) as (st' & Hrest & Hnone' & Hretr' & Hacks' & Htime').
    exists st'. unfold exec in *. rewrite for_each_cons, Hrun.
    split; [assumption|]. repeat split; congruence.
Qed.

Lemma reliability_off_tracks_nothing_busy :
  exists st',
    exec (run (send (check_at 500 true) reading :: busy_session))
         (set_reliabilityEnabled false init) = Done st'
    /\ m_pendingAcks st' = ∅
    /\ m_retransmissions st' = m_retransmissions (set_reliabilityEnabled false init)
    /\ m_acksReceived st' = m_acksReceived (set_reliabilityEnabled false init)
    /\ timeouts (emitted st') = timeouts (emitted (set_reliabilityEnabled false init)).
Proof.
  apply (reliability_off_tracks_nothing _ (set_reliabilityEnabled false init));
    reflexivity.
Defined.

End SenderMore.

(** ** Sender and receiver together, without ACKs *)

Module LinkMore.

(** A packet as [fromJson] reads it on the far side of the wire. *)
Definition arrived (p : TelemetryPacket) : TelemetryPacket :=
  {| sequenceNumber := sequenceNumber p;
     timestamp := timestamp p;
     latitude := wire_double (latitude p);
     longitude := wire_double (longitude p);
     speed := wire_double (speed p);
     status := status p;
     needsAck := needsAck p |}.

(** A double the wire carries as it is: a number (no NaN, no infinity)
    that is not the negative zero. *)
Definition exact_on_wire (d : float) : Prop :=
  PrimFloat.is_nan d = false
  /\ PrimFloat.is_infinity d = false
  /\ (PrimFloat.is_zero d = true -> d = 0%float).

Lemma wire_double_exact (d : float) : exact_on_wire d -> wire_double d = d.
Proof.
  intros (Hn & Hi & Hz). unfold wire_double, wire_value. rewrite Hn, Hi. cbn [orb].
  destruct (PrimFloat.is_zero d); cbn [toDouble]; [symmetry; now apply Hz | reflexivity].
Qed.

Lemma on_the_wire_toJson (p : TelemetryPacket) :
  on_the_wire (TelemetryPacket_toJson p) =
    <["seq"%string := JInteger (sequenceNumber p)]>
    (<["timestamp"%string := JInteger (timestamp p)]>
    (<["latitude"%string := wire_value (JDouble (latitude p))]>
    (<["longitude"%string := wire_value (JDouble (longitude p))]>
    (<["speed"%string := wire_value (JDouble (speed p))]>
    (<["status"%string := JString (status p)]>
    (<["needsAck"%string := JBool (needsAck p)]> ∅)))))).
Proof.
  unfold on_the_wire, TelemetryPacket_toJson.
  now rewrite !fmap_insert, fmap_empty.
Qed.

Lemma fromJson_on_the_wire (p : TelemetryPacket) :
  0 <= sequenceNumber p <= INT_MAX ->
  TelemetryPacket_fromJson (on_the_wire (TelemetryPacket_toJson p)) = arrived p.
Proof.
  intros H. rewrite on_the_wire_toJson. unfold TelemetryPacket_fromJson, jget.
  rewrite ?lookup_insert_ne by discriminate.
  rewrite ?lookup_insert_eq. cbn [default from_option id toLongLong toString toBool].
  rewrite CodecProps.toInt_in_range by (unfold is_i32, INT_MIN, INT_MAX in *; lia).
  rewrite wrap_u32_id by (unfold is_u32, UINT32_MOD, INT_MAX in *; lia).
  reflexivity.
Qed.

Lemma telemetry_on_the_wire_is_no_ack (p : TelemetryPacket) :
  is_ack_document (on_the_wire (TelemetryPacket_toJson p)) = false.
Proof.
  rewrite on_the_wire_toJson. unfold is_ack_document, jcontains, jget.
  rewrite ?lookup_insert_ne by discriminate. rewrite lookup_empty.
  rewrite bool_decide_false; [reflexivity|]. intros [? ?]; discriminate.
Qed.

(** X19. A packet sent with reliability off reaches the application on the
    other side as the wire carries it: when the socket takes the datagram
    and the network delivers it, the receiver's loop returns and signals
    [telemetryDataReceived] with the sender's sequence number and time
    stamp, the status that was handed to [sendTelemetryData], and latitude,
    longitude and speed as [toDouble()] reads them off the wire, then
    [statisticsUpdated], and sends no ACK. A latitude, longitude or speed
    that is a number other than the negative zero arrives as it was sent; a
    NaN or an infinity arrives as 0, and so does a negative zero. For
    sequence numbers an [int] holds. *)
Theorem unreliable_packet_arrives_as_sent
    (env env' : Env) (pkt : TelemetryPacket) (st : Sender.T) (r : Receiver.R) :
  Sender.m_pendingLock st = false ->
  Sender.m_socketLock st = false ->
  Sender.m_reliabilityEnabled st = false ->
  socket_accepts env (TelemetryPacket_toJson (SenderProps.stamped env st pkt)) = true ->
  0 <= Sender.m_nextSequenceNumber st <= INT_MAX ->
  Receiver.m_socketLock r = false ->
  Receiver.m_dataLock r = false ->
  exists st' new r',
    exec (Sender.sendTelemetryData env pkt) st = Done st'
    /\ Sender.emitted st' = Sender.emitted st ++ new
    /\ exec (Receiver.processPendingDatagrams env' (LinkProps.delivered new)) r = Done r'
    /\ Receiver.emitted r' =
         Receiver.emitted r
         ++ [telemetryDataReceived (arrived (SenderProps.stamped env st pkt));
             statisticsUpdated]
    /\ Receiver.m_acksSent r' = Receiver.m_acksSent r
    /\ (exact_on_wire (latitude pkt) ->
        exact_on_wire (longitude pkt) ->
        exact_on_wire (speed pkt) ->
        arrived (SenderProps.stamped env st pkt) = SenderProps.stamped env st pkt)
    /\ (PrimFloat.is_nan (latitude pkt) || PrimFloat.is_infinity (latitude pkt) = true ->
        latitude (arrived (SenderProps.stamped env st pkt)) = 0%float).
Proof.
  intros Hp Hs Hrel Hok Hseq Hrs Hrd.
  destruct (SenderProps.sendTelemetryData_run env pkt st Hp Hs)
    as (st' & Hrun & _ & _ & _ & Hem & _).
  cbv zeta in Hem. rewrite Hok in Hem.
  exists st'.
  exists [writeDatagram (TelemetryPacket_toJson (SenderProps.stamped env st pkt))
            (Sender.m_targetAddress st) (Sender.m_targetPort st) true;
          statisticsUpdated].
  unfold exec at 1. rewrite Hrun.
  set (p := SenderProps.stamped env st pkt) in *.
  assert (Hback : TelemetryPacket_fromJson (on_the_wire (TelemetryPacket_toJson p))
                  = arrived p)
    by (apply fromJson_on_the_wire; subst p; cbn; lia).
  assert (Hdec : ReceiverMore.decoded
                   {| dg_isValid := true;
                      dg_document := Some (on_the_wire (TelemetryPacket_toJson p));
                      dg_senderAddress := "192.0.2.1";
                      dg_senderPort := 40000 |} = Some (arrived p)).
  { unfold ReceiverMore.decoded. cbn [dg_isValid dg_document].
    now rewrite telemetry_on_the_wire_is_no_ack, Hback. }
  pose proof (ReceiverMore.processDatagram_decoded env'
                {| dg_isValid := true;
                   dg_document := Some (on_the_wire (TelemetryPacket_toJson p));
                   dg_senderAddress := "192.0.2.1";
                   dg_senderPort := 40000 |}
                (Receiver.set_socketLock true r)) as Hd.
  rewrite Hdec in Hd. specialize (Hd ltac:(subst p; cbn; assumption)).
  destruct (ReceiverProps.processReceivedPacket_run (arrived p)
              (Receiver.set_socketLock true r) Hrd)
    as (r1 & Hrun1 & _ & _ & _ & _ & _ & Hem1 & _ & _ & _ & _ & Hacks & _).
  exists (Receiver.set_socketLock false r1).
  split; [reflexivity|]. split; [exact Hem|].
  cbn [LinkProps.delivered omap list_omap]. split; [|split; [|split; [|split]]].
  - unfold exec, Receiver.processPendingDatagrams. rewrite locked_run by assumption.
    rewrite for_each_cons, Hd, Hrun1. reflexivity.
  - exact Hem1.
  - exact Hacks.
  - intros H1 H2 H3. unfold arrived. subst p. cbn [SenderProps.stamped latitude longitude speed
      sequenceNumber timestamp status needsAck].
    now rewrite !wire_double_exact by assumption.
  - intros Hbad. subst p. cbn [arrived SenderProps.stamped latitude].
    unfold wire_double, wire_value. now rewrite Hbad.
Qed.

Lemma unreliable_packet_arrives_as_sent_first :
  exists st' new r',
    exec (Sender.sendTelemetryData SenderProps.accepting_env SenderProps.reading)
         LinkProps.fire_and_forget = Done st'
    /\ Sender.emitted st' = Sender.emitted LinkProps.fire_and_forget ++ new
    /\ exec (Receiver.processPendingDatagrams ReceiverProps.quiet_env
               (LinkProps.delivered new)) Receiver.init = Done r'
    /\ Receiver.emitted r' =
         Receiver.emitted Receiver.init
         ++ [telemetryDataReceived
               (arrived (SenderProps.stamped SenderProps.accepting_env
                           LinkProps.fire_and_forget SenderProps.reading));
             statisticsUpdated]
    /\ Receiver.m_acksSent r' = Receiver.m_acksSent Receiver.init
    /\ arrived (SenderProps.stamped SenderProps.accepting_env LinkProps.fire_and_forget
                  SenderProps.reading)
       = SenderProps.stamped SenderProps.accepting_env LinkProps.fire_and_forget
           SenderProps.reading.
Proof.
  assert (Hseq : 0 <= Sender.m_nextSequenceNumber LinkProps.fire_and_forget <= INT_MAX)
    by (vm_compute; split; congruence).
  destruct (unreliable_packet_arrives_as_sent
              SenderProps.accepting_env ReceiverProps.quiet_env SenderProps.reading
              LinkProps.fire_and_forget Receiver.init
              eq_refl eq_refl eq_refl eq_refl Hseq eq_refl eq_refl)
    as (st' & new & r' & H1 & H2 & H3 & H4 & H5 & H6 & _).
  exists st', new, r'.
  split; [exact H1|]. split; [exact H2|]. split; [exact H3|]. split; [exact H4|].
  split; [exact H5|].
  apply H6; (split; [reflexivity | split; [reflexivity | discriminate]]).
Defined.

End LinkMore.

(** ** The plain socket: recording and playback *)

Module PlainSocketProps.
Import PlainSocket.

(** What parsing and emitting one datagram signals. *)
Definition signals_of (datagram : QByteArray) : list Signal :=
  match datagram with
  | Malformed errorString =>
      [errorOccurred ("JSON parse error: " ++ errorString);
       telemetryDataReceived TelemetryData_default]
  | NotAnObject =>
      [errorOccurred "Received JSON is not an object";
       telemetryDataReceived TelemetryData_default]
  | Document obj =>
      [telemetryDataReceived
         {| latitude := toDouble (jget obj "latitude");
            longitude := toDouble (jget obj "longitude");
            speed := toDouble (jget obj "speed");
            status := toString (jget obj "status") |}]
  end.

(** What one pending datagram signals when it arrives. *)
Definition live (pending : Pending) : list Signal :=
  match pending with
  | ReadFailed errorString => [errorOccurred ("Failed to read UDP datagram: " ++ errorString)]
  | Received datagram => signals_of datagram
  end.

(** The datagrams that were read. *)
Definition received (pending : list Pending) : list QByteArray :=
  omap (fun p => match p with Received d => Some d | ReadFailed _ => None end) pending.

Definition is_telemetry (e : Signal) : bool :=
  match e with telemetryDataReceived _ => true | _ => false end.

(** [n] periods of the playback timer. *)
Definition periods (n : nat) : Slot P unit :=
  for_each (replicate n tt) (fun _ => timeout).

Lemma parse_and_emit (datagram : QByteArray) (s : P) :
  bind (parseTelemetryData datagram) emitTelemetryData s =
    Done (tt, set_emitted (emitted s ++ signals_of datagram) s).
Proof.
  destruct datagram as [msg| |obj]; slot_steps; cbv [emit emitTelemetryData modify];
    cbn; rewrite <- ?app_assoc; reflexivity.
Qed.

Lemma processDatagram_effect (pending : Pending) (s : P) :
  processDatagram pending s =
    Done (tt, set_emitted (emitted s ++ live pending)
                (set_recordedPackets
                   (m_recordedPackets s
                    ++ (if m_isRecording s then received [pending] else [])) s)).
Proof.
  destruct pending as [msg|d]; cbn [processDatagram live received omap list_omap].
  - cbv [emit modify]. destruct (m_isRecording s); rewrite app_nil_r; now destruct s.
  - unfold bind at 1, get at 1. unfold bind at 1.
    destruct (m_isRecording s) eqn:Hrec.
    + unfold modify at 1. rewrite parse_and_emit. reflexivity.
    + unfold ret at 1. rewrite parse_and_emit, app_nil_r. now destruct s.
Qed.

Lemma processPendingDatagrams_effect (pending : list Pending) (s : P) :
  processPendingDatagrams pending s =
    Done (tt, set_emitted (emitted s ++ flat_map live pending)
                (set_recordedPackets
                   (m_recordedPackets s
                    ++ (if m_isRecording s then received pending else [])) s)).
Proof.
  unfold processPendingDatagrams. revert s.
  induction pending as [|p ps IH]; intros s.
  - cbn. destruct (m_isRecording s); rewrite !app_nil_r; now destruct s.
  - rewrite for_each_cons, processDatagram_effect, IH. cbn -[received].
    f_equal. f_equal. unfold set_emitted, set_recordedPackets. cbn -[received].
    rewrite <- !app_assoc. f_equal.
    destruct (m_isRecording s); [|now rewrite !app_nil_r].
    destruct p; cbn; now rewrite ?app_nil_r.
Qed.

(** X20. The receive loop, for any pending datagrams and any state: it
    returns; a datagram that cannot be read signals an error and nothing
    else; every datagram that is read signals [telemetryDataReceived]
    exactly once, after an [errorOccurred] when it is no JSON object (the
    data are then the defaults, at 0, 0 with status OK); while recording,
    the datagrams that were read, and only they, are appended to the
    recording in arrival order. *)
Theorem processPendingDatagrams_signals_and_records (pending : list Pending) (s : P) :
  exists s',
    exec (processPendingDatagrams pending) s = Done s'
    /\ emitted s' = emitted s ++ flat_map live pending
    /\ length (List.filter is_telemetry (flat_map live pending)) = length (received pending)
    /\ m_recordedPackets s' =
         m_recordedPackets s ++ (if m_isRecording s then received pending else [])
    /\ m_isRecording s' = m_isRecording s
    /\ m_playbackIndex s' = m_playbackIndex s
    /\ m_playbackTimer_isActive s' = m_playbackTimer_isActive s.
Proof.
  unfold exec. rewrite processPendingDatagrams_effect.
  eexists. split; [reflexivity|]. cbn -[received].
  split; [reflexivity|]. split; [|repeat split; reflexivity].
  induction pending as [|p ps IH]; [reflexivity|].
  cbn [flat_map]. rewrite List.filter_app, length_app, IH.
  destruct p as [msg|[msg| |obj]]; reflexivity.
Qed.

Lemma timeout_replays_one (s : P) (before after : list QByteArray) (d : QByteArray) :
  m_playbackTimer_isActive s = true ->
  m_recordedPackets s = before ++ d :: after ->
  m_playbackIndex s = Z.of_nat (length before) ->
  Z.of_nat (length (m_recordedPackets s)) <= INT_MAX ->
  timeout s =
    Done (tt, set_playbackIndex (Z.of_nat (length (before ++ [d])))
                (set_emitted (emitted s ++ signals_of d) s)).
Proof.
  intros Hact Hrec Hidx Hlen.
  destruct s as [rec pk act iv idx em]. cbn in Hact, Hrec, Hidx, Hlen. subst.
  unfold timeout. unfold bind at 1, get at 1.
  cbn [m_playbackTimer_isActive]. unfold playbackNextPacket. unfold bind at 1, get at 1.
  cbn [m_recordedPackets m_playbackIndex].
  rewrite length_app in Hlen |- *. cbn [length] in Hlen |- *.
  destruct (Z.leb_spec (Z.of_nat (length before + S (length after)))
              (Z.of_nat (length before))); [lia|].
  destruct (Z.ltb_spec (Z.of_nat (length before)) 0); [lia|].
  rewrite Nat2Z.id.
  rewrite (list_lookup_middle before after d (length before) eq_refl).
  rewrite length_app. cbn [length].
  assert (Hnext : wrap_i32 (Z.of_nat (length before) + 1) = Z.of_nat (length before + 1)).
  { rewrite wrap_i32_id by (unfold is_i32, INT_MIN, INT_MAX in *; lia). lia. }
  destruct d as [msg| |obj]; slot_steps; cbv [emit emitTelemetryData modify];
    cbn -[wrap_i32 Z.of_nat]; rewrite Hnext, <- ?app_assoc; reflexivity.
Qed.

Lemma periods_replay (after before : list QByteArray) (s : P) :
  m_playbackTimer_isActive s = true ->
  m_recordedPackets s = before ++ after ->
  m_playbackIndex s = Z.of_nat (length before) ->
  Z.of_nat (length (m_recordedPackets s)) <= INT_MAX ->
  periods (length after) s =
    Done (tt, set_playbackIndex (Z.of_nat (length (m_recordedPackets s)))
                (set_emitted (emitted s ++ flat_map signals_of after) s)).
Proof.
  unfold periods. revert before s.
  induction after as [|d after IH]; intros before s Hact Hrec Hidx Hlen.
  - cbn. rewrite Hrec, !app_nil_r, <- Hidx. now destruct s.
  - cbn [length replicate]. rewrite for_each_cons.
    rewrite (timeout_replays_one s before after d) by assumption.
    rewrite (IH (before ++ [d])); cbn; try assumption.
    + f_equal. f_equal. unfold set_playbackIndex, set_emitted. cbn.
      now rewrite <- app_assoc.
    + now rewrite Hrec, <- app_assoc.
    + reflexivity.
Qed.

(** X21. Playback replays the recording and then stops by itself. From any
    state that holds a recording, [startPlayback] followed by as many
    timer periods as there are recorded datagrams signals, for each
    recorded datagram in the order of recording, exactly what it signalled
    when it arrived; the period after the last one stops the timer and
    signals [playbackStatusChanged(false)]; later periods do nothing. No
    period reads outside the recording. *)
Theorem playback_replays_recording_then_stops (intervalMs : Z) (s : P) :
  m_recordedPackets s <> [] ->
  Z.of_nat (length (m_recordedPackets s)) <= INT_MAX ->
  exists s1 s2,
    exec (startPlayback intervalMs ;;; periods (length (m_recordedPackets s)))%slot s
      = Done s1
    /\ emitted s1 =
         emitted s ++ [playbackStatusChanged true]
         ++ flat_map signals_of (m_recordedPackets s)
    /\ m_playbackTimer_isActive s1 = true
    /\ exec timeout s1 = Done s2
    /\ emitted s2 = emitted s1 ++ [playbackStatusChanged false]
    /\ m_playbackTimer_isActive s2 = false
    /\ m_recordedPackets s2 = m_recordedPackets s
    /\ forall n, exec (periods n) s2 = Done s2.
Proof.
  intros Hrec Hlen.
  set (started :=
         set_emitted (emitted s ++ [playbackStatusChanged true])
           (set_playbackTimer_isActive true
              (set_playbackTimer_interval intervalMs (set_playbackIndex 0 s)))).
  assert (Hstart : startPlayback intervalMs s = Done (tt, started)).
  { unfold startPlayback. unfold bind at 1, get at 1.
    destruct (m_recordedPackets s); [contradiction|]. reflexivity. }
  pose proof (periods_replay (m_recordedPackets s) [] started eq_refl eq_refl eq_refl Hlen)
    as Hplay.
  change (m_recordedPackets started) with (m_recordedPackets s) in Hplay.
  eexists. eexists. unfold exec, bind. rewrite Hstart, Hplay.
  split; [reflexivity|]. cbn -[Z.of_nat flat_map].
  split; [now rewrite <- app_assoc|]. split; [reflexivity|].
  unfold timeout, playbackNextPacket, bind, get. cbn -[Z.of_nat flat_map].
  rewrite Z.leb_refl. cbv [stopPlayback bind modify emit]. cbn -[Z.of_nat flat_map].
  split; [reflexivity|]. cbn -[Z.of_nat flat_map].
  split; [reflexivity|]. split; [reflexivity|]. split; [reflexivity|].
  intros n. unfold periods. induction n as [|n IH]; [reflexivity|].
  cbn [replicate]. rewrite for_each_cons. exact IH.
Qed.

(** Three datagrams recorded: a position, bytes that are no JSON, and a
    document without a status. *)
Definition recording : P :=
  set_recordedPackets
    [Document (<["latitude"%string := JDouble 41%float]>
               (<["longitude"%string := JDouble 29%float]>
               (<["speed"%string := JDouble 12%float]>
               (<["status"%string := JString "OK"]> ∅))));
     Malformed "illegal value";
     Document (<["latitude"%string := JDouble 41.5%float]> ∅)]
    init.

Lemma playback_replays_recording_then_stops_of_three :
  exists s1 s2,
    exec (startPlayback 500 ;;; periods (length (m_recordedPackets recording)))%slot recording
      = Done s1
    /\ emitted s1 =
         emitted recording ++ [playbackStatusChanged true]
         ++ flat_map signals_of (m_recordedPackets recording)
    /\ m_playbackTimer_isActive s1 = true
    /\ exec timeout s1 = Done s2
    /\ emitted s2 = emitted s1 ++ [playbackStatusChanged false]
    /\ m_playbackTimer_isActive s2 = false
    /\ m_recordedPackets s2 = m_recordedPackets recording
    /\ forall n, exec (periods n) s2 = Done s2.
Proof.
  apply (playback_replays_recording_then_stops 500 recording).
  - discriminate.
  - vm_compute. congruence.
Defined.

End PlainSocketProps.

(** ** The radar display: limits *)

Module RadarProps.
Import Radar.

Lemma SFcompare_antisym (x y : spec_float) :
  SFcompare y x = match SFcompare x y with
                  | Some c => Some (CompOpp c)
                  | None => None
                  end.
Proof.
  destruct x as [sx|sx| |sx mx ex], y as [sy|sy| |sy my ey]; cbn; try reflexivity;
    try (destruct sx, sy; reflexivity).
  destruct sx, sy; try reflexivity.
  - rewrite (Z.compare_antisym ex ey). destruct (ex ?= ey); cbn; try reflexivity.
    rewrite CompOpp_involutive. now rewrite Pos.compare_cont_antisym.
  - rewrite (Z.compare_antisym ex ey). destruct (ex ?= ey); cbn; try reflexivity.
    now rewrite Pos.compare_cont_antisym.
Qed.

Lemma SFcompare_none (x y : spec_float) :
  SFcompare x y = None -> x = S754_nan \/ y = S754_nan.
Proof.
  destruct x as [sx|sx| |sx mx ex], y as [sy|sy| |sy my ey]; cbn; try discriminate; auto.
Qed.

Lemma ltb_leb (x y : float) : (x <? y)%float = true -> (x <=? y)%float = true.
Proof.
  rewrite FloatAxioms.ltb_spec, FloatAxioms.leb_spec. unfold SFltb, SFleb.
  destruct (SFcompare _ _) as [[]|]; congruence.
Qed.

(** [x] is not above [y] and is a number (something is below it): then it
    is at most [y]. *)
Lemma not_ltb_leb (x y z : float) :
  (y <=? y)%float = true ->
  (y <? x)%float = false -> (z <? x)%float = true -> (x <=? y)%float = true.
Proof.
  rewrite !FloatAxioms.ltb_spec, !FloatAxioms.leb_spec. unfold SFltb, SFleb.
  rewrite (SFcompare_antisym (Prim2SF x) (Prim2SF y)).
  destruct (SFcompare (Prim2SF x) (Prim2SF y)) as [[]|] eqn:E; cbn; try congruence.
  intros Hy _ Hz. apply SFcompare_none in E as [E|E]; rewrite E in *.
  - destruct (Prim2SF z); discriminate.
  - discriminate.
Qed.

Lemma nan_below_nothing (x y : float) :
  is_nan x = true -> (y <? x)%float = false.
Proof.
  unfold is_nan. rewrite FloatAxioms.eqb_spec, FloatAxioms.ltb_spec. unfold SFeqb, SFltb.
  destruct (Prim2SF x) as [sx|sx| |sx mx ex]; cbn.
  - discriminate.
  - destruct sx; discriminate.
  - intros _. now destruct (Prim2SF y).
  - rewrite Z.compare_refl, Pos.compare_cont_refl. destruct sx; discriminate.
Qed.

Lemma clamp_within (lo hi x : float) :
  (lo <=? lo)%float = true ->
  (hi <=? hi)%float = true ->
  (lo <=? hi)%float = true ->
  (lo <=? qMax lo (qMin hi x))%float = true
  /\ (qMax lo (qMin hi x) <=? hi)%float = true.
Proof.
  intros Hlo Hhi Hle. unfold qMin.
  destruct (hi <? x)%float eqn:Hx; unfold qMax.
  - destruct (lo <? hi)%float; split; assumption.
  - destruct (lo <? x)%float eqn:Hl.
    + split; [now apply ltb_leb|]. now apply (not_ltb_leb x hi lo).
    + split; assumption.
Qed.

(** X22. The limits of the display hold for every [double], infinities and
    NaN included: after [setRange] the range lies from 0.5 to 100 nautical
    miles (NaN gives 0.5), the number of range rings is 4, 5 or 6, and
    [rangeChanged] carries the range that was set, not the one asked for;
    a wheel event, in either direction and from any range, leaves the range
    within the same limits; after [setSweepSpeed] the speed lies from 1 to
    60. *)
Theorem display_settings_within_limits (x : float) (angleDeltaY : Z) (w : RadarWidget) :
  ((0.5 <=? m_rangeNM (setRange x w))%float = true
   /\ (m_rangeNM (setRange x w) <=? 100)%float = true
   /\ 4 <= m_numRangeRings (setRange x w) <= 6
   /\ emitted (setRange x w) = emitted w ++ [rangeChanged (m_rangeNM (setRange x w))]
   /\ (is_nan x = true -> m_rangeNM (setRange x w) = 0.5%float))
  /\ ((0.5 <=? m_rangeNM (wheelEvent angleDeltaY w))%float = true
      /\ (m_rangeNM (wheelEvent angleDeltaY w) <=? 100)%float = true)
  /\ ((1 <=? m_sweepRPM (setSweepSpeed x w))%float = true
      /\ (m_sweepRPM (setSweepSpeed x w) <=? 60)%float = true).
Proof.
  assert (Hrange : forall y,
             (0.5 <=? qMax 0.5 (qMin 100 y))%float = true
             /\ (qMax 0.5 (qMin 100 y) <=? 100)%float = true)
    by (intros y; apply clamp_within; reflexivity).
  split; [|split].
  - cbn [setRange m_rangeNM m_numRangeRings emitted].
    destruct (Hrange x) as [H1 H2].
    split; [assumption|]. split; [assumption|]. split; [|split; [reflexivity|]].
    + destruct (_ <=? 2)%float; [lia|]. destruct (_ <=? 10)%float; lia.
    + intros Hnan. unfold qMin, qMax.
      rewrite (nan_below_nothing x 100 Hnan), (nan_below_nothing x 0.5 Hnan). reflexivity.
  - unfold wheelEvent. destruct (0 <? angleDeltaY); cbn [setRange m_rangeNM]; apply Hrange.
  - cbn [setSweepSpeed m_sweepRPM]. apply clamp_within; reflexivity.
Qed.

End RadarProps.

(** ** The sender's window: what it shows *)

Module SenderWindowProps.
Import SenderWindow.

(** The packet the window builds, and shows in [m_lastDataLabel]. *)
Definition shown (env : Env) (w : MainWindow) : TelemetryPacket :=
  {| sequenceNumber := 0;
     timestamp := currentDateTime env;
     latitude := m_currentLat w;
     longitude := m_currentLon w;
     speed := m_currentSpeed w;
     status := "OK";
     needsAck := true |}.

(** The packet the sender writes to the socket for it. *)
Definition on_wire (env : Env) (w : MainWindow) : TelemetryPacket :=
  SenderProps.stamped env (m_reliableSender w) (shown env w).

(** One tick of the send timer. *)
Lemma sendTelemetryData_tick (env : Env) (w : MainWindow) :
  Sender.m_pendingLock (m_reliableSender w) = false ->
  Sender.m_socketLock (m_reliableSender w) = false ->
  let ok := socket_accepts env (TelemetryPacket_toJson (on_wire env w)) in
  exists w',
    sendTelemetryData env w = Done (tt, w')
    /\ Sender.m_pendingLock (m_reliableSender w') = false
    /\ Sender.m_socketLock (m_reliableSender w') = false
    /\ Sender.m_nextSequenceNumber (m_reliableSender w') =
         wrap_u32 (Sender.m_nextSequenceNumber (m_reliableSender w) + 1)
    /\ m_lastDataLabel w' = Some (shown env w)
    /\ m_packetCount w' = wrap_i32 (m_packetCount w + 1)
    /\ m_packetCountLabel w' = m_packetCount w'
    /\ Sender.m_packetsSent (m_reliableSender w') =
         (if ok then wrap_i32 (Sender.m_packetsSent (m_reliableSender w) + 1)
          else Sender.m_packetsSent (m_reliableSender w)).
Proof.
  intros Hp Hs ok.
  destruct (SenderProps.sendTelemetryData_run env (shown env w) (m_reliableSender w) Hp Hs)
    as (st' & Hrun & Hnext & Hsent & _ & _ & Hp' & Hs' & _).
  cbv zeta in Hsent.
  eexists.
  unfold sendTelemetryData. unfold bind at 1, get at 1. fold (shown env w).
  unfold bind at 1. unfold on_sender at 1. rewrite Hrun.
  cbv [bind modify]. cbn -[wrap_i32 wrap_u32 shown].
  split; [reflexivity|]. cbn -[wrap_i32 wrap_u32 shown].
  split; [exact Hp'|]. split; [exact Hs'|]. split; [exact Hnext|].
  split; [reflexivity|]. split; [reflexivity|]. split; [reflexivity|]. exact Hsent.
Qed.

Lemma wrap_u32_add (x n : Z) : wrap_u32 (wrap_u32 x + n) = wrap_u32 (x + n).
Proof. unfold wrap_u32. now rewrite Zplus_mod_idemp_l. Qed.

(** A socket that takes no datagram. *)
Definition refuses (env : Env) : Prop :=
  forall data, socket_accepts env data = false.

(** X23. The window counts and shows what it asked for, not what was sent.
    After any number of ticks of the send timer the window's
    [m_packetCount], shown as "Packets sent", has gone up by the number of
    ticks, also when the socket refused every datagram and the sender's own
    [m_packetsSent] did not move; the sender's sequence number has advanced
    by the number of ticks, but [m_lastDataLabel] shows the window's own
    packet, whose sequence number is 0 after every tick. *)
Theorem window_counts_ticks_and_shows_sequence_0 (envs : list Env) (w : MainWindow) :
  Sender.m_pendingLock (m_reliableSender w) = false ->
  Sender.m_socketLock (m_reliableSender w) = false ->
  is_i32 (m_packetCount w) ->
  is_u32 (Sender.m_nextSequenceNumber (m_reliableSender w)) ->
  exists w',
    exec (for_each envs sendTelemetryData) w = Done w'
    /\ m_packetCount w' = wrap_i32 (m_packetCount w + Z.of_nat (length envs))
    /\ Sender.m_nextSequenceNumber (m_reliableSender w') =
         wrap_u32 (Sender.m_nextSequenceNumber (m_reliableSender w)
                   + Z.of_nat (length envs))
    /\ (envs <> [] ->
        sequenceNumber <$> m_lastDataLabel w' = Some 0
        /\ m_packetCountLabel w' = m_packetCount w')
    /\ (Forall refuses envs ->
        Sender.m_packetsSent (m_reliableSender w')
        = Sender.m_packetsSent (m_reliableSender w)).
Proof.
  unfold exec. revert w. induction envs as [|env envs IH]; intros w Hp Hs Hc Hn.
  - exists w. cbn. rewrite !Z.add_0_r, wrap_i32_id, wrap_u32_id by assumption.
    repeat split; congruence.
  - destruct (sendTelemetryData_tick env w Hp Hs)
      as (w1 & Hrun & Hp1 & Hs1 & Hn1 & Hshown1 & Hc1 & Hlabel1 & Hsent1).
    destruct (IH w1 Hp1 Hs1) as (w' & Hrest & Hc' & Hn' & Hshown' & Hsent').
    { rewrite Hc1. apply wrap_i32_range. }
    { rewrite Hn1. apply wrap_u32_range. }
    exists w'. rewrite for_each_cons, Hrun.
    destruct (for_each envs sendTelemetryData w1) as [[[] w2]| |] eqn:E;
      try discriminate. injection Hrest as ->.
    split; [reflexivity|]. split; [|split; [|split]].
    + rewrite Hc', Hc1, ReceiverMore.wrap_i32_add. cbn [length]. f_equal. lia.
    + rewrite Hn', Hn1, wrap_u32_add. cbn [length]. f_equal. lia.
    + intros _. destruct envs as [|env' envs'].
      * cbn in E. injection E as <-. rewrite Hshown1. split; [reflexivity | assumption].
      * apply Hshown'. discriminate.
    + intros Hall. apply Forall_cons in Hall as [Hrefused Hall].
      rewrite (Hsent' Hall), Hsent1. now rewrite Hrefused.
Qed.

(** A window just opened, its sender pointed at the receiver. *)
Definition opened : MainWindow :=
  {| m_reliableSender := Sender.init;
     m_currentLat := 41%float; m_currentLon := 29%float; m_currentSpeed := 12%float;
     m_latIncrement := 0%float; m_lonIncrement := 0%float;
     m_packetCount := 0; m_packetCountLabel := 0;
     m_lastDataLabel := None |}.

Lemma window_counts_ticks_and_shows_sequence_0_thrice :
  exists w',
    exec (for_each [SenderProps.refusing_env; SenderProps.refusing_env;
                    SenderProps.refusing_env] sendTelemetryData) opened = Done w'
    /\ m_packetCount w' = wrap_i32 (m_packetCount opened + Z.of_nat 3)
    /\ Sender.m_nextSequenceNumber (m_reliableSender w') =
         wrap_u32 (Sender.m_nextSequenceNumber (m_reliableSender opened) + Z.of_nat 3)
    /\ ([SenderProps.refusing_env; SenderProps.refusing_env; SenderProps.refusing_env]
        <> [] ->
        sequenceNumber <$> m_lastDataLabel w' = Some 0
        /\ m_packetCountLabel w' = m_packetCount w')
    /\ (Forall refuses [SenderProps.refusing_env; SenderProps.refusing_env;
                        SenderProps.refusing_env] ->
        Sender.m_packetsSent (m_reliableSender w')
        = Sender.m_packetsSent (m_reliableSender opened)).
Proof.
  apply (window_counts_ticks_and_shows_sequence_0
           [SenderProps.refusing_env; SenderProps.refusing_env; SenderProps.refusing_env]
           opened).
  - reflexivity.
  - reflexivity.
  - vm_compute. split; congruence.
  - vm_compute. split; [congruence | reflexivity].
Defined.

End SenderWindowProps.
